(** * Process-lifecycle demonstration harness (assignment1.py)

    A shallow embedding of [assignment1.py] and the properties of its
    specification.  The program is a POSIX process orchestrator: it forks
    children, reaps them with [os.wait], and exchanges experiment records
    through files under [/tmp].

    Layout: Part I holds the definitions (Python library functions, the
    program syntax, the operating-system model, the embedded functions of
    the source), Part II the lemmas and theorems. *)

From Stdlib Require Import ZArith NArith QArith Lia List String Ascii Bool.
From Stdlib Require Import Sorting.Sorted Sorting.Permutation.
From stdpp Require Import base option gmap strings.
Import ListNotations.

#[local] Open Scope string_scope.
#[local] Open Scope list_scope.
#[local] Open Scope Z_scope.

(* ===================================================================== *)
(** * Part I.  Definitions                                               *)
(* ===================================================================== *)

(** ** Python exceptions and fallible pure code *)

(** The exception classes that the source can meet. *)
Inductive exn : Set :=
| ZeroDivisionError
| IndexError
| ValueError
| FileNotFoundError
| PermissionError
| ChildProcessError
| OSError.

#[global] Instance exn_eq_dec : EqDecision exn.
Proof. solve_decision. Defined.

(** Pure code that may raise returns [exn + A]. *)
Definition ebind {A B : Type} (m : exn + A) (k : A -> exn + B) : exn + B :=
  match m with
  | inl e => inl e
  | inr a => k a
  end.

Notation "'let?' x ':=' m 'in' k" := (ebind m (fun x => k))
  (at level 10, x pattern, m at level 100, k at level 200, only parsing).

(** ** Python built-ins on integers *)

(** [a % b]: floor modulo, [ZeroDivisionError] on a zero divisor. *)
Definition py_mod (a b : Z) : exn + Z :=
  if b =? 0 then inl ZeroDivisionError else inr (a mod b).

(** [range(lo, hi)]: empty when [hi <= lo]. *)
Fixpoint range_from (lo : Z) (len : nat) : list Z :=
  match len with
  | O => []
  | S len' => lo :: range_from (lo + 1) len'
  end.

Definition range (lo hi : Z) : list Z := range_from lo (Z.to_nat (hi - lo)).

(** ** WorkloadRunner: [cpu_work] (lines 171-176) *)

(** One turn of the loop body [s += (i * i) % (i + 1)]. *)
Definition cpu_step (acc : exn + Z) (i : Z) : exn + Z :=
  let? s := acc in
  let? r := py_mod (i * i) (i + 1) in
  inr (s + r).

Definition cpu_work (iterations : Z) : exn + Z :=
  fold_left cpu_step (range 1 iterations) (inr 0).

(** ** Python strings

    A [str] is modelled as a [string] of code points below 256. *)

(** [str.isspace] on one code point below 256. *)
Definition is_space (c : ascii) : bool :=
  let n := nat_of_ascii c in
  ((9 <=? n)%nat && (n <=? 13)%nat) || ((28 <=? n)%nat && (n <=? 32)%nat)
  || (n =? 133)%nat || (n =? 160)%nat.

Definition snoc (s : string) (c : ascii) : string := s +:+ String c "".

Definition is_empty (s : string) : bool :=
  match s with
  | "" => true
  | _ => false
  end.

(** [str.split()] with no separator: maximal runs of non-blank characters. *)
Fixpoint split_ws (cur s : string) : list string :=
  match s with
  | "" => if is_empty cur then [] else [cur]
  | String c s' =>
      if is_space c
      then (if is_empty cur then split_ws "" s' else cur :: split_ws "" s')
      else split_ws (snoc cur c) s'
  end.

Definition py_split (s : string) : list string := split_ws "" s.

(** [str.split(sep)] for a one-character separator: always at least one
    field. *)
Fixpoint split_on (sep : ascii) (cur s : string) : list string :=
  match s with
  | "" => [cur]
  | String c s' =>
      if Ascii.eqb c sep
      then cur :: split_on sep "" s'
      else split_on sep (snoc cur c) s'
  end.

Definition py_split_sep (sep : ascii) (s : string) : list string :=
  split_on sep "" s.

Fixpoint lstrip (s : string) : string :=
  match s with
  | "" => ""
  | String c s' => if is_space c then lstrip s' else s
  end.

Fixpoint rstrip (s : string) : string :=
  match s with
  | "" => ""
  | String c s' =>
      let r := rstrip s' in
      if is_empty r && is_space c then "" else String c r
  end.

(** [str.strip()]. *)
Definition py_strip (s : string) : string := rstrip (lstrip s).

(** *** Decimal digits *)

Definition digit_char (d : N) : ascii := ascii_of_N (48 + d).

Definition digit_val (c : ascii) : option N :=
  let n := N_of_ascii c in
  if ((48 <=? n) && (n <=? 57))%N then Some (n - 48)%N else None.

(** A digit part of a Python numeric literal: digits, with single
    underscores allowed between two digits.  [seen] tells whether the
    previous character was a digit. *)
Fixpoint digits_go (acc : N) (seen : bool) (s : string) : option N :=
  match s with
  | "" => if seen then Some acc else None
  | String c s' =>
      match digit_val c with
      | Some d => digits_go (10 * acc + d)%N true s'
      | None =>
          if Ascii.eqb c "_" && seen then digits_go acc false s' else None
      end
  end.

Definition parse_digits (s : string) : option N := digits_go 0%N false s.

(** Number of digit characters of a string. *)
Fixpoint count_digits (s : string) : nat :=
  match s with
  | "" => O
  | String c s' =>
      match digit_val c with
      | Some _ => S (count_digits s')
      | None => count_digits s'
      end
  end.

(** The [k] low decimal digits of [x], most significant first, in front of
    [tail]. *)
Fixpoint digits_acc (k : nat) (x : N) (tail : string) : string :=
  match k with
  | O => tail
  | S k' => digits_acc k' (x / 10)%N (String (digit_char (x mod 10)%N) tail)
  end.

Definition digits_fixed (k : nat) (x : N) : string := digits_acc k x "".

Fixpoint strip_zeros (s : string) : string :=
  match s with
  | String c ((String _ _) as s') =>
      if Ascii.eqb c "0" then strip_zeros s' else s
  | _ => s
  end.

(** [str(x)] for a natural number: no leading zero, ["0"] for zero. *)
Definition str_N (x : N) : string :=
  strip_zeros (digits_fixed (S (N.to_nat (N.log2 x))) x).

(** [str(z)] for an [int]. *)
Definition str_Z (z : Z) : string :=
  if z <? 0 then String "-" (str_N (Z.to_N (- z))) else str_N (Z.to_N z).

Definition split_sign (s : string) : bool * string :=
  match s with
  | String "-" r => (true, r)
  | String "+" r => (false, r)
  | _ => (false, s)
  end.

(** [int(s)] in base ten: surrounding blanks, an optional sign, a digit
    part; [ValueError] otherwise.  The blanks removed are those of
    [str.strip]; [int] itself does not remove the separators 28 to 31, so
    that the two differ on a text that starts or ends with one of them.
    None occurs in a record that a child wrote nor in a name of
    [/proc/<pid>/fd]; the theorems that say how a record parses are
    stated for the records of the children. *)
Definition py_int (s : string) : exn + Z :=
  let '(neg, body) := split_sign (py_strip s) in
  match parse_digits body with
  | Some v => inr (if neg then - Z.of_N v else Z.of_N v)
  | None => inl ValueError
  end.

(** *** Floats

    A Python [float] that travels through a result record is a decimal
    literal; its value is kept as an exact rational.  [float(s)] is
    modelled on the plain decimal spellings ([12], [12.5], [.5], [12.]),
    which are all that the children write.  [float] also reads an
    exponent, [inf] and [nan]; these are outside the embedding, which
    has neither an infinite value nor an unordered one, and [py_float]
    answers [ValueError] on them where [float] gives a value.  What is
    proved of the parsing and of the ranking is therefore proved of the
    records that the children of the run write: the theorems about the
    table are stated for runs in which every record read was written by
    a child of the run (no [open] refused, or no stale record,
    [fresh_records]), and those about records of any content count the
    rows and the reports without saying which is which. *)

Fixpoint pow10 (k : nat) : positive :=
  match k with
  | O => 1%positive
  | S k' => (10 * pow10 k')%positive
  end.

Definition float_body (b : string) : option Q :=
  match py_split_sep "." b with
  | [ip] =>
      match parse_digits ip with
      | Some i => Some (Z.of_N i # 1)
      | None => None
      end
  | [ip; fp] =>
      if is_empty fp then
        match parse_digits ip with
        | Some i => Some (Z.of_N i # 1)
        | None => None
        end
      else
        match (if is_empty ip then Some 0%N else parse_digits ip),
              parse_digits fp with
        | Some i, Some f =>
            let k := count_digits fp in
            Some ((Z.of_N i * Z.pos (pow10 k) + Z.of_N f) # pow10 k)
        | _, _ => None
        end
  | _ => None
  end.

Definition py_float (s : string) : exn + Q :=
  let '(neg, body) := split_sign (py_strip s) in
  match float_body body with
  | Some q => inr (if neg then Qopp q else q)
  | None => inl ValueError
  end.

(** Clock readings and durations are counted in microseconds, the
    resolution that the format [{duration:.6f}] keeps; [us_float] is the
    [float] of seconds they stand for. *)
Definition us_float (us : Z) : Q := us # 1000000.

(** [f"{duration:.6f}"] of a duration given in microseconds. *)
Definition fmt6 (us : Z) : string :=
  let a := Z.to_N (Z.abs us) in
  (if us <? 0 then "-" else "")
  +:+ str_N (a / 1000000) +:+ "." +:+ digits_fixed 6 (a mod 1000000).

Example str_Z_samples :
  (str_Z 0, str_Z 7, str_Z 1234, str_Z (-50), str_Z 1000)
  = ("0", "7", "1234", "-50", "1000").
Proof. reflexivity. Qed.

Example fmt6_samples :
  (fmt6 0, fmt6 1234567, fmt6 42, fmt6 (-1500000))
  = ("0.000000", "1.234567", "0.000042", "-1.500000").
Proof. reflexivity. Qed.

Example py_int_samples :
  (py_int " 12 ", py_int "-7", py_int "1_000", py_int "1__0", py_int "",
   py_int "+", py_int "12a")
  = (inr 12, inr (-7), inr 1000, inl ValueError, inl ValueError,
     inl ValueError, inl ValueError).
Proof. reflexivity. Qed.

Example py_float_samples :
  (py_float "0.000042", py_float "12.", py_float ".5", py_float ".",
   py_float "1.2.3", py_float " -3.25 ")
  = (inr (42 # 1000000), inr (12 # 1), inr (5 # 10), inl ValueError,
     inl ValueError, inr (- (325 # 100))%Q).
Proof. reflexivity. Qed.

Example py_split_samples :
  (py_split "ls -l", py_split "  ", py_split "", py_split " a  b ")
  = (["ls"; "-l"], [], [], ["a"; "b"]).
Proof. reflexivity. Qed.

Example cpu_work_samples :
  (cpu_work 0, cpu_work 1, cpu_work 2, cpu_work 5)
  = (inr 0, inr 0, inr 1, inr 4).
Proof. reflexivity. Qed.

(** ** Programs

    A function of the source that talks to the operating system is a tree
    of system calls.  [Sys] is a call that returns to the caller, [Fork]
    is [os.fork()], whose continuation runs twice (with 0 in the child,
    with the child's pid in the parent), [Execvp] returns only when the
    replacement fails, [Exit] is [os._exit]/[sys.exit] and [Raise] an
    exception that nothing catches. *)

Inductive stream : Set := Stdout | Stderr.

(** A printed line: the literal and the interpolated parts of the
    f-string, in order. *)
Inductive piece : Set :=
| Lit (s : string)
| Int (z : Z)
| Flt (prec : nat) (q : Q)
| Flag (b : bool)
| Err (e : exn).

Definition message : Set := list piece.

Inductive call : Set -> Type :=
| Getpid : call Z
| Getppid : call Z
| OsName : call string
| Print (s : stream) (m : message) : call unit
| Wait : call (exn + Z * Z)
| Waitpid (pid : Z) : call (exn + Z * Z)
| Nice (inc : Z) : call (exn + Z)
| Monotonic : call Z
| Sleep (secs : Z) : call unit
| SubprocessRun (cmd : string) : call (exn + unit)
| PathExists (path : string) : call bool
| ReadText (path : string) : call (exn + string)
| WriteText (path content : string) : call (exn + unit)
| Unlink (path : string) : call (exn + unit).

Inductive prog (A : Type) : Type :=
| Ret (a : A)
| Sys {X : Set} (c : call X) (k : X -> prog A)
| Fork (k : Z -> prog A)
| Execvp (file : string) (args : list string) (k : exn -> prog A)
| Exit (code : Z)
| Raise (e : exn).

Arguments Ret {A} a.
Arguments Sys {A X} c k.
Arguments Fork {A} k.
Arguments Execvp {A} file args k.
Arguments Exit {A} code.
Arguments Raise {A} e.

Fixpoint bind {A B : Type} (p : prog A) (k : A -> prog B) : prog B :=
  match p with
  | Ret a => k a
  | Sys c h => Sys c (fun x => bind (h x) k)
  | Fork h => Fork (fun pid => bind (h pid) k)
  | Execvp file args h => Execvp file args (fun e => bind (h e) k)
  | Exit code => Exit code
  | Raise e => Raise e
  end.

Notation "'let*' x ':=' p 'in' k" := (bind p (fun x => k))
  (at level 10, x pattern, p at level 100, k at level 200, only parsing).
Notation "p >> k" := (bind p (fun _ => k))
  (at level 100, k at level 200, right associativity, only parsing).

(** A call whose result is used. *)
Definition sys {X : Set} (c : call X) : prog X := Sys c Ret.

(** A call whose exception, if any, is not caught at the call site. *)
Definition sys_raise {X : Set} (c : call (exn + X)) : prog X :=
  let* r := sys c in
  match r with
  | inl e => Raise e
  | inr x => Ret x
  end.

(** Pure code that may raise, run inside a program. *)
Definition lift {A : Type} (m : exn + A) : prog A :=
  match m with
  | inl e => Raise e
  | inr a => Ret a
  end.

(** [for x in xs: body], with the variables that the body assigns
    threaded as [s]. *)
Fixpoint for_each {X S : Type} (xs : list X) (body : X -> S -> prog S)
    (s : S) : prog S :=
  match xs with
  | [] => Ret s
  | x :: xs' => let* s' := body x s in for_each xs' body s'
  end.

Definition print (m : message) : prog unit := sys (Print Stdout m).
Definition eprint (m : message) : prog unit := sys (Print Stderr m).
Definition os_getpid : prog Z := sys Getpid.
Definition os_getppid : prog Z := sys Getppid.
Definition os_fork : prog Z := Fork Ret.
Definition os_wait : prog (Z * Z) := sys_raise Wait.
Definition os__exit {A : Type} (code : Z) : prog A := Exit code.
Definition sys_exit {A : Type} (code : Z) : prog A := Exit code.
Definition time_sleep (secs : Z) : prog unit := sys (Sleep secs).
Definition time_monotonic : prog Z := sys Monotonic.

(** ** The operating system

    How a process ends: [os._exit(code)] or [sys.exit(code)], an uncaught
    exception, or replacement by a program that later ends with the given
    wait status. *)
Inductive halt : Set :=
| HExit (code : Z)
| HRaise (e : exn)
| HExec (status : Z).

(** The status that [os.wait] reports: the exit code in the high byte; an
    uncaught exception ends the interpreter with exit code 1. *)
Definition wait_status (h : halt) : Z :=
  match h with
  | HExit code => (code mod 256) * 256
  | HRaise _ => 256
  | HExec status => status
  end.

Inductive event : Set :=
| EvPrint (pid : Z) (s : stream) (m : message)
| EvFork (pid child : Z)
| EvEnd (pid : Z) (h : halt)
| EvReap (pid child status : Z)
| EvNice (pid inc : Z) (denied : bool)
| EvSleep (pid secs : Z)
| EvRun (pid : Z) (cmd : string)
| EvExec (pid : Z) (file : string) (args : list string)
| EvStat (pid : Z) (path : string) (present : bool)
| EvRead (pid : Z) (path content : string)
| EvWrite (pid : Z) (path content : string)
| EvUnlink (pid : Z) (path : string).

Inductive exec_outcome : Set :=
| ExecFails (e : exn)
| ExecRuns (status : Z).

(** What the program cannot decide: every choice of the kernel, the
    scheduler and the file system is read from [Env], indexed by the
    number of choices made so far ([tick]). *)
Record Env : Type := {
  os_name : string;
  pid_gap : nat -> positive;
  arrival : nat -> nat;
  nice_denied : nat -> bool;
  elapse : nat -> N;
  open_denied : nat -> bool;
  unlink_denied : nat -> bool;
  subprocess_raises : nat -> option exn;
  exec_result : nat -> string -> list string -> exec_outcome
}.

(** The state private to one process: its pid, its parent's pid, its
    terminated children not yet reaped (pid and wait status), its
    niceness. *)
Record Proc : Type := {
  self : Z;
  parent : Z;
  kids : list (Z * Z);
  niceness : Z
}.

(** The state shared by all processes: the files, the monotonic clock (in
    microseconds), the highest pid handed out, the number of choices made,
    and the trace of what happened. *)
Record Machine : Type := {
  fs : gmap string string;
  now : Z;
  last_pid : positive;
  tick : nat;
  trace : list event
}.

Record World : Type := {
  proc : Proc;
  mach : Machine;
  env : Env
}.

Inductive result (A : Type) : Type :=
| Done (a : A) (w : World)
| Halted (h : halt) (w : World).

Arguments Done {A} a w.
Arguments Halted {A} h w.

Definition set_mach (m : Machine) (w : World) : World :=
  {| proc := proc w; mach := m; env := env w |}.

Definition set_kids (ks : list (Z * Z)) (w : World) : World :=
  {| proc := {| self := self (proc w); parent := parent (proc w);
                kids := ks; niceness := niceness (proc w) |};
     mach := mach w; env := env w |}.

Definition set_niceness (v : Z) (w : World) : World :=
  {| proc := {| self := self (proc w); parent := parent (proc w);
                kids := kids (proc w); niceness := v |};
     mach := mach w; env := env w |}.

Definition log (ev : event) (w : World) : World :=
  set_mach {| fs := fs (mach w); now := now (mach w);
              last_pid := last_pid (mach w); tick := tick (mach w);
              trace := trace (mach w) ++ [ev] |} w.

Definition next_tick (w : World) : World :=
  set_mach {| fs := fs (mach w); now := now (mach w);
              last_pid := last_pid (mach w); tick := S (tick (mach w));
              trace := trace (mach w) |} w.

Definition set_fs (f : gmap string string) (w : World) : World :=
  set_mach {| fs := f; now := now (mach w);
              last_pid := last_pid (mach w); tick := tick (mach w);
              trace := trace (mach w) |} w.

Definition set_now (t : Z) (w : World) : World :=
  set_mach {| fs := fs (mach w); now := t;
              last_pid := last_pid (mach w); tick := tick (mach w);
              trace := trace (mach w) |} w.

Definition set_last_pid (p : positive) (w : World) : World :=
  set_mach {| fs := fs (mach w); now := now (mach w);
              last_pid := p; tick := tick (mach w);
              trace := trace (mach w) |} w.

Definition me (w : World) : Z := self (proc w).

(** Removal of the [j]-th element. *)
Definition remove_nth {A : Type} (j : nat) (l : list A) : list A :=
  firstn j l ++ skipn (S j) l.

(** Index of the first child with the given pid. *)
Fixpoint find_kid (pid : Z) (ks : list (Z * Z)) : option nat :=
  match ks with
  | [] => None
  | (p, _) :: ks' =>
      if p =? pid then Some O
      else match find_kid pid ks' with
           | Some j => Some (S j)
           | None => None
           end
  end.

(** Reaping the [j]-th unreaped child. *)
Definition reap (j : nat) (w : World) : (exn + Z * Z) * World :=
  match nth_error (kids (proc w)) j with
  | Some (pid, status) =>
      (inr (pid, status),
       log (EvReap (me w) pid status) (set_kids (remove_nth j (kids (proc w))) w))
  | None => (inl ChildProcessError, w)
  end.

Definition clamp_nice (v : Z) : Z := Z.max (-20) (Z.min 19 v).

(** The effect of a call that returns to its caller.  Every child of the
    caller has terminated by the time the caller waits (see [run]), so
    [os.wait] picks any unreaped child: which one is the scheduler's
    choice [arrival]. *)
Definition do_call {X : Set} (c : call X) (w : World) : X * World :=
  match c in call X return X * World with
  | Getpid => (me w, w)
  | Getppid => (parent (proc w), w)
  | OsName => (os_name (env w), w)
  | Print s m => (tt, log (EvPrint (me w) s m) w)
  | Wait =>
      match kids (proc w) with
      | [] => (inl ChildProcessError, w)
      | ks =>
          reap (arrival (env w) (tick (mach w)) mod length ks)%nat
               (next_tick w)
      end
  | Waitpid pid =>
      match find_kid pid (kids (proc w)) with
      | Some j => reap j w
      | None => (inl ChildProcessError, w)
      end
  | Nice inc =>
      let denied := nice_denied (env w) (tick (mach w)) in
      let w1 := log (EvNice (me w) inc denied) (next_tick w) in
      if denied then (inl PermissionError, w1)
      else
        let v := clamp_nice (niceness (proc w) + inc) in
        (inr v, set_niceness v w1)
  | Monotonic =>
      let t := now (mach w) + Z.of_N (elapse (env w) (tick (mach w))) in
      (t, set_now t (next_tick w))
  | Sleep secs =>
      (tt, log (EvSleep (me w) secs)
             (set_now (now (mach w) + Z.max 0 secs * 1000000) w))
  | SubprocessRun cmd =>
      let w1 := log (EvRun (me w) cmd) (next_tick w) in
      match subprocess_raises (env w) (tick (mach w)) with
      | Some e => (inl e, w1)
      | None => (inr tt, w1)
      end
  | PathExists path =>
      let present := bool_decide (is_Some (fs (mach w) !! path)) in
      (present, log (EvStat (me w) path present) w)
  | ReadText path =>
      match fs (mach w) !! path with
      | Some txt => (inr txt, log (EvRead (me w) path txt) w)
      | None => (inl FileNotFoundError, w)
      end
  | WriteText path content =>
      if open_denied (env w) (tick (mach w))
      then (inl PermissionError, next_tick w)
      else (inr tt,
            log (EvWrite (me w) path content)
              (set_fs (<[path := content]> (fs (mach w))) (next_tick w)))
  | Unlink path =>
      match fs (mach w) !! path with
      | None => (inl FileNotFoundError, w)
      | Some _ =>
          if unlink_denied (env w) (tick (mach w))
          then (inl PermissionError, next_tick w)
          else (inr tt,
                log (EvUnlink (me w) path)
                  (set_fs (delete path (fs (mach w))) (next_tick w)))
      end
  end.

(** How a process ended and the world it left.  A child that returns from
    the whole program leaves the interpreter with exit code 0. *)
Definition outcome {A : Type} (r : result A) : halt * World :=
  match r with
  | Done _ w => (HExit 0, w)
  | Halted h w => (h, w)
  end.

(** [os.fork()] seen from the parent.  The kernel picks a pid above every
    pid handed out so far.  The child starts as a copy of the caller with
    no children of its own, shares the machine, and runs to its end before
    the parent goes on; the parent then holds it as an unreaped child.

    This is one of the schedules that the kernel allows.  What each
    process does on its own does not depend on the schedule as long as
    the parent waits for its children before it uses what they leave;
    where the parent leaves without waiting (mode ["orphan"] of task 3)
    the child outlives it, and only what is said of the events of the
    caller itself and of the child run on its own is independent of the
    schedule. *)
Definition spawn (child : World -> halt * World) (w : World) : Z * World :=
  let p := (last_pid (mach w) + pid_gap (env w) (tick (mach w)))%positive in
  let c := Z.pos p in
  let w0 := log (EvFork (me w) c) (set_last_pid p (next_tick w)) in
  let wc := {| proc := {| self := c; parent := me w; kids := [];
                          niceness := niceness (proc w) |};
               mach := mach w0; env := env w |} in
  let '(h, w1) := child wc in
  (c, log (EvEnd c h)
        (set_kids (kids (proc w) ++ [(c, wait_status h)])
           (set_mach (mach w1) w))).

Fixpoint run {A : Type} (p : prog A) (w : World) : result A :=
  match p with
  | Ret a => Done a w
  | Sys c k => let '(x, w') := do_call c w in run (k x) w'
  | Fork k =>
      let '(c, w') := spawn (fun wc => outcome (run (k 0) wc)) w in
      run (k c) w'
  | Execvp file args k =>
      match exec_result (env w) (tick (mach w)) file args with
      | ExecFails e => run (k e) (next_tick w)
      | ExecRuns status =>
          Halted (HExec status) (log (EvExec (me w) file args) (next_tick w))
      end
  | Exit code => Halted (HExit code) w
  | Raise e => Halted (HRaise e) w
  end.

(** ** Task 1: [task1_create_children] (lines 22-41) *)

(** The branch [pid == 0] of the loop body (lines 31-33). *)
Definition task1_child {A : Type} (i : Z) : prog A :=
  let* pid := os_getpid in
  let* ppid := os_getppid in
  print [Lit "[CHILD "; Int pid; Lit "] parent="; Int ppid;
         Lit " message='Hello from child "; Int i; Lit "'"] >>
  os__exit 0.

(** The reaping loop shared by tasks 1 and 2 (lines 38-40 and 75-77). *)
Definition reap_loop (children : list Z) : prog unit :=
  for_each children (fun _ (_ : unit) =>
    let* r := os_wait in
    let '(waited_pid, status) := r in
    let* pid := os_getpid in
    print [Lit "[PARENT "; Int pid; Lit "] Reaped child "; Int waited_pid;
           Lit " status="; Int status]) tt.

Definition task1_create_children (n : Z) : prog unit :=
  let* pid := os_getpid in
  print [Lit "[PARENT "; Int pid; Lit "] Starting: creating "; Int n;
         Lit " children"] >>
  let* children :=
    for_each (range 0 n) (fun i children =>
      let* pid := os_fork in
      if pid =? 0 then task1_child i
      else Ret (children ++ [pid])) [] in
  reap_loop children >>
  let* pid := os_getpid in
  print [Lit "[PARENT "; Int pid; Lit "] All children reaped. Done."].

(** ** Task 2: [task2_exec_children] (lines 43-78) *)

(** The branch [pid == 0] of the loop body (lines 54-70).  [args[0]] is
    evaluated inside the [try], whose only handler is for
    [FileNotFoundError]. *)
Definition task2_child {A : Type} (cmd : string) (use_exec : bool) : prog A :=
  let* pid := os_getpid in
  let* ppid := os_getppid in
  print [Lit "[CHILD "; Int pid; Lit "] parent="; Int ppid;
         Lit " executing '"; Lit cmd; Lit "'"] >>
  if use_exec then
    let args := py_split cmd in
    match args with
    | [] => Raise IndexError
    | arg0 :: _ =>
        Execvp arg0 args (fun e =>
          match e with
          | FileNotFoundError =>
              let* pid := os_getpid in
              eprint [Lit "[CHILD "; Int pid; Lit "] exec failed: ";
                      Lit arg0; Lit " not found"] >>
              os__exit 1
          | _ => Raise e
          end)
    end
  else
    (let* r := sys (SubprocessRun cmd) in
     match r with
     | inl e =>
         let* pid := os_getpid in
         eprint [Lit "[CHILD "; Int pid; Lit "] subprocess error: "; Err e]
     | inr _ => Ret tt
     end) >>
    os__exit 0.

Definition task2_exec_children (n : Z) (cmd : string) (use_exec : bool)
    : prog unit :=
  let* pid := os_getpid in
  print [Lit "[PARENT "; Int pid; Lit "] Creating "; Int n;
         Lit " children to run: "; Lit cmd; Lit " (use_exec=";
         Flag use_exec; Lit ")"] >>
  let* children :=
    for_each (range 0 n) (fun i children =>
      let* pid := os_fork in
      if pid =? 0 then task2_child cmd use_exec
      else Ret (children ++ [pid])) [] in
  reap_loop children >>
  print [Lit "[PARENT] Task 2 complete."].

(** ** Task 3: [task3_zombie_or_orphan] (lines 80-126) *)

Definition task3_child {A : Type} (mode : string) : prog A :=
  if String.eqb mode "zombie" then
    let* pid := os_getpid in
    print [Lit "[CHILD "; Int pid;
           Lit "] exiting immediately (will become zombie if parent doesn't wait)"] >>
    os__exit 0
  else if String.eqb mode "orphan" then
    let* pid := os_getpid in
    print [Lit "[CHILD "; Int pid;
           Lit "] running for 10s to show orphanhood; parent should exit"] >>
    for_each (range 0 10) (fun i (_ : unit) =>
      let* pid := os_getpid in
      let* ppid := os_getppid in
      print [Lit "[CHILD "; Int pid; Lit "] working... "; Int (i + 1);
             Lit "/10 parent now: "; Int ppid] >>
      time_sleep 1) tt >>
    let* pid := os_getpid in
    let* ppid := os_getppid in
    print [Lit "[CHILD "; Int pid; Lit "] done; parent now "; Int ppid] >>
    os__exit 0
  else
    print [Lit "[CHILD] unknown mode"] >>
    os__exit 1.

Definition task3_parent (mode : string) (pid : Z) : prog unit :=
  if String.eqb mode "zombie" then
    let* me := os_getpid in
    print [Lit "[PARENT "; Int me; Lit "] child "; Int pid;
           Lit " created and will be left to become zombie. Sleeping 15s (do NOT wait)."] >>
    time_sleep 15 >>
    let* me := os_getpid in
    print [Lit "[PARENT "; Int me; Lit "] Now reaping child "; Int pid;
           Lit " with wait()"] >>
    let* r := sys (Waitpid pid) in
    match r with
    | inr (wpid, status) =>
        let* me := os_getpid in
        print [Lit "[PARENT "; Int me; Lit "] Reaped "; Int wpid;
               Lit " status="; Int status]
    | inl ChildProcessError => print [Lit "[PARENT] no child to wait for"]
    | inl e => Raise e
    end
  else if String.eqb mode "orphan" then
    let* me := os_getpid in
    print [Lit "[PARENT "; Int me; Lit "] Exiting immediately; child ";
           Int pid; Lit " runs on."] >>
    os__exit 0
  else
    print [Lit "[PARENT] unknown mode"] >>
    os__exit 1.

Definition task3_zombie_or_orphan (mode : string) : prog unit :=
  let* me := os_getpid in
  print [Lit "[PID "; Int me; Lit "] Running Task3 mode="; Lit mode;
         Lit ". Note: run on Linux and use another terminal to `ps -el | grep defunct`"] >>
  let* pid := os_fork in
  if pid =? 0 then task3_child mode
  else task3_parent mode pid.

(** ** Task 5: [task5_prioritization] (lines 178-238) *)

(** [except OSError]: the classes below [OSError]. *)
Definition is_os_error (e : exn) : bool :=
  match e with
  | FileNotFoundError | PermissionError | ChildProcessError | OSError => true
  | _ => false
  end.

(** The name of the result record of the child [pid]. *)
Definition result_path (pid : Z) : string :=
  "/tmp/process_demo_child_" +:+ str_Z pid +:+ ".txt".

Definition newline : string := String (ascii_of_nat 10) "".

(** The line a child writes: [f"{pid},{nice_offset},{duration:.6f}\n"]. *)
Definition format_record (pid nice_offset duration : Z) : string :=
  str_Z pid +:+ "," +:+ str_Z nice_offset +:+ "," +:+ fmt6 duration
  +:+ newline.

(** The branch [pid == 0] of the loop body (lines 194-208). *)
Definition task5_child {A : Type} (i : Z) : prog A :=
  let nice_offset := i * 5 in
  (let* r := sys (Nice nice_offset) in
   match r with
   | inr _ => Ret tt
   | inl e =>
       if is_os_error e then
         let* pid := os_getpid in
         print [Lit "[CHILD "; Int pid; Lit "] unable to set nice: "; Err e]
       else Raise e
   end) >>
  let* start := time_monotonic in
  let* work_result := lift (cpu_work 500000) in
  let* stop := time_monotonic in
  let duration := stop - start in
  let* pid := os_getpid in
  print [Lit "[CHILD "; Int pid; Lit "] nice_offset="; Int nice_offset;
         Lit " duration="; Flt 3 (us_float duration); Lit "s done"] >>
  let* pid := os_getpid in
  sys_raise (WriteText (result_path pid)
               (format_record pid nice_offset duration)) >>
  os__exit 0.

(** An experiment entry as the parent holds it: [(pid, nice, duration)]. *)
Definition entry : Type := Z * Z * Q.

Definition duration_of (e : entry) : Q := snd e.

(** The body of the [try] (lines 224-225): unpacking into three fields and
    the three conversions. *)
Definition parse_record (txt : string) : exn + entry :=
  match py_split_sep "," txt with
  | [pid_s; nice_s; dur_s] =>
      let? p := py_int pid_s in
      let? n := py_int nice_s in
      let? d := py_float dur_s in
      inr (p, n, d)
  | _ => inl ValueError
  end.

(** [a < b] on floats. *)
Definition float_lt (a b : Q) : bool := negb (Qle_bool b a).

(** [list.sort(key=...)]: a stable sort that compares keys with [<] only.
    An element goes in front of the first one whose key is not smaller. *)
Fixpoint insert_by {A : Type} (key : A -> Q) (x : A) (l : list A) : list A :=
  match l with
  | [] => [x]
  | y :: l' =>
      if float_lt (key y) (key x) then y :: insert_by key x l' else x :: l
  end.

Definition sort_by {A : Type} (key : A -> Q) (l : list A) : list A :=
  fold_right (insert_by key) [] l.

(** The body of the loop that reads the records back (lines 220-232). *)
Definition collect_body (pid : Z) (entries : list entry)
    : prog (list entry) :=
  let pfile := result_path pid in
  let* present := sys (PathExists pfile) in
  if (present : bool) then
    let* raw := sys_raise (ReadText pfile) in
    let txt := py_strip raw in
    let* entries' :=
      match parse_record txt with
      | inr e => Ret (entries ++ [e])
      | inl _ =>
          print [Lit "Malformed result file for"; Lit " "; Int pid] >>
          Ret entries
      end in
    let* _ := sys (Unlink pfile) in
    Ret entries'
  else Ret entries.

Definition collect_loop (children : list Z) : prog (list entry) :=
  for_each children collect_body [].

Definition report_rows (entries : list entry) : prog unit :=
  for_each entries (fun e (_ : unit) =>
    let '(pid_s, nice_s, dur_s) := e in
    print [Int pid_s; Lit "\t"; Int nice_s; Lit "\t"; Flt 3 dur_s]) tt.

Definition task5_prioritization (n : Z) : prog unit :=
  let* pid := os_getpid in
  print [Lit "[PARENT "; Int pid; Lit "] Spawning "; Int n;
         Lit " CPU-bound children with varied nice()"] >>
  let* children :=
    for_each (range 0 n) (fun i children =>
      let* pid := os_fork in
      if pid =? 0 then task5_child i
      else Ret (children ++ [pid])) [] in
  for_each children (fun _ (_ : unit) =>
    let* r := os_wait in
    let '(wpid, status) := r in
    print [Lit "[PARENT] Reaped child "; Int wpid; Lit " status=";
           Int status]) tt >>
  print [Lit "\nResults (collected from /tmp files):"] >>
  let* entries := collect_loop children in
  let entries := sort_by duration_of entries in
  print [Lit "PID\tNice\tDuration(s)  (lower duration -> finished earlier)"] >>
  report_rows entries >>
  print [Lit "\nInterpretation: children with lower priority (higher nice offset) typically finish later - but scheduler, CPU contention and I/O can affect results."].

(** ** The command line: [main] (lines 240-269)

    [args] is the namespace that [parser.parse_args()] returns.
    [task4_inspect_proc] reads [/proc], which the machine above does not
    hold; [main] is stated for any inspector. *)
Record Namespace : Type := {
  args_task : Z;
  args_n : Z;
  args_cmd : string;
  args_use_exec : bool;
  args_mode : option string;
  args_pid : option Z
}.

(** Truth value of an optional string and of an optional integer. *)
Definition truthy_str (o : option string) : bool :=
  match o with
  | Some s => negb (is_empty s)
  | None => false
  end.

Definition truthy_int (o : option Z) : bool :=
  match o with
  | Some z => negb (z =? 0)
  | None => false
  end.

Definition main (task4_inspect_proc : Z -> prog unit) (args : Namespace)
    : prog unit :=
  let* name := sys OsName in
  (if negb (String.eqb name "posix") then
     print [Lit "This script requires a POSIX system (Linux)."] >>
     sys_exit 1
   else Ret tt) >>
  if args_task args =? 1 then
    task1_create_children (args_n args)
  else if args_task args =? 2 then
    task2_exec_children (args_n args) (args_cmd args) (args_use_exec args)
  else if args_task args =? 3 then
    (if negb (truthy_str (args_mode args)) then
       print [Lit "Task 3 requires --mode zombie|orphan"] >>
       sys_exit 1
     else Ret tt) >>
    task3_zombie_or_orphan (default "" (args_mode args))
  else if args_task args =? 4 then
    (if negb (truthy_int (args_pid args)) then
       print [Lit "Task 4 requires --pid PID"] >>
       sys_exit 1
     else Ret tt) >>
    task4_inspect_proc (default 0 (args_pid args))
  else if args_task args =? 5 then
    task5_prioritization (args_n args)
  else Ret tt.


(** ** Reading a run

    What happened between two worlds, and the observations that the
    properties below are about. *)

Definition since (w w' : World) : list event :=
  skipn (length (trace (mach w))) (trace (mach w')).

(** The world a run leaves. *)
Definition final {A : Type} (r : result A) : World :=
  match r with
  | Done _ w => w
  | Halted _ w => w
  end.

(** The handles that process [p] got from [os.fork]. *)
Definition forked_by (p : Z) (tr : list event) : list Z :=
  omap (fun ev =>
          match ev with
          | EvFork q c => if q =? p then Some c else None
          | _ => None
          end) tr.

(** The exit records [(pid, status)] that process [p] got from [os.wait]. *)
Definition reaped_by (p : Z) (tr : list event) : list (Z * Z) :=
  omap (fun ev =>
          match ev with
          | EvReap q c status => if q =? p then Some (c, status) else None
          | _ => None
          end) tr.

(** The lines written to the standard error, [(pid, line)]. *)
Definition stderr_lines (tr : list event) : list (Z * message) :=
  omap (fun ev =>
          match ev with
          | EvPrint c Stderr m => Some (c, m)
          | _ => None
          end) tr.

(** The report of line 62. *)
Definition exec_failed (pid : Z) (arg0 : string) : message :=
  [Lit "[CHILD "; Int pid; Lit "] exec failed: "; Lit arg0; Lit " not found"].

(** How the children ended. *)
Definition ends (tr : list event) : list (Z * halt) :=
  omap (fun ev =>
          match ev with
          | EvEnd c h => Some (c, h)
          | _ => None
          end) tr.

(** The priority offsets asked for, [(pid, offset)]. *)
Definition nice_requests (tr : list event) : list (Z * Z) :=
  omap (fun ev =>
          match ev with
          | EvNice c inc _ => Some (c, inc)
          | _ => None
          end) tr.

(** The records written, [(pid, path, content)]. *)
Definition writes (tr : list event) : list (Z * string * string) :=
  omap (fun ev =>
          match ev with
          | EvWrite c path content => Some (c, path, content)
          | _ => None
          end) tr.

(** The existence checks, [(path, present)]. *)
Definition stats (tr : list event) : list (string * bool) :=
  omap (fun ev =>
          match ev with
          | EvStat _ path present => Some (path, present)
          | _ => None
          end) tr.

(** The records read, [(path, content)]. *)
Definition reads_of (tr : list event) : list (string * string) :=
  omap (fun ev =>
          match ev with
          | EvRead _ path content => Some (path, content)
          | _ => None
          end) tr.

(** A row of the ranking table (line 237). *)
Definition row_of (m : message) : option entry :=
  match m with
  | [Int p; Lit a; Int n; Lit b; Flt prec d] =>
      if String.eqb a "\t" && String.eqb b "\t" && (prec =? 3)%nat
      then Some (p, n, d) else None
  | _ => None
  end.

Definition table_rows (tr : list event) : list entry :=
  omap (fun ev =>
          match ev with
          | EvPrint _ Stdout m => row_of m
          | _ => None
          end) tr.

(** The report of line 227. *)
Definition malformed (pid : Z) : message :=
  [Lit "Malformed result file for"; Lit " "; Int pid].

(** The handles reported as malformed. *)
Definition report_of (m : message) : option Z :=
  match m with
  | [Lit a; Lit b; Int pid] =>
      if String.eqb a "Malformed result file for" && String.eqb b " "
      then Some pid else None
  | _ => None
  end.

Definition reports (tr : list event) : list Z :=
  omap (fun ev =>
          match ev with
          | EvPrint _ Stdout m => report_of m
          | _ => None
          end) tr.

(** The entries obtained from the records read, in reading order. *)
Definition entry_of_raw (raw : string) : option entry :=
  match parse_record (py_strip raw) with
  | inr e => Some e
  | inl _ => None
  end.

Definition collected (tr : list event) : list entry :=
  omap (fun ev =>
          match ev with
          | EvRead _ _ raw => entry_of_raw raw
          | _ => None
          end) tr.


(** The files after the events [tr]: only a write and an unlink change
    them. *)
Definition replay_event (ev : event) (f : gmap string string)
    : gmap string string :=
  match ev with
  | EvWrite _ path content => <[path := content]> f
  | EvUnlink _ path => delete path f
  | _ => f
  end.

Definition replay (tr : list event) (f : gmap string string)
    : gmap string string :=
  fold_left (fun f ev => replay_event ev f) tr f.

(** [w'] comes after [w] on the same machine, [new] being what happened
    in between. *)
Definition frame (w w' : World) (new : list event) : Prop :=
  trace (mach w') = trace (mach w) ++ new
  /\ env w' = env w
  /\ fs (mach w') = replay new (fs (mach w))
  /\ (last_pid (mach w) <= last_pid (mach w'))%positive.

(** The same process: calls change neither its pid nor its parent. *)
Definition same_process (w w' : World) : Prop :=
  self (proc w') = self (proc w) /\ parent (proc w') = parent (proc w).

(** One forked child as the trace shows it: its pid, how it ended, and
    what it did in between. *)
Record child_run : Type := {
  cr_pid : Z;
  cr_halt : halt;
  cr_events : list event
}.

Definition spawn_events (p : Z) (r : child_run) : list event :=
  EvFork p (cr_pid r) :: cr_events r ++ [EvEnd (cr_pid r) (cr_halt r)].

Definition exit_record (r : child_run) : Z * Z :=
  (cr_pid r, wait_status (cr_halt r)).

(** What a reaping loop leaves in the trace for one exit record: the
    [os.wait] and the line printed. *)
Definition reap_events (p : Z) (msg : Z -> Z * Z -> message) (r : Z * Z)
    : list event :=
  [EvReap p r.1 r.2; EvPrint p Stdout (msg p r)].

(** A child of task 1 prints one line and leaves with code 0. *)
Definition task1_run (i : Z) (r : child_run) : Prop :=
  cr_halt r = HExit 0
  /\ exists m, cr_events r = [EvPrint (cr_pid r) Stdout m].

(** A child of task 2 whose replacement fails for want of the program:
    the two lines it prints, and exit code 1. *)
Definition task2_failed_run (arg0 : string) (i : Z) (r : child_run) : Prop :=
  cr_halt r = HExit 1
  /\ exists m, cr_events r
               = [EvPrint (cr_pid r) Stdout m;
                  EvPrint (cr_pid r) Stderr (exec_failed (cr_pid r) arg0)].

(** A child of task 2 that dies of [args[0]] on an empty list. *)
Definition task2_crashed_run (i : Z) (r : child_run) : Prop :=
  cr_halt r = HRaise IndexError
  /\ exists m, cr_events r = [EvPrint (cr_pid r) Stdout m].

(** The line of the reaping loop of tasks 1 and 2. *)
Definition reaped_line (p : Z) (r : Z * Z) : message :=
  [Lit "[PARENT "; Int p; Lit "] Reaped child "; Int r.1; Lit " status=";
   Int r.2].

(** The lines of a child of task 5 (lines 199 and 204) and of its parent
    (lines 215 and 237). *)
Definition nice_denied_line (pid : Z) (e : exn) : message :=
  [Lit "[CHILD "; Int pid; Lit "] unable to set nice: "; Err e].

Definition child_done_line (pid nice_offset duration : Z) : message :=
  [Lit "[CHILD "; Int pid; Lit "] nice_offset="; Int nice_offset;
   Lit " duration="; Flt 3 (us_float duration); Lit "s done"].

Definition reaped_line5 (p : Z) (r : Z * Z) : message :=
  [Lit "[PARENT] Reaped child "; Int r.1; Lit " status="; Int r.2].

Definition row_line (e : entry) : message :=
  let '(pid_s, nice_s, dur_s) := e in
  [Int pid_s; Lit "\t"; Int nice_s; Lit "\t"; Flt 3 dur_s].

(** A child of task 5: it asks for the offset [i * 5], says so when the
    kernel refuses, measures a duration [d >= 0], and either writes its
    record and leaves with code 0, or dies of the refused [open]. *)
Definition task5_run (i : Z) (r : child_run) : Prop :=
  exists (denied wrote : bool) (d : Z),
    0 <= d
    /\ cr_halt r = (if wrote then HExit 0 else HRaise PermissionError)
    /\ cr_events r
       = [EvNice (cr_pid r) (i * 5) denied]
         ++ (if denied
             then [EvPrint (cr_pid r) Stdout
                     (nice_denied_line (cr_pid r) PermissionError)]
             else [])
         ++ [EvPrint (cr_pid r) Stdout (child_done_line (cr_pid r) (i * 5) d)]
         ++ (if wrote
             then [EvWrite (cr_pid r) (result_path (cr_pid r))
                     (format_record (cr_pid r) (i * 5) d)]
             else []).

(** One turn of the loop that reads the records back: the handle, the
    record found if any, and whether the unlink went through. *)
Record record_read : Type := {
  rd_pid : Z;
  rd_raw : option string;
  rd_unlinked : bool
}.

Definition rd_present (rd : record_read) : bool :=
  match rd_raw rd with
  | Some _ => true
  | None => false
  end.

Definition read_entry (rd : record_read) : option entry :=
  match rd_raw rd with
  | Some raw => entry_of_raw raw
  | None => None
  end.

Definition read_events (p : Z) (rd : record_read) : list event :=
  let path := result_path (rd_pid rd) in
  match rd_raw rd with
  | None => [EvStat p path false]
  | Some raw =>
      [EvStat p path true; EvRead p path raw]
      ++ (match entry_of_raw raw with
          | Some _ => []
          | None => [EvPrint p Stdout (malformed (rd_pid rd))]
          end)
      ++ (if rd_unlinked rd then [EvUnlink p path] else [])
  end.


(** A line that is neither a row of the table nor a report of a
    malformed record. *)
Definition plain (m : message) : Prop :=
  row_of m = None /\ report_of m = None.

(** The trace of task 5: the opening line [m0], the children, the
    reaping, the line [m1], the records read back, the line [m2], the
    ranked rows, the closing line [m3]. *)
Definition task5_trace (p : Z) (m0 m1 m2 m3 : message)
    (runs : list child_run) (recs : list (Z * Z))
    (reads : list record_read) : list event :=
  [EvPrint p Stdout m0]
  ++ concat (map (spawn_events p) runs)
  ++ concat (map (reap_events p reaped_line5) recs)
  ++ [EvPrint p Stdout m1]
  ++ concat (map (read_events p) reads)
  ++ [EvPrint p Stdout m2]
  ++ map (fun e => EvPrint p Stdout (row_line e))
       (sort_by duration_of (omap read_entry reads))
  ++ [EvPrint p Stdout m3].

(** Order and classes of equal keys, for sorting. *)
Definition key_le {A : Type} (key : A -> Q) (a b : A) : Prop :=
  (key a <= key b)%Q.

(** The elements whose key equals [q], in the order of the list. *)
Definition with_key {A : Type} (key : A -> Q) (q : Q) (l : list A) : list A :=
  List.filter (fun a => Qeq_bool (key a) q) l.

(** ** Shapes of programs *)

(** A program that never returns to its continuation: every path ends in
    [Exit], [Raise] or a replacement. *)
Inductive no_ret {A : Type} : prog A -> Prop :=
| no_ret_sys {X : Set} (c : call X) k :
    (forall x, no_ret (k x)) -> no_ret (Sys c k)
| no_ret_fork k : (forall pid, no_ret (k pid)) -> no_ret (Fork k)
| no_ret_execvp file args k :
    (forall e, no_ret (k e)) -> no_ret (Execvp file args k)
| no_ret_exit code : no_ret (Exit code)
| no_ret_raise e : no_ret (Raise e).

(** A program that does not fork. *)
Inductive fork_free {A : Type} : prog A -> Prop :=
| fork_free_ret a : fork_free (Ret a)
| fork_free_sys {X : Set} (c : call X) k :
    (forall x, fork_free (k x)) -> fork_free (Sys c k)
| fork_free_execvp file args k :
    (forall e, fork_free (k e)) -> fork_free (Execvp file args k)
| fork_free_exit code : fork_free (Exit code)
| fork_free_raise e : fork_free (Raise e).

(** Forking one child after the other. *)
Fixpoint spawn_all (children : list (World -> halt * World)) (w : World)
    : list Z * World :=
  match children with
  | [] => ([], w)
  | child :: rest =>
      let '(c, w1) := spawn child w in
      let '(cs, w2) := spawn_all rest w1 in
      (c :: cs, w2)
  end.

(** Every character of [s] satisfies [P]. *)
Fixpoint all_chars (P : ascii -> bool) (s : string) : bool :=
  match s with
  | "" => true
  | String c s' => P c && all_chars P s'
  end.

Definition is_digit (c : ascii) : bool :=
  match digit_val c with
  | Some _ => true
  | None => false
  end.

(** The characters of a printed number. *)
Definition numeric_char (c : ascii) : bool :=
  is_digit c || Ascii.eqb c "-" || Ascii.eqb c ".".

Definition not_space (c : ascii) : bool := negb (is_space c).

Definition differs (sep c : ascii) : bool := negb (Ascii.eqb c sep).

(** ** Sample worlds *)

(** A quiet machine: pids count up by one, children are reported in the
    order they were created, nothing is denied, every clock reading comes
    1500 microseconds after the previous one, and no program is found. *)
Definition quiet_env : Env := {|
  os_name := "posix";
  pid_gap := fun _ => 1%positive;
  arrival := fun _ => O;
  nice_denied := fun _ => false;
  elapse := fun _ => 1500%N;
  open_denied := fun _ => false;
  unlink_denied := fun _ => false;
  subprocess_raises := fun _ => None;
  exec_result := fun _ _ _ => ExecFails FileNotFoundError
|}.


Definition boot (e : Env) : World := {|
  proc := {| self := 100; parent := 1; kids := []; niceness := 0 |};
  mach := {| fs := ∅; now := 0; last_pid := 100; tick := O; trace := [] |};
  env := e
|}.

Definition sample_args (t : Z) (p : option Z) : Namespace := {|
  args_task := t; args_n := 3; args_cmd := "ls -l"; args_use_exec := false;
  args_mode := None; args_pid := p
|}.




(** A machine on which every program is found and ends with exit code 1,
    that is with wait status 256. *)
Definition exit1_env : Env := {|
  os_name := "posix";
  pid_gap := fun _ => 1%positive;
  arrival := fun _ => O;
  nice_denied := fun _ => false;
  elapse := fun _ => 1500%N;
  open_denied := fun _ => false;
  unlink_denied := fun _ => false;
  subprocess_raises := fun _ => None;
  exec_result := fun _ _ _ => ExecRuns 256
|}.

(** Task 2 with one child and [use_exec=True], after boot. *)
Definition exec_trace (e : Env) : list event :=
  since (boot e)
    (final (run (task2_exec_children 1 "nosuch -x" true) (boot e))).


(** ** Task 4: [task4_inspect_proc] (lines 128-169)

    The function only reads [/proc] and prints.  What it reads is answered
    path by path by a [ProcFs]: whether the path exists ([Path.exists]),
    the lines that iterating over the open file yields and the exception
    that ends the reading, if any ([open] and [for line in f]), the target
    of a symbolic link ([os.readlink]), and the names of the entries of a
    directory ([Path.iterdir]). *)
Record ProcFs : Type := {
  path_exists : string -> bool;
  read_lines : string -> list string * option exn;
  os_readlink : string -> exn + string;
  iterdir : string -> exn + list string
}.

(** [Path(f"/proc/{pid}")]. *)
Definition proc_dir (pid : Z) : string := "/proc/" +:+ str_Z pid.

(** The fields of the status file that are shown (line 144). *)
Definition status_fields : list string :=
  ["Name:"; "State:"; "VmSize:"; "VmRSS:"; "VmPeak:"; "VmData:"; "VmSwap:"].

(** [line.startswith(prefixes)] for a tuple of prefixes. *)
Definition startswith (prefixes : list string) (line : string) : bool :=
  existsb (fun p => String.prefix p line) prefixes.

(** The [try] of lines 140-147: the lines are printed as they are read;
    an exception raised by [open] or in the middle of the reading is
    reported after the lines already printed. *)
Definition status_section (pfs : ProcFs) (base : string) : prog unit :=
  let '(lines, failure) := read_lines pfs (base +:+ "/status") in
  for_each lines (fun line (_ : unit) =>
    if startswith status_fields line then print [Lit (py_strip line)]
    else Ret tt) tt >>
  match failure with
  | Some e => print [Lit "Couldn't read status:"; Lit " "; Err e]
  | None => Ret tt
  end.

(** The [try] of lines 152-156: one line, the target of the link or the
    report of the exception. *)
Definition exe_line (pfs : ProcFs) (base : string) : message :=
  match os_readlink pfs (base +:+ "/exe") with
  | inr path => [Lit path]
  | inl e => [Lit "Couldn't read exe link:"; Lit " "; Err e]
  end.

Definition exe_section (pfs : ProcFs) (base : string) : prog unit :=
  print (exe_line pfs base).

(** The keys [int(p.name)] of [sorted], computed for every entry, in
    order, before anything is compared. *)
Fixpoint int_keys (names : list string) : exn + list (Z * string) :=
  match names with
  | [] => inr []
  | name :: rest =>
      let? k := py_int name in
      let? ks := int_keys rest in
      inr ((k, name) :: ks)
  end.

Definition fd_key (kn : Z * string) : Q := inject_Z (fst kn).

(** [sorted(names, key=lambda p: int(p.name))]. *)
Definition sorted_fds (names : list string) : exn + list string :=
  let? keyed := int_keys names in
  inr (map snd (sort_by fd_key keyed)).

(** The line of one descriptor (lines 163-167). *)
Definition fd_line (pfs : ProcFs) (fd_dir name : string) : message :=
  match os_readlink pfs (fd_dir +:+ "/" +:+ name) with
  | inr target => [Lit "fd "; Lit name; Lit " -> "; Lit target]
  | inl e => [Lit "fd "; Lit name; Lit " -> "; Lit "(error: "; Err e; Lit ")"]
  end.

Definition no_fd_line : message :=
  [Lit "No fd directory available (or insufficient permissions)."].

Definition fd_section (pfs : ProcFs) (base : string) : prog unit :=
  let fd_dir := base +:+ "/fd" in
  if path_exists pfs fd_dir then
    let* names := lift (iterdir pfs fd_dir) in
    let* fds := lift (sorted_fds names) in
    for_each fds (fun name (_ : unit) => print (fd_line pfs fd_dir name)) tt
  else
    print no_fd_line.

Definition missing_line (pid : Z) : message :=
  [Lit "/proc/"; Int pid;
   Lit " does not exist. Is the PID valid and are you on Linux?"].

Definition status_header (pid : Z) : message :=
  [Lit "--- /proc/"; Int pid; Lit "/status ---"].

Definition exe_header (pid : Z) : message :=
  [Lit newline; Lit "--- /proc/"; Int pid; Lit "/exe (executable path) ---"].

Definition fd_header (pid : Z) : message :=
  [Lit newline; Lit "--- /proc/"; Int pid;
   Lit "/fd (open file descriptors) ---"].

Definition task4_inspect_proc (pfs : ProcFs) (pid : Z) : prog unit :=
  let base := proc_dir pid in
  if negb (path_exists pfs base) then print (missing_line pid)
  else
    print (status_header pid) >>
    status_section pfs base >>
    print (exe_header pid) >>
    exe_section pfs base >>
    print (fd_header pid) >>
    fd_section pfs base.

(** What the status section prints, in closed form: the lines read that
    start with one of the fields, stripped, in the order of the file,
    then the report of the exception if the reading broke off. *)
Definition status_report (pfs : ProcFs) (base : string) : list message :=
  let '(lines, failure) := read_lines pfs (base +:+ "/status") in
  map (fun line => [Lit (py_strip line)])
    (List.filter (startswith status_fields) lines)
  ++ match failure with
     | Some e => [[Lit "Couldn't read status:"; Lit " "; Err e]]
     | None => []
     end.

(** The number that a descriptor name stands for. *)
Definition fd_number (name : string) : Z :=
  match py_int name with
  | inr z => z
  | inl _ => 0
  end.

(** A name that [int] accepts. *)
Definition is_int (name : string) : Prop := exists z, py_int name = inr z.

(** ** More readings of a run *)

(** Every [os.fork] of the run, [(parent, child)]. *)
Definition forks (tr : list event) : list (Z * Z) :=
  omap (fun ev =>
          match ev with
          | EvFork q c => Some (q, c)
          | _ => None
          end) tr.

(** The replacements that went through, [(pid, file, args)]. *)
Definition execs (tr : list event) : list (Z * string * list string) :=
  omap (fun ev =>
          match ev with
          | EvExec c file args => Some (c, file, args)
          | _ => None
          end) tr.

(** The commands handed to the shell, [(pid, cmd)]. *)
Definition shell_runs (tr : list event) : list (Z * string) :=
  omap (fun ev =>
          match ev with
          | EvRun c cmd => Some (c, cmd)
          | _ => None
          end) tr.

(** The sleeps, [(pid, seconds)]. *)
Definition sleeps (tr : list event) : list (Z * Z) :=
  omap (fun ev =>
          match ev with
          | EvSleep c secs => Some (c, secs)
          | _ => None
          end) tr.

(** The lines that process [p] wrote to the standard output. *)
Definition printed_by (p : Z) (tr : list event) : list message :=
  omap (fun ev =>
          match ev with
          | EvPrint q Stdout m => if q =? p then Some m else None
          | _ => None
          end) tr.




(** The paths written or removed. *)
Definition touched (tr : list event) : list string :=
  omap (fun ev =>
          match ev with
          | EvWrite _ path _ => Some path
          | EvUnlink _ path => Some path
          | _ => None
          end) tr.

(** The process that an event belongs to: the caller for a fork, the
    child for its end. *)
Definition pid_of (ev : event) : Z :=
  match ev with
  | EvPrint p _ _ | EvFork p _ | EvEnd p _ | EvReap p _ _ | EvNice p _ _
  | EvSleep p _ | EvRun p _ | EvExec p _ _ | EvStat p _ _ | EvRead p _ _
  | EvWrite p _ _ | EvUnlink p _ => p
  end.

(** What process [p] did, in its own order. *)
Definition events_of (p : Z) (tr : list event) : list event :=
  List.filter (fun ev => pid_of ev =? p) tr.

(** The events of a child belong to it. *)
Definition own_events (r : child_run) : Prop :=
  Forall (fun ev => pid_of ev = cr_pid r) (cr_events r).

(** The pid of the caller has been handed out. *)
Definition caller_known (w : World) : Prop :=
  me w <= Z.pos (last_pid (mach w)).

(** ** The lines of the children *)

(** Line 32. *)
Definition hello_line (pid ppid i : Z) : message :=
  [Lit "[CHILD "; Int pid; Lit "] parent="; Int ppid;
   Lit " message='Hello from child "; Int i; Lit "'"].

(** Line 55. *)
Definition executing_line (pid ppid : Z) (cmd : string) : message :=
  [Lit "[CHILD "; Int pid; Lit "] parent="; Int ppid;
   Lit " executing '"; Lit cmd; Lit "'"].

(** Line 69. *)
Definition subprocess_error (pid : Z) (e : exn) : message :=
  [Lit "[CHILD "; Int pid; Lit "] subprocess error: "; Err e].

(** Line 117. *)
Definition reaped_line3 (p : Z) (r : Z * Z) : message :=
  [Lit "[PARENT "; Int p; Lit "] Reaped "; Int r.1; Lit " status="; Int r.2].

(** Lines 91, 122, 100, 102 and 104; [pp] is what [os.getppid()]
    answers when the line is printed. *)
Definition task3_banner (p : Z) (mode : string) : message :=
  [Lit "[PID "; Int p; Lit "] Running Task3 mode="; Lit mode;
   Lit ". Note: run on Linux and use another terminal to `ps -el | grep defunct`"].

Definition orphan_notice (p c : Z) : message :=
  [Lit "[PARENT "; Int p; Lit "] Exiting immediately; child "; Int c;
   Lit " runs on."].

Definition orphan_opening (c : Z) : message :=
  [Lit "[CHILD "; Int c;
   Lit "] running for 10s to show orphanhood; parent should exit"].

Definition orphan_working (c i pp : Z) : message :=
  [Lit "[CHILD "; Int c; Lit "] working... "; Int (i + 1);
   Lit "/10 parent now: "; Int pp].

Definition orphan_done (c pp : Z) : message :=
  [Lit "[CHILD "; Int c; Lit "] done; parent now "; Int pp].

(** Lines 27 and 41. *)
Definition starting_line (p n : Z) : message :=
  [Lit "[PARENT "; Int p; Lit "] Starting: creating "; Int n;
   Lit " children"].

Definition all_reaped_line (p : Z) : message :=
  [Lit "[PARENT "; Int p; Lit "] All children reaped. Done."].

(** A child of task 1, to the letter. *)
Definition task1_hello_run (p i : Z) (r : child_run) : Prop :=
  cr_halt r = HExit 0
  /\ cr_events r = [EvPrint (cr_pid r) Stdout (hello_line (cr_pid r) p i)].

(** The ways a child of task 2 can go. *)
Inductive task2_way : Set :=
| Replaced (status : Z)
| NotFound
| Uncaught (e : exn)
| ShellDone (failure : option exn).

Definition way_halt (way : task2_way) : halt :=
  match way with
  | Replaced status => HExec status
  | NotFound => HExit 1
  | Uncaught e => HRaise e
  | ShellDone _ => HExit 0
  end.

(** What a child of task 2 leaves in the trace after its first line. *)
Definition way_events (c : Z) (cmd : string) (way : task2_way) : list event :=
  match way with
  | Replaced _ =>
      match py_split cmd with
      | arg0 :: _ => [EvExec c arg0 (py_split cmd)]
      | [] => []
      end
  | NotFound =>
      match py_split cmd with
      | arg0 :: _ => [EvPrint c Stderr (exec_failed c arg0)]
      | [] => []
      end
  | Uncaught _ => []
  | ShellDone failure =>
      EvRun c cmd
      :: match failure with
         | Some e => [EvPrint c Stderr (subprocess_error c e)]
         | None => []
         end
  end.

(** A child of task 2 that went the way [way]. *)
Definition task2_run (p : Z) (cmd : string) (way : task2_way) (r : child_run)
    : Prop :=
  cr_halt r = way_halt way
  /\ cr_events r
     = EvPrint (cr_pid r) Stdout (executing_line (cr_pid r) p cmd)
       :: way_events (cr_pid r) cmd way.

(** The way a child of task 2 goes, read from the branch taken and from
    what the kernel answers at the choice numbered [t]: a blank command
    dies of [args[0]], a replacement goes through or fails, and only
    [FileNotFoundError] is caught; the shell branch always reaches
    [os._exit(0)]. *)
Definition task2_way_at (e : Env) (cmd : string) (use_exec : bool) (t : nat)
    : task2_way :=
  if use_exec then
    match py_split cmd with
    | [] => Uncaught IndexError
    | arg0 :: rest =>
        match exec_result e t arg0 (arg0 :: rest) with
        | ExecRuns status => Replaced status
        | ExecFails FileNotFoundError => NotFound
        | ExecFails e => Uncaught e
        end
    end
  else ShellDone (subprocess_raises e t).

(** Lines 49 and 78. *)
Definition creating_line (p n : Z) (cmd : string) (use_exec : bool)
    : message :=
  [Lit "[PARENT "; Int p; Lit "] Creating "; Int n;
   Lit " children to run: "; Lit cmd; Lit " (use_exec="; Flag use_exec;
   Lit ")"].

Definition complete_line : message := [Lit "[PARENT] Task 2 complete."].

(** The fixed lines of the parent of task 5 (lines 187, 217, 235, 238). *)
Definition spawning_line (p n : Z) : message :=
  [Lit "[PARENT "; Int p; Lit "] Spawning "; Int n;
   Lit " CPU-bound children with varied nice()"].

Definition results_line : message :=
  [Lit "\nResults (collected from /tmp files):"].

Definition table_header : message :=
  [Lit "PID\tNice\tDuration(s)  (lower duration -> finished earlier)"].

Definition interpretation_line : message :=
  [Lit "\nInterpretation: children with lower priority (higher nice offset) typically finish later - but scheduler, CPU contention and I/O can affect results."].

(** A child of task 5, to the letter, from what the kernel answers from
    the choice numbered [t] on: whether the priority request is refused
    (choice [t]), the time between the two readings of the clock (choice
    [t + 2]), whether the record can be opened (choice [t + 3]). *)
Definition task5_duration_at (e : Env) (t : nat) : Z :=
  Z.of_N (elapse e (S (S t))).

Definition task5_run_at (e : Env) (i : Z) (t : nat) (r : child_run) : Prop :=
  cr_halt r = (if open_denied e (S (S (S t))) then HRaise PermissionError
               else HExit 0)
  /\ cr_events r
     = [EvNice (cr_pid r) (i * 5) (nice_denied e t)]
       ++ (if nice_denied e t
           then [EvPrint (cr_pid r) Stdout
                   (nice_denied_line (cr_pid r) PermissionError)]
           else [])
       ++ [EvPrint (cr_pid r) Stdout
             (child_done_line (cr_pid r) (i * 5) (task5_duration_at e t))]
       ++ (if open_denied e (S (S (S t))) then []
           else [EvWrite (cr_pid r) (result_path (cr_pid r))
                   (format_record (cr_pid r) (i * 5)
                      (task5_duration_at e t))]).


(** Unreaped children are children of the past: their pids have been
    handed out. *)
Definition kids_known (w : World) : Prop :=
  Forall (fun k => k.1 <= Z.pos (last_pid (mach w))) (kids (proc w)).

(** Number of occurrences of a character. *)
Fixpoint count_char (sep : ascii) (s : string) : nat :=
  match s with
  | "" => O
  | String c s' =>
      if Ascii.eqb c sep then S (count_char sep s') else count_char sep s'
  end.

(** ** More sample worlds *)

(** A machine on which every program is found and ends with status 0. *)
Definition found_env : Env := {|
  os_name := "posix";
  pid_gap := fun _ => 1%positive;
  arrival := fun _ => O;
  nice_denied := fun _ => false;
  elapse := fun _ => 1500%N;
  open_denied := fun _ => false;
  unlink_denied := fun _ => false;
  subprocess_raises := fun _ => None;
  exec_result := fun _ _ _ => ExecRuns 0
|}.

(** A machine on which no program may be executed. *)
Definition noexec_env : Env := {|
  os_name := "posix";
  pid_gap := fun _ => 1%positive;
  arrival := fun _ => O;
  nice_denied := fun _ => false;
  elapse := fun _ => 1500%N;
  open_denied := fun _ => false;
  unlink_denied := fun _ => false;
  subprocess_raises := fun _ => None;
  exec_result := fun _ _ _ => ExecFails PermissionError
|}.

(** A machine that is not POSIX. *)
Definition nt_env : Env := {|
  os_name := "nt";
  pid_gap := fun _ => 1%positive;
  arrival := fun _ => O;
  nice_denied := fun _ => false;
  elapse := fun _ => 1500%N;
  open_denied := fun _ => false;
  unlink_denied := fun _ => false;
  subprocess_raises := fun _ => None;
  exec_result := fun _ _ _ => ExecFails FileNotFoundError
|}.

(** A [/proc] that holds nothing. *)
Definition empty_proc : ProcFs := {|
  path_exists := fun _ => false;
  read_lines := fun _ => ([], Some FileNotFoundError);
  os_readlink := fun _ => inl FileNotFoundError;
  iterdir := fun _ => inl FileNotFoundError
|}.

(** A [/proc] where every directory exists and lists the descriptors 10,
    9 and 0, and where no file can be opened and no link read. *)
Definition locked_proc : ProcFs := {|
  path_exists := fun _ => true;
  read_lines := fun _ => ([], Some PermissionError);
  os_readlink := fun _ => inl PermissionError;
  iterdir := fun _ => inr ["10"; "9"; "0"]
|}.

(** The same [/proc] with a stray entry among the descriptors. *)
Definition stray_proc : ProcFs := {|
  path_exists := fun _ => true;
  read_lines := fun _ => ([], Some PermissionError);
  os_readlink := fun _ => inl PermissionError;
  iterdir := fun _ => inr ["10"; "x"; "0"]
|}.

(** A [/proc] with the directory of process 1 only, without its [fd]
    directory: the status file can be read, the link cannot. *)
Definition bare_proc : ProcFs := {|
  path_exists := fun path => String.eqb path "/proc/1";
  read_lines := fun _ =>
    (["Name:   init" +:+ newline; "Umask:  0022" +:+ newline;
      "State:  S (sleeping)" +:+ newline], None);
  os_readlink := fun _ => inl PermissionError;
  iterdir := fun _ => inl FileNotFoundError
|}.

(* ===================================================================== *)
(** * Part II.  Lemmas and theorems                                      *)
(* ===================================================================== *)

(** ** WorkloadRunner *)

Section CpuWork.

Lemma range_from_bounds (len : nat) :
  forall lo i, In i (range_from lo len) -> lo <= i < lo + Z.of_nat len.
Proof.
  induction len as [|len IH]; intros lo i; simpl.
  - intros [].
  - intros [<- | Hin]; [lia|]. apply IH in Hin. lia.
Qed.

Lemma range_bounds (lo hi i : Z) : In i (range lo hi) -> lo <= i < hi.
Proof. unfold range. intros H%range_from_bounds. lia. Qed.

Lemma range_empty (lo hi : Z) : hi <= lo -> range lo hi = [].
Proof.
  intros H. unfold range.
  replace (Z.to_nat (hi - lo)) with O by lia. reflexivity.
Qed.

Lemma range_length (lo hi : Z) : length (range lo hi) = Z.to_nat (hi - lo).
Proof.
  unfold range. generalize (Z.to_nat (hi - lo)) as len. intros len.
  revert lo. induction len as [|len IH]; intros lo; simpl; [|rewrite IH]; done.
Qed.

(** [i * i = (i - 1) * (i + 1) + 1]: each turn of the loop adds one. *)
Lemma square_mod_succ (i : Z) : 1 <= i -> (i * i) mod (i + 1) = 1.
Proof.
  intros Hi. symmetry.
  apply (Z.mod_unique (i * i) (i + 1) (i - 1) 1); [left|]; lia.
Qed.

Lemma cpu_step_turn (s i : Z) : 1 <= i -> cpu_step (inr s) i = inr (s + 1).
Proof.
  intros Hi. unfold cpu_step, py_mod. simpl.
  destruct (Z.eqb_spec (i + 1) 0) as [E|_]; [lia|].
  simpl. by rewrite square_mod_succ.
Qed.

Lemma cpu_loop (len : nat) :
  forall lo s, 1 <= lo ->
    fold_left cpu_step (range_from lo len) (inr s) = inr (s + Z.of_nat len).
Proof.
  induction len as [|len IH]; intros lo s Hlo.
  - simpl. f_equal. lia.
  - cbn [range_from fold_left]. rewrite cpu_step_turn by done.
    rewrite IH by lia. f_equal. lia.
Qed.

(** The closed form of the reduction. *)
Lemma cpu_work_value (iterations : Z) :
  cpu_work iterations = inr (Z.max 0 (iterations - 1)).
Proof.
  unfold cpu_work, range. rewrite cpu_loop by lia. f_equal. lia.
Qed.

(** C6: [cpu_work] is pure and total.  For every integer [iterations]
    it returns a value, the same in every world and leaving the world
    untouched, and the divisor [i + 1] of every turn of the loop is at
    least 2, so that the modulo never raises. *)
Theorem cpu_work_pure_total (iterations : Z) :
  (exists s, cpu_work iterations = inr s
             /\ forall w, run (lift (cpu_work iterations)) w = Done s w)
  /\ (forall i, In i (range 1 iterations) ->
        2 <= i + 1
        /\ py_mod (i * i) (i + 1) = inr ((i * i) mod (i + 1))).
Proof.
  split.
  - exists (Z.max 0 (iterations - 1)). split.
    + apply cpu_work_value.
    + intros w. by rewrite cpu_work_value.
  - intros i Hi%range_bounds. split; [lia|].
    unfold py_mod. destruct (Z.eqb_spec (i + 1) 0); [lia|done].
Qed.

(** C8: for every [iterations <= 1], zero and negative values included,
    the range [1 .. iterations - 1] is empty and [cpu_work] returns the
    initial accumulator 0. *)
Theorem cpu_work_small (iterations : Z) :
  iterations <= 1 ->
  range 1 iterations = [] /\ cpu_work iterations = inr 0.
Proof.
  intros H. split.
  - by apply range_empty.
  - rewrite cpu_work_value. f_equal. lia.
Qed.

Lemma cpu_work_small_witness :
  -3 <= 1 /\ range 1 (-3) = [] /\ cpu_work (-3) = inr 0.
Proof. split; [lia | apply (cpu_work_small (-3)); lia]. Defined.

End CpuWork.

#[local] Opaque cpu_work.

(** ** Strings and numbers *)

#[local] Arguments String.append !_ _ / : simpl nomatch.

Section Strings.

Lemma append_assoc (a b c : string) : (a +:+ b) +:+ c = a +:+ (b +:+ c).
Proof. induction a as [|x a IH]; simpl; [done|by rewrite IH]. Qed.

Lemma append_nil_r (a : string) : a +:+ "" = a.
Proof. induction a as [|x a IH]; simpl; [done|by rewrite IH]. Qed.

Lemma snoc_append (cur : string) (c : ascii) (s : string) :
  snoc cur c +:+ s = cur +:+ String c s.
Proof. unfold snoc. by rewrite append_assoc. Qed.

Lemma all_chars_app (P : ascii -> bool) (a b : string) :
  all_chars P (a +:+ b) = all_chars P a && all_chars P b.
Proof.
  induction a as [|x a IH]; simpl; [done|]. by rewrite IH, andb_assoc.
Qed.

Lemma all_chars_impl (P R : ascii -> bool) (s : string) :
  (forall c, P c = true -> R c = true) ->
  all_chars P s = true -> all_chars R s = true.
Proof.
  intros HPR. induction s as [|x s IH]; simpl; [done|].
  intros [Hx Hs]%andb_true_iff. by rewrite (HPR _ Hx), IH.
Qed.

(** Facts about single characters, by enumeration of the 256 cases. *)
Ltac by_cases_on c :=
  destruct c as [[] [] [] [] [] [] [] []]; vm_compute; try discriminate;
  try done; repeat split; try discriminate; try done.

Lemma digit_numeric (c : ascii) : is_digit c = true -> numeric_char c = true.
Proof. by_cases_on c. Qed.

Lemma numeric_not_space (c : ascii) :
  numeric_char c = true -> not_space c = true.
Proof. by_cases_on c. Qed.

Lemma numeric_not_comma (c : ascii) :
  numeric_char c = true -> differs "," c = true.
Proof. by_cases_on c. Qed.

Lemma digit_not_dot (c : ascii) : is_digit c = true -> differs "." c = true.
Proof. by_cases_on c. Qed.

Lemma digit_not_sign (c : ascii) (s : string) :
  is_digit c = true -> split_sign (String c s) = (false, String c s).
Proof. by_cases_on c. Qed.

(** *** Splitting *)

Lemma split_on_plain (sep : ascii) (s : string) :
  forall cur, all_chars (differs sep) s = true ->
              split_on sep cur s = [cur +:+ s].
Proof.
  induction s as [|c s IH]; intros cur; simpl.
  - by rewrite append_nil_r.
  - intros [Hc Hs]%andb_true_iff. unfold differs in Hc.
    destruct (Ascii.eqb c sep); [done|].
    by rewrite IH, snoc_append.
Qed.

Lemma split_on_field (sep : ascii) (a b : string) :
  forall cur, all_chars (differs sep) a = true ->
              split_on sep cur (a +:+ String sep b)
              = (cur +:+ a) :: split_on sep "" b.
Proof.
  induction a as [|c a IH]; intros cur; simpl.
  - intros _. by rewrite Ascii.eqb_refl, append_nil_r.
  - intros [Hc Ha]%andb_true_iff. unfold differs in Hc.
    destruct (Ascii.eqb c sep); [done|].
    by rewrite IH, snoc_append.
Qed.

Lemma split_ws_blank (s : string) :
  all_chars is_space s = true -> split_ws "" s = [].
Proof.
  induction s as [|c s IH]; simpl; [done|].
  intros [Hc Hs]%andb_true_iff. rewrite Hc. simpl. by apply IH.
Qed.

(** *** Stripping *)

Lemma lstrip_plain (s : string) : all_chars not_space s = true -> lstrip s = s.
Proof.
  destruct s as [|c s]; simpl; [done|].
  intros [Hc _]%andb_true_iff. unfold not_space in Hc.
  by destruct (is_space c).
Qed.

Lemma rstrip_plain (s : string) : all_chars not_space s = true -> rstrip s = s.
Proof.
  induction s as [|c s IH]; simpl; [done|].
  intros [Hc Hs]%andb_true_iff. unfold not_space in Hc.
  rewrite IH by done. destruct (is_space c); [done|].
  by rewrite andb_false_r.
Qed.

Lemma py_strip_plain (s : string) :
  all_chars not_space s = true -> py_strip s = s.
Proof.
  intros H. unfold py_strip. by rewrite lstrip_plain, rstrip_plain.
Qed.

Lemma rstrip_newline (s : string) :
  all_chars not_space s = true -> rstrip (s +:+ newline) = s.
Proof.
  induction s as [|c s IH]; [done|]. cbn [String.append all_chars rstrip].
  intros [Hc Hs]%andb_true_iff. unfold not_space in Hc.
  rewrite IH by done. destruct (is_space c); [done|].
  by rewrite andb_false_r.
Qed.

Lemma py_strip_line (s : string) :
  all_chars not_space s = true -> py_strip (s +:+ newline) = s.
Proof.
  intros H. unfold py_strip. destruct s as [|c s]; [done|].
  assert (Hl : lstrip (String c s +:+ newline) = String c s +:+ newline).
  { simpl in *. apply andb_true_iff in H as [Hc _].
    unfold not_space in Hc. by destruct (is_space c). }
  rewrite Hl. by apply rstrip_newline.
Qed.

End Strings.

(** ** Printing and reading numbers *)

(** Pushing a literal prefix inside an append. *)
Ltac push_literals :=
  repeat match goal with
         | |- context [String ?c ?a +:+ ?b] =>
             change (String c a +:+ b) with (String c (a +:+ b))
         | |- context ["" +:+ ?b] => change ("" +:+ b) with b
         end.

Section Decimal.

Lemma digit_val_char (d : N) : (d < 10)%N -> digit_val (digit_char d) = Some d.
Proof.
  intros Hd. unfold digit_val, digit_char.
  rewrite N_ascii_embedding by lia.
  destruct (N.leb_spec 48 (48 + d)); [|lia].
  destruct (N.leb_spec (48 + d) 57); [|lia].
  simpl. f_equal. lia.
Qed.

Lemma is_digit_char (d : N) : (d < 10)%N -> is_digit (digit_char d) = true.
Proof. intros Hd. unfold is_digit. by rewrite digit_val_char. Qed.

Lemma mod_10_lt (x : N) : (x mod 10 < 10)%N.
Proof. by apply N.mod_lt. Qed.

(** Reading back the digits that [digits_acc] printed. *)
Lemma digits_go_acc (k : nat) :
  forall x tail a b,
    digits_go a b (digits_acc k x tail)
    = digits_go (a * 10 ^ N.of_nat k + x mod 10 ^ N.of_nat k)%N
        (b || negb (Nat.eqb k 0)) tail.
Proof.
  induction k as [|k IH]; intros x tail a b.
  - simpl. rewrite N.mod_1_r, N.mul_1_r, N.add_0_r, orb_false_r. done.
  - cbn [digits_acc]. rewrite IH. cbn [digits_go].
    rewrite digit_val_char by apply mod_10_lt.
    rewrite orb_true_r. f_equal.
    rewrite Nat2N.inj_succ, N.pow_succ_r'.
    rewrite (N.Div0.mod_mul_r x 10 (10 ^ N.of_nat k)). lia.
Qed.

Lemma all_digits_acc (k : nat) :
  forall x tail,
    all_chars is_digit (digits_acc k x tail) = all_chars is_digit tail.
Proof.
  induction k as [|k IH]; intros x tail; [done|].
  cbn [digits_acc]. rewrite IH. simpl.
  by rewrite is_digit_char by apply mod_10_lt.
Qed.

Lemma count_digits_acc (k : nat) :
  forall x tail,
    count_digits (digits_acc k x tail) = (k + count_digits tail)%nat.
Proof.
  induction k as [|k IH]; intros x tail; [done|].
  cbn [digits_acc]. rewrite IH. simpl.
  rewrite digit_val_char by apply mod_10_lt. lia.
Qed.

Lemma digits_acc_nonempty (k : nat) :
  forall x tail, is_empty tail = false -> is_empty (digits_acc k x tail) = false.
Proof.
  induction k as [|k IH]; intros x tail H; [done|].
  cbn [digits_acc]. by apply IH.
Qed.

Lemma digits_fixed_nonempty (k : nat) (x : N) :
  is_empty (digits_fixed (S k) x) = false.
Proof. unfold digits_fixed. cbn [digits_acc]. by apply digits_acc_nonempty. Qed.

Lemma parse_digits_fixed (k : nat) (x : N) :
  parse_digits (digits_fixed (S k) x) = Some (x mod 10 ^ N.of_nat (S k))%N.
Proof.
  unfold parse_digits, digits_fixed. rewrite digits_go_acc. simpl.
  f_equal.
Qed.

Lemma strip_zeros_cons (c c' : ascii) (s : string) :
  strip_zeros (String c (String c' s))
  = if Ascii.eqb c "0" then strip_zeros (String c' s)
    else String c (String c' s).
Proof. reflexivity. Qed.

(** Leading zeros do not change what is read. *)
Lemma strip_zeros_spec (s : string) :
  all_chars is_digit s = true -> is_empty s = false ->
  parse_digits (strip_zeros s) = parse_digits s
  /\ all_chars is_digit (strip_zeros s) = true
  /\ is_empty (strip_zeros s) = false.
Proof.
  induction s as [|c s IH]; [done|].
  intros Hall _. destruct s as [|c' s'].
  - done.
  - rewrite strip_zeros_cons. destruct (Ascii.eqb_spec c "0") as [->|_].
    + change (all_chars is_digit (String c' s') = true) in Hall.
      destruct (IH Hall eq_refl) as (Hp & Hd & He).
      split; [|done]. rewrite Hp.
      apply andb_true_iff in Hall as [Hc' _].
      unfold is_digit in Hc'. unfold parse_digits. simpl.
      destruct (digit_val c'); [done|discriminate].
    + done.
Qed.

Lemma pow10_bound (x : N) : (x < 10 ^ N.of_nat (S (N.to_nat (N.log2 x))))%N.
Proof.
  rewrite Nat2N.inj_succ, N2Nat.id.
  apply N.lt_le_trans with (2 ^ N.succ (N.log2 x))%N.
  - destruct (N.eq_dec x 0%N) as [->|Hx]; [done|].
    apply N.log2_spec. lia.
  - apply N.pow_le_mono_l. lia.
Qed.

Lemma str_N_spec (x : N) :
  parse_digits (str_N x) = Some x
  /\ all_chars is_digit (str_N x) = true
  /\ is_empty (str_N x) = false.
Proof.
  unfold str_N.
  destruct (strip_zeros_spec (digits_fixed (S (N.to_nat (N.log2 x))) x))
    as (Hp & Hd & He).
  - unfold digits_fixed. by rewrite all_digits_acc.
  - apply digits_fixed_nonempty.
  - repeat split; try done.
    rewrite Hp, parse_digits_fixed. f_equal.
    apply N.mod_small, pow10_bound.
Qed.

Lemma str_N_head (x : N) :
  exists c s, str_N x = String c s /\ is_digit c = true
              /\ all_chars is_digit s = true.
Proof.
  destruct (str_N_spec x) as (_ & Hd & He).
  destruct (str_N x) as [|c s]; [done|].
  apply andb_true_iff in Hd as [Hc Hs]. by exists c, s.
Qed.

Lemma str_Z_numeric (z : Z) : all_chars numeric_char (str_Z z) = true.
Proof.
  unfold str_Z. destruct (z <? 0); simpl;
    apply (all_chars_impl is_digit); auto using digit_numeric;
    apply str_N_spec.
Qed.

(** [int(str(z)) == z]. *)
Lemma py_int_str (z : Z) : py_int (str_Z z) = inr z.
Proof.
  unfold py_int. rewrite py_strip_plain
    by (apply (all_chars_impl numeric_char);
        auto using numeric_not_space, str_Z_numeric).
  unfold str_Z. destruct (Z.ltb_spec z 0) as [Hneg|Hpos].
  - simpl. destruct (str_N_spec (Z.to_N (- z))) as (-> & _).
    f_equal. lia.
  - destruct (str_N_head (Z.to_N z)) as (c & s & Hs & Hc & _).
    pose proof (str_N_spec (Z.to_N z)) as (Hp & _).
    rewrite Hs in *. rewrite digit_not_sign by done. rewrite Hp.
    f_equal. lia.
Qed.

Lemma str_Z_inj (a b : Z) : str_Z a = str_Z b -> a = b.
Proof.
  intros H. pose proof (py_int_str a) as Ha. rewrite H, py_int_str in Ha.
  congruence.
Qed.

Lemma fmt6_unsigned (a : N) :
  let s := str_N (a / 1000000) +:+ "." +:+ digits_fixed 6 (a mod 1000000) in
  all_chars numeric_char s = true
  /\ float_body s = Some (Z.of_N a # 1000000)
  /\ exists c r, s = String c r /\ is_digit c = true.
Proof.
  intros s. subst s.
  destruct (str_N_spec (a / 1000000)) as (Hp & Hd & He).
  assert (Hfd : all_chars is_digit (digits_fixed 6 (a mod 1000000)) = true).
  { unfold digits_fixed. by rewrite all_digits_acc. }
  split; [|split].
  - assert (H1 : all_chars numeric_char (str_N (a / 1000000)) = true)
      by (apply (all_chars_impl is_digit); auto using digit_numeric).
    assert (H2 : all_chars numeric_char (digits_fixed 6 (a mod 1000000)) = true)
      by (apply (all_chars_impl is_digit); auto using digit_numeric).
    rewrite all_chars_app, H1. exact H2.
  - unfold float_body, py_split_sep.
    change ("." +:+ ?t) with (String "." t).
    rewrite split_on_field
      by (apply (all_chars_impl is_digit); auto using digit_not_dot).
    rewrite split_on_plain
      by (apply (all_chars_impl is_digit); auto using digit_not_dot).
    cbn [String.append]. rewrite digits_fixed_nonempty, He, Hp.
    rewrite parse_digits_fixed.
    unfold digits_fixed. rewrite count_digits_acc. simpl count_digits.
    change (10 ^ N.of_nat 6)%N with 1000000%N.
    rewrite N.Div0.mod_mod.
    change (pow10 (6 + 0)) with 1000000%positive.
    f_equal. f_equal. rewrite N2Z.inj_div, N2Z.inj_mod.
    pose proof (Z.div_mod (Z.of_N a) (Z.of_N 1000000)). lia.
  - destruct (str_N_head (a / 1000000)) as (c & r & Hs & Hc & _).
    rewrite Hs. simpl. eauto.
Qed.

(** [float(f"{d:.6f}")] is [d], for a duration in microseconds. *)
Lemma py_float_fmt6 (d : Z) : py_float (fmt6 d) = inr (us_float d).
Proof.
  unfold py_float, fmt6.
  destruct (fmt6_unsigned (Z.to_N (Z.abs d))) as (Hn & Hb & c & r & Hs & Hc).
  cbv zeta in *.
  set (s := str_N _ +:+ _) in *.
  destruct (Z.ltb_spec d 0) as [Hneg|Hpos].
  - change ("-" +:+ s) with (String "-" s).
    rewrite py_strip_plain.
    + simpl. rewrite Hb. unfold us_float, Qopp. simpl. do 2 f_equal. lia.
    + simpl. apply (all_chars_impl numeric_char); auto using numeric_not_space.
  - change ("" +:+ s) with s.
    rewrite py_strip_plain
      by (apply (all_chars_impl numeric_char); auto using numeric_not_space).
    rewrite Hs, digit_not_sign by done. rewrite <- Hs, Hb.
    unfold us_float. do 2 f_equal. lia.
Qed.

Lemma fmt6_numeric (d : Z) : all_chars numeric_char (fmt6 d) = true.
Proof.
  unfold fmt6.
  destruct (fmt6_unsigned (Z.to_N (Z.abs d))) as (Hn & _).
  cbv zeta in Hn. destruct (d <? 0); simpl; done.
Qed.

(** The parent reads back what a child wrote. *)
Lemma parse_format_record (pid nice_offset duration : Z) :
  entry_of_raw (format_record pid nice_offset duration)
  = Some (pid, nice_offset, us_float duration).
Proof.
  unfold entry_of_raw, format_record.
  set (body := str_Z pid +:+ "," +:+ str_Z nice_offset +:+ "," +:+ fmt6 duration).
  assert (Hbody : all_chars not_space body = true).
  { subst body. rewrite !all_chars_app. simpl.
    rewrite !(all_chars_impl numeric_char not_space)
      by auto using numeric_not_space, str_Z_numeric, fmt6_numeric.
    done. }
  assert (E : str_Z pid +:+ "," +:+ str_Z nice_offset +:+ "," +:+ fmt6 duration
           +:+ newline = body +:+ newline).
  { subst body. by rewrite !append_assoc. }
  rewrite E.
  rewrite py_strip_line by done. subst body.
  unfold parse_record, py_split_sep. push_literals.
  rewrite !split_on_field
    by (apply (all_chars_impl numeric_char);
        auto using numeric_not_comma, str_Z_numeric).
  rewrite split_on_plain
    by (apply (all_chars_impl numeric_char);
        auto using numeric_not_comma, fmt6_numeric).
  cbn [String.append]. by rewrite !py_int_str, py_float_fmt6.
Qed.

Lemma result_path_inj (a b : Z) : result_path a = result_path b -> a = b.
Proof.
  unfold result_path. intros H.
  apply (inj (String.append _)) in H.
  assert (Hs : forall z, py_split_sep "." (str_Z z +:+ ".txt") = [str_Z z; "txt"]).
  { intros z. unfold py_split_sep.
    change (".txt") with (String "." "txt").
    rewrite split_on_field. - by rewrite split_on_plain.
    - unfold str_Z. destruct (z <? 0); simpl;
        apply (all_chars_impl is_digit); auto using digit_not_dot;
        apply str_N_spec. }
  pose proof (Hs a) as Ha. rewrite H, Hs in Ha.
  apply str_Z_inj. congruence.
Qed.

End Decimal.

(** ** Sorting by a float key *)

Section Sorting.

Context {A : Type} (key : A -> Q).

#[local] Abbreviation key_le := (key_le key).
#[local] Abbreviation with_key := (with_key key).

Lemma float_lt_true (a b : Q) : float_lt a b = true <-> (a < b)%Q.
Proof.
  unfold float_lt. rewrite negb_true_iff.
  destruct (Qle_bool b a) eqn:E.
  - apply Qle_bool_iff in E. split; [done|]. intros H.
    by apply Qlt_not_le in H.
  - split; [|done]. intros _. apply Qnot_le_lt. intros H.
    apply Qle_bool_iff in H. congruence.
Qed.

Lemma float_lt_false (a b : Q) : float_lt a b = false <-> (b <= a)%Q.
Proof.
  unfold float_lt. rewrite negb_false_iff. apply Qle_bool_iff.
Qed.

Lemma insert_by_perm (x : A) (l : list A) :
  Permutation (insert_by key x l) (x :: l).
Proof.
  induction l as [|y l IH]; simpl; [done|].
  destruct (float_lt (key y) (key x)); [|done].
  rewrite IH. apply perm_swap.
Qed.

Lemma sort_by_perm (l : list A) : Permutation (sort_by key l) l.
Proof.
  induction l as [|x l IH]; simpl; [done|].
  rewrite insert_by_perm. by constructor.
Qed.


Lemma insert_by_sorted (x : A) (l : list A) :
  StronglySorted key_le l -> StronglySorted key_le (insert_by key x l).
Proof.
  induction 1 as [|y l Hs IH Hy]; simpl.
  - repeat constructor.
  - destruct (float_lt (key y) (key x)) eqn:E.
    + apply float_lt_true in E. constructor; [done|].
      apply List.Forall_forall. intros z Hz.
      apply (Permutation_in _ (insert_by_perm x l)) in Hz as [<-|Hz].
      * by apply Qlt_le_weak.
      * rewrite List.Forall_forall in Hy. by apply Hy.
    + apply float_lt_false in E. constructor; [by constructor|].
      constructor; [done|].
      eapply List.Forall_impl; [|exact Hy]. intros z Hz.
      unfold key_le in *. by eapply Qle_trans.
Qed.

Lemma sort_by_sorted (l : list A) : StronglySorted key_le (sort_by key l).
Proof.
  induction l as [|x l IH]; simpl; [constructor|].
  by apply insert_by_sorted.
Qed.

(** Insertion never moves an element past one with the same key. *)
Lemma insert_by_with_key (q : Q) (x : A) (l : list A) :
  with_key q (insert_by key x l) = with_key q (x :: l).
Proof.
  induction l as [|y l IH]; [done|].
  cbn [insert_by].
  destruct (float_lt (key y) (key x)) eqn:E; [|done].
  apply float_lt_true in E.
  unfold with_key in *. cbn [List.filter] in *. rewrite IH.
  destruct (Qeq_bool (key x) q) eqn:Ex; [|done].
  destruct (Qeq_bool (key y) q) eqn:Ey; [|done].
  apply Qeq_bool_iff in Ex, Ey. rewrite Ex, Ey in E.
  by apply Qlt_irrefl in E.
Qed.

(** Stability: elements with equal keys keep their relative order. *)
Lemma sort_by_stable (q : Q) (l : list A) :
  with_key q (sort_by key l) = with_key q l.
Proof.
  induction l as [|x l IH]; [done|].
  cbn [sort_by fold_right]. rewrite insert_by_with_key.
  unfold with_key in *. cbn [List.filter]. fold (sort_by key l).
  by rewrite IH.
Qed.

Lemma with_key_nil (l : list A) : (forall q, with_key q l = []) -> l = [].
Proof.
  destruct l as [|x l]; [done|]. intros H. specialize (H (key x)).
  unfold with_key in H. simpl in H. by rewrite Qeq_bool_refl in H.
Qed.

Lemma with_key_In (q : Q) (x : A) (l : list A) :
  In x (with_key q l) -> In x l.
Proof. unfold with_key. rewrite filter_In. tauto. Qed.

(** A sorted list is determined by its classes of equal keys: whatever
    stable sorting algorithm is used, the result is that of [sort_by]. *)
Lemma stable_sorted_unique (l1 : list A) :
  forall l2,
    StronglySorted key_le l1 -> StronglySorted key_le l2 ->
    (forall q, with_key q l1 = with_key q l2) -> l1 = l2.
Proof.
  induction l1 as [|x1 l1 IH]; intros l2 H1 H2 Hq.
  - symmetry. apply with_key_nil. intros q. by rewrite <- Hq.
  - destruct l2 as [|x2 l2].
    { apply with_key_nil. intros q. by rewrite Hq. }
    apply StronglySorted_inv in H1 as [H1 Hx1].
    apply StronglySorted_inv in H2 as [H2 Hx2].
    rewrite List.Forall_forall in Hx1, Hx2.
    assert (Hk : (key x1 == key x2)%Q).
    { apply Qle_antisym.
      - pose proof (Hq (key x2)) as E. unfold with_key in E. simpl in E.
        rewrite (Qeq_bool_refl (key x2)) in E.
        assert (Hin : In x2 (x1 :: l1)).
        { destruct (Qeq_bool (key x1) (key x2));
            [injection E as -> _; by left|].
          right. apply (with_key_In (key x2)). unfold with_key.
          rewrite E. by left. }
        destruct Hin as [->|Hin]; [apply Qle_refl|by apply Hx1].
      - pose proof (Hq (key x1)) as E. unfold with_key in E. simpl in E.
        rewrite (Qeq_bool_refl (key x1)) in E.
        assert (Hin : In x1 (x2 :: l2)).
        { destruct (Qeq_bool (key x2) (key x1));
            [injection E as -> _; by left|].
          right. apply (with_key_In (key x1)). unfold with_key.
          rewrite <- E. by left. }
        destruct Hin as [->|Hin]; [apply Qle_refl|by apply Hx2]. }
    assert (Hhead : x1 = x2).
    { pose proof (Hq (key x1)) as E. unfold with_key in E. simpl in E.
      rewrite (Qeq_bool_refl (key x1)) in E.
      assert (E2 : Qeq_bool (key x2) (key x1) = true)
        by (apply Qeq_bool_iff; by symmetry).
      rewrite E2 in E. congruence. }
    subst x2. f_equal. apply IH; try done.
    intros q. specialize (Hq q). unfold with_key in *. simpl in Hq.
    destruct (Qeq_bool (key x1) q); congruence.
Qed.

End Sorting.

(** ** Running programs *)

Section Running.

(** *** Frames *)

Lemma frame_refl (w : World) : frame w w [].
Proof. unfold frame. by rewrite app_nil_r. Qed.

Lemma replay_app (a b : list event) (f : gmap string string) :
  replay (a ++ b) f = replay b (replay a f).
Proof. unfold replay. by rewrite fold_left_app. Qed.

Lemma frame_trans (w1 w2 w3 : World) (a b : list event) :
  frame w1 w2 a -> frame w2 w3 b -> frame w1 w3 (a ++ b).
Proof.
  intros (Ht1 & He1 & Hf1 & Hp1) (Ht2 & He2 & Hf2 & Hp2).
  unfold frame. rewrite Ht2, Ht1, He2, He1, Hf2, Hf1, replay_app, app_assoc.
  repeat split; try done. lia.
Qed.

Lemma frame_since (w w' : World) (new : list event) :
  frame w w' new -> since w w' = new.
Proof.
  intros (Ht & _). unfold since. rewrite Ht.
  by rewrite skipn_app, skipn_all, Nat.sub_diag.
Qed.

Lemma same_process_refl (w : World) : same_process w w.
Proof. done. Qed.

Lemma same_process_trans (w1 w2 w3 : World) :
  same_process w1 w2 -> same_process w2 w3 -> same_process w1 w3.
Proof. unfold same_process. intros [] []. split; congruence. Qed.

Lemma same_process_me (w w' : World) : same_process w w' -> me w' = me w.
Proof. by intros [? _]. Qed.

Lemma reap_frame (j : nat) (w : World) :
  exists new, frame w (reap j w).2 new /\ same_process w (reap j w).2.
Proof.
  unfold reap. destruct (nth_error _ j) as [[pid status]|].
  - eexists [_]. by repeat split.
  - exists []. split; [apply frame_refl|done].
Qed.

(** A call extends the trace, keeps the oracle and the identity of the
    caller, and changes the files only as the trace tells. *)
Lemma do_call_frame {X : Set} (c : call X) (w : World) :
  exists new, frame w (do_call c w).2 new /\ same_process w (do_call c w).2.
Proof.
  pose proof (frame_refl w) as Hrefl.
  destruct c; simpl.
  - by exists [].
  - by exists [].
  - by exists [].
  - eexists [_]. by repeat split.
  - destruct (kids (proc w)) as [|k ks]; [by exists []|].
    destruct (reap_frame
                (arrival (env w) (tick (mach w)) mod length (k :: ks))%nat
                (next_tick w)) as (new & Hf & Hs).
    exists new. split; [|done].
    destruct Hf as (? & ? & ? & ?). by repeat split.
  - destruct (find_kid pid (kids (proc w))); [apply reap_frame|by exists []].
  - destruct (nice_denied _ _); eexists [_]; by repeat split.
  - exists []. repeat split; simpl; try done. by rewrite app_nil_r.
  - eexists [_]. by repeat split.
  - destruct (subprocess_raises _ _); eexists [_]; by repeat split.
  - eexists [_]. by repeat split.
  - destruct (fs (mach w) !! path); [eexists [_]; by repeat split|by exists []].
  - destruct (open_denied _ _); [exists []|eexists [_]]; repeat split;
      simpl; try done; by rewrite app_nil_r.
  - destruct (fs (mach w) !! path); [|by exists []].
    destruct (unlink_denied _ _); [exists []|eexists [_]]; repeat split;
      simpl; try done; by rewrite app_nil_r.
Qed.

Lemma spawn_frame (child : World -> halt * World) (w : World) :
  (forall wc, exists new, frame wc (child wc).2 new) ->
  exists r,
    (spawn child w).1 = cr_pid r
    /\ frame w (spawn child w).2 (spawn_events (me w) r)
    /\ same_process w (spawn child w).2
    /\ kids (proc (spawn child w).2) = kids (proc w) ++ [exit_record r]
    /\ niceness (proc (spawn child w).2) = niceness (proc w)
    /\ (Z.pos (last_pid (mach w)) < cr_pid r)
    /\ cr_pid r <= Z.pos (last_pid (mach (spawn child w).2))
    /\ exists wc,
         me wc = cr_pid r /\ parent (proc wc) = me w
         /\ env wc = env w
         /\ child wc = (cr_halt r, (child wc).2)
         /\ frame wc (child wc).2 (cr_events r).
Proof.
  intros Hchild. unfold spawn.
  set (p := (last_pid (mach w) + pid_gap (env w) (tick (mach w)))%positive).
  set (wc := {| proc := _; mach := _; env := _ |}).
  destruct (Hchild wc) as (new & Hf).
  destruct (child wc) as [h w1] eqn:E. simpl in Hf.
  exists {| cr_pid := Z.pos p; cr_halt := h; cr_events := new |}.
  destruct Hf as (Ht & He & Hfs & Hp).
  simpl. repeat split; try done.
  - unfold spawn_events. simpl. rewrite Ht. simpl.
    by rewrite <- !app_assoc.
  - unfold spawn_events. simpl. rewrite replay_app. simpl.
    by rewrite Hfs.
  - subst wc p. simpl in *. lia.
  - subst p. lia.
  - exists wc. rewrite E. by repeat split.
Qed.

(** Every program runs inside a frame. *)
Lemma run_frame {A : Type} (p : prog A) :
  forall w, exists new,
    frame w (final (run p w)) new /\ same_process w (final (run p w)).
Proof.
  induction p as [a|X c k IH|k IH|file args k IH|code|e]; intros w; simpl.
  - exists []. split; [apply frame_refl|done].
  - destruct (do_call_frame c w) as (n1 & Hf1 & Hs1).
    destruct (do_call c w) as [x w1]. simpl in *.
    destruct (IH x w1) as (n2 & Hf2 & Hs2).
    exists (n1 ++ n2). split; [by eapply frame_trans|by eapply same_process_trans].
  - destruct (spawn_frame (fun wc => outcome (run (k 0) wc)) w)
      as (r & _ & Hf1 & Hs1 & _).
    { intros wc. destruct (IH 0 wc) as (new & Hf & _). exists new.
      by destruct (run (k 0) wc). }
    destruct (spawn _ w) as [c w1]. simpl in *.
    destruct (IH c w1) as (n2 & Hf2 & Hs2).
    eexists. split; [by eapply frame_trans|by eapply same_process_trans].
  - destruct (exec_result _ _ _ _).
    + destruct (IH e (next_tick w)) as (new & Hf & Hs).
      exists new. split; [|done].
      destruct Hf as (? & ? & ? & ?). by repeat split.
    + eexists [_]. by repeat split.
  - exists []. split; [apply frame_refl|done].
  - exists []. split; [apply frame_refl|done].
Qed.

Lemma outcome_frame {A : Type} (p : prog A) (wc : World) :
  exists new, frame wc (outcome (run p wc)).2 new.
Proof.
  destruct (run_frame p wc) as (new & Hf & _). exists new.
  by destruct (run p wc).
Qed.

(** *** Sequencing *)

Lemma no_ret_bind_l {A B : Type} (p : prog A) (k : A -> prog B) :
  no_ret p -> no_ret (bind p k).
Proof. induction 1; simpl; by constructor. Qed.

Lemma no_ret_bind_r {A B : Type} (p : prog A) (k : A -> prog B) :
  (forall a, no_ret (k a)) -> no_ret (bind p k).
Proof. intros Hk. induction p; simpl; try by constructor. apply Hk. Qed.

Lemma fork_free_bind {A B : Type} (p : prog A) (k : A -> prog B) :
  fork_free p -> (forall a, fork_free (k a)) -> fork_free (bind p k).
Proof. intros Hp Hk. induction Hp; simpl; try by constructor. apply Hk. Qed.

Lemma fork_free_for_each {X S : Type} (xs : list X) (body : X -> S -> prog S) :
  (forall x s, fork_free (body x s)) ->
  forall s, fork_free (for_each xs body s).
Proof.
  intros Hb. induction xs as [|x xs IH]; intros s; simpl.
  - constructor.
  - apply fork_free_bind; [apply Hb|apply IH].
Qed.

Lemma spawn_ext (f g : World -> halt * World) (w : World) :
  (forall wc, f wc = g wc) -> spawn f w = spawn g w.
Proof. intros H. unfold spawn. by rewrite H. Qed.

(** What follows a program that never returns does not matter. *)
Lemma run_bind_no_ret {A B : Type} (p : prog A) (k : A -> prog B) :
  no_ret p -> forall w, outcome (run (bind p k) w) = outcome (run p w).
Proof.
  induction 1 as [X c h _ IH|h _ IH|file args h _ IH|code|e]; intros w; simpl.
  - destruct (do_call c w) as [x w1]. apply IH.
  - rewrite (spawn_ext _ (fun wc => outcome (run (h 0) wc))) by apply IH.
    destruct (spawn _ w) as [c w1]. apply IH.
  - destruct (exec_result _ _ _ _); [apply IH|done].
  - done.
  - done.
Qed.

(** Sequencing after a program that does not fork. *)
Lemma run_bind {A B : Type} (p : prog A) (k : A -> prog B) :
  fork_free p ->
  forall w, run (bind p k) w
            = match run p w with
              | Done a w' => run (k a) w'
              | Halted h w' => Halted h w'
              end.
Proof.
  induction 1 as [a|X c h _ IH|file args h _ IH|code|e]; intros w; simpl.
  - done.
  - destruct (do_call c w) as [x w1]. apply IH.
  - destruct (exec_result _ _ _ _); [apply IH|done].
  - done.
  - done.
Qed.

(** *** The spawning loop

    The loop of tasks 1, 2 and 5: fork, run the child branch on 0,
    record the handle otherwise. *)
Lemma run_spawn_loop {B : Type} (child : Z -> prog (list Z))
    (k : list Z -> prog B) (ixs : list Z) :
  (forall i, no_ret (child i)) ->
  forall children w,
    run (bind (for_each ixs (fun i children =>
                 let* pid := os_fork in
                 if pid =? 0 then child i
                 else Ret (children ++ [pid])) children) k) w
    = let '(cs, w') :=
        spawn_all (map (fun i wc => outcome (run (child i) wc)) ixs) w in
      run (k (children ++ cs)) w'.
Proof.
  intros Hchild. induction ixs as [|i ixs IH]; intros children w.
  - simpl. by rewrite app_nil_r.
  - cbn [for_each map spawn_all]. simpl bind at 1. cbn [run].
    rewrite (spawn_ext _ (fun wc => outcome (run (child i) wc))).
    2:{ intros wc. simpl.
        rewrite run_bind_no_ret by apply no_ret_bind_l, Hchild.
        by rewrite run_bind_no_ret by apply Hchild. }
    destruct (spawn _ w) as [c w1] eqn:Ec.
    assert (Hc : (c =? 0) = false).
    { unfold spawn in Ec. destruct (outcome _) in Ec.
      injection Ec as <- _. done. }
    rewrite Hc. simpl bind at 1. rewrite IH.
    destruct (spawn_all _ w1) as [cs w2].
    by rewrite <- app_assoc.
Qed.

(** What a spawning loop leaves: the runs of the children, one after the
    other, each described by [R]. *)
Lemma spawn_all_runs {X B : Type} (child : X -> prog B)
    (R : X -> child_run -> Prop) (ixs : list X) :
  forall w,
  (forall i wc h wc' new,
      env wc = env w -> parent (proc wc) = me w ->
      outcome (run (child i) wc) = (h, wc') -> frame wc wc' new ->
      R i {| cr_pid := me wc; cr_halt := h; cr_events := new |}) ->
  exists runs,
    let sp := spawn_all (map (fun i wc => outcome (run (child i) wc)) ixs) w in
    sp.1 = map cr_pid runs
    /\ Forall2 R ixs runs
    /\ frame w sp.2 (concat (map (spawn_events (me w)) runs))
    /\ same_process w sp.2
    /\ kids (proc sp.2) = kids (proc w) ++ map exit_record runs
    /\ niceness (proc sp.2) = niceness (proc w)
    /\ Forall (fun c => Z.pos (last_pid (mach w)) < c) sp.1
    /\ StronglySorted Z.lt sp.1.
Proof.
  induction ixs as [|i ixs IH]; intros w HR.
  - exists []. simpl. rewrite app_nil_r.
    repeat split; try constructor; try done. apply frame_refl.
  - cbn [map spawn_all].
    destruct (spawn_frame (fun wc => outcome (run (child i) wc)) w)
      as (r & Hpid & Hf & Hs & Hk & Hn & Hlo & Hhi & wc & Hme & Hpar & Henv & Ho & Hfc).
    { intros wc. apply outcome_frame. }
    destruct (spawn _ w) as [c w1]. simpl in *. subst c.
    destruct (IH w1) as (runs & Hcs & HR2 & Hf2 & Hs2 & Hk2 & Hn2 & Hlo2 & Hso).
    { intros i' wc0 h wc' new He Hp. apply HR.
      - destruct Hf as (_ & <- & _). done.
      - by rewrite <- (same_process_me _ _ Hs). }
    destruct (spawn_all _ w1) as [cs w2]. simpl in *.
    exists (r :: runs). simpl.
    rewrite (same_process_me _ _ Hs) in Hf2.
    split_and!.
    + by rewrite Hcs.
    + constructor; [|done].
      specialize (HR i wc _ _ _ Henv Hpar Ho Hfc). rewrite Hme in HR.
      by destruct r.
    + by eapply (frame_trans _ _ _ _ _ Hf Hf2).
    + by eapply same_process_trans.
    + by rewrite Hk2, Hk, <- app_assoc.
    + congruence.
    + constructor; [done|].
      eapply List.Forall_impl; [|exact Hlo2]. simpl. intros; lia.
    + constructor; [done|].
      eapply List.Forall_impl; [|exact Hlo2]. simpl. intros; lia.
Qed.

End Running.

(** ** Reading traces *)

Section Traces.

Lemma forked_by_app (p : Z) (a b : list event) :
  forked_by p (a ++ b) = forked_by p a ++ forked_by p b.
Proof. apply omap_app. Qed.

Lemma reaped_by_app (p : Z) (a b : list event) :
  reaped_by p (a ++ b) = reaped_by p a ++ reaped_by p b.
Proof. apply omap_app. Qed.

Lemma ends_app (a b : list event) : ends (a ++ b) = ends a ++ ends b.
Proof. apply omap_app. Qed.

Lemma nice_requests_app (a b : list event) :
  nice_requests (a ++ b) = nice_requests a ++ nice_requests b.
Proof. apply omap_app. Qed.

Lemma table_rows_app (a b : list event) :
  table_rows (a ++ b) = table_rows a ++ table_rows b.
Proof. apply omap_app. Qed.

Lemma collected_app (a b : list event) :
  collected (a ++ b) = collected a ++ collected b.
Proof. apply omap_app. Qed.

(** The events of a spawning loop, seen through an observation [obs]
    that is additive over traces. *)
Lemma concat_spawn_events {T : Type} (obs : list event -> list T)
    (one : child_run -> list T) (p : Z) (runs : list child_run) :
  obs [] = [] ->
  (forall a b, obs (a ++ b) = obs a ++ obs b) ->
  (forall r, In r runs -> obs (spawn_events p r) = one r) ->
  obs (concat (map (spawn_events p) runs)) = concat (map one runs).
Proof.
  intros Hnil Happ. induction runs as [|r runs IH]; intros Hone;
    cbn [map concat].
  - done.
  - rewrite Happ, Hone by (by left). f_equal. apply IH.
    intros r' Hr'. apply Hone. by right.
Qed.

(** An additive observation of a concatenation. *)
Lemma obs_concat {T U V : Type} (obs : list T -> list U) (f : V -> list T)
    (one : V -> list U) (l : list V) :
  obs [] = [] ->
  (forall a b, obs (a ++ b) = obs a ++ obs b) ->
  (forall x, In x l -> obs (f x) = one x) ->
  obs (concat (map f l)) = concat (map one l).
Proof.
  intros Hnil Happ. induction l as [|x l IH]; intros Hone;
    cbn [map concat].
  - done.
  - rewrite Happ, Hone by (by left). f_equal. apply IH.
    intros x' Hx'. apply Hone. by right.
Qed.

Lemma stderr_lines_app (a b : list event) :
  stderr_lines (a ++ b) = stderr_lines a ++ stderr_lines b.
Proof. apply omap_app. Qed.

Lemma concat_singletons {T U : Type} (f : T -> U) (l : list T) :
  concat (map (fun x => [f x]) l) = map f l.
Proof. induction l as [|x l IH]; simpl; [done|by rewrite IH]. Qed.

Lemma concat_nils {T U : Type} (l : list T) :
  concat (map (fun _ => @nil U) l) = [].
Proof. induction l as [|x l IH]; simpl; done. Qed.

Lemma Forall2_length_eq {T U : Type} (R : T -> U -> Prop) l1 l2 :
  Forall2 R l1 l2 -> length l1 = length l2.
Proof. induction 1; simpl; congruence. Qed.

Lemma Forall2_right {T U : Type} (R : T -> U -> Prop) l1 l2 (y : U) :
  Forall2 R l1 l2 -> In y l2 -> exists x, In x l1 /\ R x y.
Proof.
  induction 1 as [|x y' l1 l2 Hxy _ IH]; intros Hy; [done|].
  destruct Hy as [<-|Hy].
  - exists x. split; [by left|done].
  - destruct (IH Hy) as (x' & Hx' & HR). exists x'. split; [by right|done].
Qed.

End Traces.

(** ** The reaping loop *)

Section Reaping.

Lemma remove_nth_perm {T : Type} (j : nat) (l : list T) (x : T) :
  nth_error l j = Some x -> Permutation l (x :: remove_nth j l).
Proof.
  revert l. induction j as [|j IH]; intros [|y l]; simpl; try done.
  - intros [= ->]. done.
  - intros H. apply IH in H. unfold remove_nth in *. simpl.
    rewrite perm_swap. by constructor.
Qed.

Lemma run_wait_loop (report : Z * Z -> prog unit)
    (msg : Z -> Z * Z -> message) :
  (forall r w, run (report r) w
               = Done tt (log (EvPrint (me w) Stdout (msg (me w) r)) w)) ->
  (forall r, fork_free (report r)) ->
  forall (children : list Z) (w : World),
    (length children <= length (kids (proc w)))%nat ->
    exists recs w',
      run (for_each children
             (fun _ (_ : unit) => let* r := os_wait in report r) tt) w
      = Done tt w'
      /\ length recs = length children
      /\ frame w w' (concat (map (reap_events (me w) msg) recs))
      /\ same_process w w'
      /\ Permutation (kids (proc w)) (recs ++ kids (proc w')).
Proof.
  intros Hrep Hff. induction children as [|c children IH]; intros w Hlen.
  - exists [], w. simpl. split_and!; try done. apply frame_refl.
  - destruct (kids (proc w)) as [|k0 ks] eqn:Ek; [simpl in Hlen; lia|].
    set (j := (arrival (env w) (tick (mach w)) mod length (k0 :: ks))%nat).
    assert (Hj : (j < length (k0 :: ks))%nat)
      by (apply Nat.mod_upper_bound; done).
    destruct (nth_error (k0 :: ks) j) as [[pid status]|] eqn:En;
      [|apply nth_error_None in En; lia].
    set (w1 := log (EvReap (me w) pid status)
                 (set_kids (remove_nth j (k0 :: ks)) (next_tick w))).
    set (w2 := log (EvPrint (me w) Stdout (msg (me w) (pid, status))) w1).
    pose proof (remove_nth_perm _ _ _ En) as Hperm.
    destruct (IH w2) as (recs & w' & Hrun & Hl & Hf & Hs & Hk).
    { simpl. apply Permutation_length in Hperm. simpl in *. lia. }
    exists ((pid, status) :: recs), w'.
    split_and!.
    + cbn [for_each]. simpl bind at 1. cbn [run do_call]. rewrite Ek.
      unfold reap. cbn [kids proc next_tick set_mach]. rewrite Ek.
      fold j. rewrite En. simpl bind at 1.
      rewrite run_bind by apply Hff. rewrite Hrep. exact Hrun.
    + simpl. by rewrite Hl.
    + replace (concat (map (reap_events (me w) msg) ((pid, status) :: recs)))
        with (reap_events (me w) msg (pid, status)
              ++ concat (map (reap_events (me w) msg) recs)) by done.
      eapply frame_trans; [|exact Hf].
      unfold frame. simpl. rewrite <- app_assoc. by split_and!.
    + eapply same_process_trans; [|exact Hs]. done.
    + rewrite Hperm. simpl. constructor. exact Hk.
Qed.

Lemma reaped_by_reap_events (p : Z) msg (recs : list (Z * Z)) :
  reaped_by p (concat (map (reap_events p msg) recs)) = recs.
Proof.
  induction recs as [|[c s] recs IH]; [done|].
  cbn [map concat]. rewrite reaped_by_app, IH.
  unfold reaped_by, reap_events. simpl. by rewrite Z.eqb_refl.
Qed.

Lemma forked_by_reap_events (p q : Z) msg (recs : list (Z * Z)) :
  forked_by q (concat (map (reap_events p msg) recs)) = [].
Proof.
  induction recs as [|[c s] recs IH]; [done|].
  cbn [map concat]. by rewrite forked_by_app, IH.
Qed.

End Reaping.

(** ** Tactics for the shapes of programs and for single steps *)

Ltac prove_no_ret :=
  repeat first
    [ apply no_ret_bind_r; intros
    | apply no_ret_exit
    | apply no_ret_raise
    | apply no_ret_sys; intros
    | apply no_ret_execvp; intros
    | progress unfold os__exit, sys_exit
    | match goal with
      | |- no_ret (match ?x with _ => _ end) => destruct x
      end ].

Ltac prove_fork_free :=
  repeat first
    [ apply fork_free_ret
    | apply fork_free_exit
    | apply fork_free_raise
    | apply fork_free_sys; intros
    | apply fork_free_execvp; intros
    | apply fork_free_for_each; intros
    | apply fork_free_bind; [|intros]
    | progress unfold print, eprint, os_getpid, os_getppid, os_wait,
        sys_raise, sys, lift, os__exit, sys_exit, time_sleep, time_monotonic
    | match goal with
      | |- fork_free (match ?x with _ => _ end) => destruct x
      | |- fork_free (let '(_, _) := ?x in _) => destruct x
      end ].

Section Steps.

Context {A : Type}.

Lemma run_getpid (k : Z -> prog A) (w : World) :
  run (bind os_getpid k) w = run (k (me w)) w.
Proof. reflexivity. Qed.

Lemma run_getppid (k : Z -> prog A) (w : World) :
  run (bind os_getppid k) w = run (k (parent (proc w))) w.
Proof. reflexivity. Qed.

Lemma run_print (m : message) (k : unit -> prog A) (w : World) :
  run (bind (print m) k) w = run (k tt) (log (EvPrint (me w) Stdout m) w).
Proof. reflexivity. Qed.

Lemma run_fork (k : Z -> prog A) (w : World) :
  run (bind os_fork k) w
  = let '(c, w') := spawn (fun wc => outcome (run (k 0) wc)) w in
    run (k c) w'.
Proof. reflexivity. Qed.

Lemma run_eprint (m : message) (k : unit -> prog A) (w : World) :
  run (bind (eprint m) k) w = run (k tt) (log (EvPrint (me w) Stderr m) w).
Proof. reflexivity. Qed.

End Steps.

Lemma frame_unique (w w' : World) (a b : list event) :
  frame w w' a -> frame w w' b -> a = b.
Proof. intros Ha%frame_since Hb%frame_since. congruence. Qed.

Lemma frame_log (ev : event) (w : World) :
  replay_event ev (fs (mach w)) = fs (mach w) -> frame w (log ev w) [ev].
Proof. intros H. unfold frame. simpl. by rewrite H. Qed.

(** ** Task 1 *)

Section Task1.

Lemma task1_child_no_ret {A : Type} (i : Z) : no_ret (@task1_child A i).
Proof. unfold task1_child. prove_no_ret. Qed.

Lemma task1_child_run (w : World) (i : Z) (wc : World) (h : halt)
    (wc' : World) (new : list event) :
  env wc = env w -> parent (proc wc) = me w ->
  outcome (run (@task1_child (list Z) i) wc) = (h, wc') ->
  frame wc wc' new ->
  task1_run i {| cr_pid := me wc; cr_halt := h; cr_events := new |}.
Proof.
  intros _ _ [= <- <-] Hf. split; [done|]. eexists. simpl.
  eapply frame_unique; [exact Hf|]. by apply frame_log.
Qed.

Lemma task1_spawn_events (p : Z) (runs : list child_run) (ixs : list Z) :
  Forall2 task1_run ixs runs ->
  forked_by p (concat (map (spawn_events p) runs)) = map cr_pid runs
  /\ reaped_by p (concat (map (spawn_events p) runs)) = [].
Proof.
  intros HR. split.
  - rewrite (concat_spawn_events (forked_by p) (fun r => [cr_pid r]));
      auto using forked_by_app, concat_singletons.
    intros r Hr. destruct (Forall2_right _ _ _ _ HR Hr) as (_ & _ & _ & m & Hm).
    unfold spawn_events, forked_by. rewrite Hm. simpl.
    by rewrite Z.eqb_refl.
  - rewrite (concat_spawn_events (reaped_by p) (fun _ => []));
      auto using reaped_by_app, concat_nils.
    intros r Hr. destruct (Forall2_right _ _ _ _ HR Hr) as (_ & _ & _ & m & Hm).
    unfold spawn_events, reaped_by. by rewrite Hm.
Qed.

(** C1: for every [n >= 0], [task1_create_children n] returns after one
    [os.wait] per handle: the number of exit records and the number of
    handles are both [n], whatever child each [os.wait] reports; when
    the caller had no other child, the pids reaped are the handles up to
    order. *)
Theorem task1_reaps_every_child (n : Z) (w : World) :
  0 <= n ->
  exists w',
    run (task1_create_children n) w = Done tt w'
    /\ Z.of_nat (length (forked_by (me w) (since w w'))) = n
    /\ Z.of_nat (length (reaped_by (me w) (since w w'))) = n
    /\ (kids (proc w) = [] ->
        Permutation (map fst (reaped_by (me w) (since w w')))
          (forked_by (me w) (since w w'))).
Proof.
  intros Hn. unfold task1_create_children.
  rewrite run_getpid, run_print.
  set (w0 := log _ w).
  rewrite run_spawn_loop by apply task1_child_no_ret.
  destruct (spawn_all_runs (@task1_child (list Z)) task1_run (range 0 n)
              w0 (task1_child_run w0))
    as (runs & Hcs & HR & Hf1 & Hs1 & Hk1 & _).
  destruct (spawn_all _ w0) as [cs w1]. simpl in Hcs, Hf1, Hs1, Hk1.
  subst cs.
  unfold reap_loop. rewrite run_bind by prove_fork_free.
  destruct (run_wait_loop
              (fun r => let '(waited_pid, status) := r in
                        let* pid := os_getpid in
                        print [Lit "[PARENT "; Int pid; Lit "] Reaped child ";
                               Int waited_pid; Lit " status="; Int status])
              reaped_line
              ltac:(by intros [] ?) ltac:(intros []; prove_fork_free)
              ([] ++ map cr_pid runs) w1)
    as (recs & w2 & -> & Hl & Hf2 & Hs2 & Hk2).
  { rewrite Hk1. simpl. rewrite length_app, !length_map. lia. }
  simpl in Hl. rewrite length_map in Hl.
  rewrite run_getpid. eexists. split; [reflexivity|].
  set (w3 := log _ w2).
  assert (Hlen : length runs = Z.to_nat n).
  { rewrite <- (Forall2_length_eq _ _ _ HR), range_length. f_equal. lia. }
  assert (Hme1 : me w1 = me w) by (by rewrite (same_process_me _ _ Hs1)).
  assert (Hf : frame w w3
                 ([EvPrint (me w) Stdout
                     [Lit "[PARENT "; Int (me w); Lit "] Starting: creating ";
                      Int n; Lit " children"]]
                  ++ concat (map (spawn_events (me w)) runs)
                  ++ concat (map (reap_events (me w) reaped_line) recs)
                  ++ [EvPrint (me w) Stdout
                        [Lit "[PARENT "; Int (me w);
                         Lit "] All children reaped. Done."]])).
  { eapply frame_trans; [by apply frame_log|].
    eapply frame_trans; [exact Hf1|].
    rewrite Hme1 in Hf2.
    eapply frame_trans; [exact Hf2|].
    subst w3. rewrite (same_process_me _ _ Hs2), Hme1. by apply frame_log. }
  rewrite (frame_since _ _ _ Hf).
  destruct (task1_spawn_events (me w) runs _ HR) as [Hfk Hrp].
  rewrite !forked_by_app, !reaped_by_app, Hfk, Hrp.
  rewrite forked_by_reap_events, reaped_by_reap_events. simpl.
  rewrite !app_nil_r, length_map.
  split_and!; try lia.
  intros Hk0. rewrite Hk1 in Hk2. simpl in Hk2.
  assert (Hk3 : kids (proc w2) = []).
  { apply Permutation_length in Hk2.
    rewrite !length_app, !length_map in Hk2.
    replace (kids (proc w0)) with (kids (proc w)) in Hk2 by done.
    rewrite Hk0 in Hk2. simpl in Hk2.
    destruct (kids (proc w2)); [done|simpl in Hk2; lia]. }
  rewrite Hk3, app_nil_r in Hk2.
  replace (kids (proc w0)) with (kids (proc w)) in Hk2 by done.
  rewrite Hk0 in Hk2. simpl in Hk2.
  apply (Permutation_map fst) in Hk2. rewrite map_map in Hk2.
  symmetry. exact Hk2.
Qed.

Lemma task1_reaps_every_child_witness :
  0 <= 3
  /\ exists w',
       run (task1_create_children 3) (boot quiet_env) = Done tt w'
       /\ Z.of_nat (length (forked_by 100 (since (boot quiet_env) w'))) = 3
       /\ Z.of_nat (length (reaped_by 100 (since (boot quiet_env) w'))) = 3
       /\ (@nil (Z * Z) = [] ->
           Permutation (map fst (reaped_by 100 (since (boot quiet_env) w')))
             (forked_by 100 (since (boot quiet_env) w'))).
Proof.
  split; [lia|].
  apply (task1_reaps_every_child 3 (boot quiet_env)). lia.
Defined.

End Task1.

Lemma since_intro (w w' : World) (new : list event) :
  trace (mach w') = trace (mach w) ++ new -> since w w' = new.
Proof.
  intros H. unfold since. rewrite H.
  by rewrite skipn_app, skipn_all, Nat.sub_diag.
Qed.

(** ** The command line *)

Section Main.

(** C9: [--pid 0] is handled like a missing [--pid]: the guard tests the
    truth value.  [main] then ends with exit status 1, and what it does
    is the same whatever the inspector: [task4_inspect_proc] is not
    called. *)
Theorem main_pid_zero_rejected (inspect : Z -> prog unit)
    (args args' : Namespace) (w : World) :
  args_task args = 4 -> args_pid args = Some 0 ->
  args_task args' = 4 -> args_pid args' = None ->
  run (main inspect args) w = run (main inspect args') w
  /\ exists w', forall inspect' : Z -> prog unit,
       run (main inspect' args) w = Halted (HExit 1) w'.
Proof.
  intros Ht Hp Ht' Hp'. unfold main. simpl.
  rewrite Ht, Hp, Ht', Hp'. simpl.
  destruct (String.eqb (os_name (env w)) "posix"); simpl.
  - split; [done|]. by eexists.
  - split; [done|]. by eexists.
Qed.

Lemma main_pid_zero_rejected_witness :
  args_task (sample_args 4 (Some 0)) = 4
  /\ args_pid (sample_args 4 (Some 0)) = Some 0
  /\ args_task (sample_args 4 None) = 4
  /\ args_pid (sample_args 4 None) = None
  /\ run (main (fun _ => Ret tt) (sample_args 4 (Some 0))) (boot quiet_env)
     = run (main (fun _ => Ret tt) (sample_args 4 None)) (boot quiet_env)
  /\ exists w', forall inspect' : Z -> prog unit,
       run (main inspect' (sample_args 4 (Some 0))) (boot quiet_env)
       = Halted (HExit 1) w'.
Proof.
  split_and!; try reflexivity;
    by apply (main_pid_zero_rejected (fun _ => Ret tt)
                (sample_args 4 (Some 0)) (sample_args 4 None)
                (boot quiet_env)).
Defined.

(** A positive pid does reach the inspector. *)
Lemma main_pid_positive_inspects (inspect : Z -> prog unit)
    (args : Namespace) (pid : Z) (w : World) :
  args_task args = 4 -> args_pid args = Some pid -> pid <> 0 ->
  os_name (env w) = "posix" ->
  run (main inspect args) w = run (inspect pid) w.
Proof.
  intros Ht Hp Hz Hos. unfold main. simpl. rewrite Ht, Hp, Hos. simpl.
  apply Z.eqb_neq in Hz. by rewrite Hz.
Qed.

(** Task 3 without a mode is refused before anything is forked. *)
Lemma main_mode_missing (inspect : Z -> prog unit) (args : Namespace)
    (w : World) :
  args_task args = 3 -> truthy_str (args_mode args) = false ->
  exists w', run (main inspect args) w = Halted (HExit 1) w'
             /\ forked_by (me w) (since w w') = [].
Proof.
  intros Ht Hm. unfold main. simpl. rewrite Ht, Hm. simpl.
  destruct (String.eqb (os_name (env w)) "posix"); simpl;
    eexists; (split; [reflexivity|]);
    by erewrite since_intro by reflexivity.
Qed.

End Main.

(** ** Task 3 *)

Section Task3.

Lemma task3_unknown_child {A : Type} (mode : string) (wc : World) :
  mode <> "zombie" -> mode <> "orphan" ->
  run (@task3_child A mode) wc
  = Halted (HExit 1) (log (EvPrint (me wc) Stdout [Lit "[CHILD] unknown mode"]) wc).
Proof.
  intros Hz%String.eqb_neq Ho%String.eqb_neq. unfold task3_child.
  by rewrite Hz, Ho.
Qed.

Lemma task3_unknown_parent (mode : string) (pid : Z) (w : World) :
  mode <> "zombie" -> mode <> "orphan" ->
  run (task3_parent mode pid) w
  = Halted (HExit 1) (log (EvPrint (me w) Stdout [Lit "[PARENT] unknown mode"]) w).
Proof.
  intros Hz%String.eqb_neq Ho%String.eqb_neq. unfold task3_parent.
  by rewrite Hz, Ho.
Qed.

(** C3, as the code has it: with a mode that is neither ["zombie"] nor
    ["orphan"], [task3_zombie_or_orphan] forks exactly once; the child
    and then the parent each report the unknown mode and leave with
    exit code 1.  The rejection comes after the fork. *)
Theorem task3_unknown_mode_after_fork (mode : string) (w : World) :
  mode <> "zombie" -> mode <> "orphan" ->
  exists c w',
    run (task3_zombie_or_orphan mode) w = Halted (HExit 1) w'
    /\ forked_by (me w) (since w w') = [c]
    /\ ends (since w w') = [(c, HExit 1)]
    /\ In (EvPrint c Stdout [Lit "[CHILD] unknown mode"]) (since w w')
    /\ In (EvPrint (me w) Stdout [Lit "[PARENT] unknown mode"]) (since w w').
Proof.
  intros Hz Ho. unfold task3_zombie_or_orphan.
  rewrite run_getpid, run_print. set (w0 := log _ w).
  rewrite run_fork.
  destruct (spawn_frame
              (fun wc => outcome (run (if 0 =? 0 then task3_child mode
                                       else task3_parent mode 0) wc)) w0)
    as (r & Hpid & Hf & Hs & _ & _ & Hlo & _ & wc & Hme & _ & _ & Hout & Hfc).
  { intros wc. apply outcome_frame. }
  destruct (spawn _ w0) as [c w1]. simpl in Hpid, Hf, Hs. subst c.
  assert (Hc : (cr_pid r =? 0) = false) by (apply Z.eqb_neq; lia).
  rewrite Hc, task3_unknown_parent by done.
  change (0 =? 0) with true in Hout, Hfc. cbv iota in Hout, Hfc.
  rewrite task3_unknown_child in Hout, Hfc by done.
  simpl in Hout, Hfc. injection Hout as Hh.
  assert (Hev : cr_events r
                = [EvPrint (cr_pid r) Stdout [Lit "[CHILD] unknown mode"]]).
  { rewrite <- Hme. eapply frame_unique; [exact Hfc|]. by apply frame_log. }
  eexists (cr_pid r), _. split; [reflexivity|].
  erewrite frame_since.
  2:{ eapply (frame_trans w w0); [subst w0; by apply frame_log|].
      eapply (frame_trans w0 w1); [exact Hf|]. by apply frame_log. }
  unfold spawn_events. rewrite Hev, <- Hh. simpl.
  rewrite Z.eqb_refl. rewrite (same_process_me _ _ Hs).
  split_and!; try done.
  - do 2 right. by left.
  - do 4 right. by left.
Qed.

Lemma task3_unknown_mode_after_fork_witness :
  "bogus" <> "zombie" /\ "bogus" <> "orphan"
  /\ exists c w',
    run (task3_zombie_or_orphan "bogus") (boot quiet_env) = Halted (HExit 1) w'
    /\ forked_by 100 (since (boot quiet_env) w') = [c]
    /\ ends (since (boot quiet_env) w') = [(c, HExit 1)]
    /\ In (EvPrint c Stdout [Lit "[CHILD] unknown mode"])
         (since (boot quiet_env) w')
    /\ In (EvPrint 100 Stdout [Lit "[PARENT] unknown mode"])
         (since (boot quiet_env) w').
Proof.
  split; [done|]. split; [done|].
  by apply (task3_unknown_mode_after_fork "bogus" (boot quiet_env)).
Defined.

(** C3, as the claim states it, fails: an unknown mode is met by a fork
    before it is rejected. *)
Lemma task3_unknown_mode_forks :
  "bogus" <> "zombie" /\ "bogus" <> "orphan"
  /\ forked_by 100
       (since (boot quiet_env)
          (final (run (task3_zombie_or_orphan "bogus") (boot quiet_env))))
     = [101]
  /\ ~ (forall mode w,
          mode <> "zombie" -> mode <> "orphan" ->
          forked_by (me w)
            (since w (final (run (task3_zombie_or_orphan mode) w))) = []).
Proof.
  split; [done|]. split; [done|].
  assert (E : forked_by 100
       (since (boot quiet_env)
          (final (run (task3_zombie_or_orphan "bogus") (boot quiet_env))))
     = [101]) by (vm_compute; reflexivity).
  split; [exact E|].
  intros H.
  specialize (H "bogus" (boot quiet_env) ltac:(done) ltac:(done)).
  change (me (boot quiet_env)) with 100 in H.
  rewrite E in H. discriminate.
Qed.

End Task3.

(** ** Spawning, then reaping (tasks 1 and 2) *)

Section SpawnReap.

Lemma reap_loop_report (r : Z * Z) (w : World) :
  run (let '(waited_pid, status) := r in
       let* pid := os_getpid in
       print [Lit "[PARENT "; Int pid; Lit "] Reaped child "; Int waited_pid;
              Lit " status="; Int status]) w
  = Done tt (log (EvPrint (me w) Stdout (reaped_line (me w) r)) w).
Proof. by destruct r. Qed.

Lemma run_spawn_then_reap {B : Type} (child : Z -> prog (list Z))
    (R : Z -> child_run -> Prop) (k : unit -> prog B) (n : Z) (w : World) :
  (forall i, no_ret (child i)) ->
  (forall i wc h wc' new,
      env wc = env w -> parent (proc wc) = me w ->
      outcome (run (child i) wc) = (h, wc') -> frame wc wc' new ->
      R i {| cr_pid := me wc; cr_halt := h; cr_events := new |}) ->
  exists runs recs w',
    run (bind (for_each (range 0 n) (fun i children =>
                 let* pid := os_fork in
                 if pid =? 0 then child i
                 else Ret (children ++ [pid])) [])
           (fun children => bind (reap_loop children) k)) w
    = run (k tt) w'
    /\ Forall2 R (range 0 n) runs
    /\ frame w w' (concat (map (spawn_events (me w)) runs)
                   ++ concat (map (reap_events (me w) reaped_line) recs))
    /\ same_process w w'
    /\ length recs = length runs
    /\ Permutation (kids (proc w) ++ map exit_record runs)
         (recs ++ kids (proc w')).
Proof.
  intros Hnr HR.
  rewrite run_spawn_loop by apply Hnr.
  destruct (spawn_all_runs child R (range 0 n) w HR)
    as (runs & Hcs & HR2 & Hf1 & Hs1 & Hk1 & _).
  destruct (spawn_all _ w) as [cs w1]. simpl in Hcs, Hf1, Hs1, Hk1.
  subst cs. unfold reap_loop. rewrite run_bind by prove_fork_free.
  destruct (run_wait_loop _ reaped_line reap_loop_report
              ltac:(intros []; prove_fork_free)
              ([] ++ map cr_pid runs) w1)
    as (recs & w2 & -> & Hl & Hf2 & Hs2 & Hk2).
  { rewrite Hk1. simpl. rewrite length_app, !length_map. lia. }
  simpl in Hl. rewrite length_map in Hl.
  exists runs, recs, w2. split_and!; try done.
  - rewrite (same_process_me _ _ Hs1) in Hf2. by eapply frame_trans.
  - by eapply same_process_trans.
  - by rewrite <- Hk1.
Qed.

(** When the caller had no other child, the exit records are those of
    the children spawned. *)
Lemma reaped_are_spawned (ks recs rest : list (Z * Z)) (runs : list child_run) :
  ks = [] -> length recs = length runs ->
  Permutation (ks ++ map exit_record runs) (recs ++ rest) ->
  Permutation recs (map exit_record runs).
Proof.
  intros -> Hl Hp. simpl in Hp.
  assert (rest = []) as ->.
  { apply Permutation_length in Hp.
    rewrite length_app, length_map in Hp.
    destruct rest; [done|simpl in Hp; lia]. }
  rewrite app_nil_r in Hp. by symmetry.
Qed.

End SpawnReap.

(** ** Task 2 *)

Section Task2.

Lemma task2_child_no_ret {A : Type} (cmd : string) (use_exec : bool) :
  no_ret (@task2_child A cmd use_exec).
Proof. unfold task2_child. prove_no_ret. Qed.

Lemma task2_child_failed (cmd arg0 : string) (rest : list string)
    (w : World) (i : Z) (wc : World) (h : halt) (wc' : World)
    (new : list event) :
  py_split cmd = arg0 :: rest ->
  (forall k, exec_result (env w) k arg0 (arg0 :: rest)
             = ExecFails FileNotFoundError) ->
  env wc = env w -> parent (proc wc) = me w ->
  outcome (run (@task2_child (list Z) cmd true) wc) = (h, wc') ->
  frame wc wc' new ->
  task2_failed_run arg0 i {| cr_pid := me wc; cr_halt := h; cr_events := new |}.
Proof.
  intros Hsplit Hexec He _. unfold task2_child.
  rewrite run_getpid, run_getppid, run_print, Hsplit.
  cbn [run]. cbn [env log set_mach]. rewrite He, Hexec.
  rewrite run_getpid, run_eprint. cbn [run outcome os__exit].
  intros [= <- <-] Hf. split; [done|]. eexists. simpl.
  eapply frame_unique; [exact Hf|].
  unfold frame. simpl. rewrite <- app_assoc. by split_and!.
Qed.

Lemma task2_child_crashed (cmd : string) (w : World) (i : Z) (wc : World)
    (h : halt) (wc' : World) (new : list event) :
  py_split cmd = [] ->
  env wc = env w -> parent (proc wc) = me w ->
  outcome (run (@task2_child (list Z) cmd true) wc) = (h, wc') ->
  frame wc wc' new ->
  task2_crashed_run i {| cr_pid := me wc; cr_halt := h; cr_events := new |}.
Proof.
  intros Hsplit _ _. unfold task2_child.
  rewrite run_getpid, run_getppid, run_print, Hsplit.
  cbn [run outcome].
  intros [= <- <-] Hf. split; [done|]. eexists. simpl.
  eapply frame_unique; [exact Hf|]. by apply frame_log.
Qed.

(** What the run of task 2 leaves, the runs of the children being
    described by [R]. *)
Lemma task2_frame (R : Z -> child_run -> Prop) (n : Z) (cmd : string)
    (use_exec : bool) (w : World) :
  (forall i wc h wc' new,
      env wc = env w -> parent (proc wc) = me w ->
      outcome (run (@task2_child (list Z) cmd use_exec) wc) = (h, wc') ->
      frame wc wc' new ->
      R i {| cr_pid := me wc; cr_halt := h; cr_events := new |}) ->
  exists runs recs w' m0,
    run (task2_exec_children n cmd use_exec) w = Done tt w'
    /\ Forall2 R (range 0 n) runs
    /\ frame w w' ([EvPrint (me w) Stdout m0]
                   ++ concat (map (spawn_events (me w)) runs)
                   ++ concat (map (reap_events (me w) reaped_line) recs)
                   ++ [EvPrint (me w) Stdout [Lit "[PARENT] Task 2 complete."]])
    /\ length recs = length runs
    /\ length runs = Z.to_nat n
    /\ Permutation (kids (proc w) ++ map exit_record runs)
         (recs ++ kids (proc w')).
Proof.
  intros HR. unfold task2_exec_children.
  rewrite run_getpid, run_print. set (w0 := log _ w).
  destruct (run_spawn_then_reap (fun _ => task2_child cmd use_exec) R
              (fun _ => print [Lit "[PARENT] Task 2 complete."]) n w0)
    as (runs & recs & w2 & -> & HR2 & Hf & Hs & Hl & Hk).
  { intros _. apply task2_child_no_ret. }
  { exact HR. }
  exists runs, recs. eexists _, _. split_and!; try done.
  - eapply (frame_trans w w0); [subst w0; by apply frame_log|].
    rewrite app_assoc. eapply (frame_trans w0 w2); [exact Hf|].
    rewrite (same_process_me _ _ Hs). by apply frame_log.
  - rewrite <- (Forall2_length_eq _ _ _ HR2), range_length. f_equal. lia.
Qed.

Lemma spawn_events_cons (p : Z) (r : child_run) (e : event) (x : list event) :
  cr_events r = e :: x ->
  spawn_events p r
  = [EvFork p (cr_pid r)] ++ [e] ++ x ++ [EvEnd (cr_pid r) (cr_halt r)].
Proof. intros H. unfold spawn_events. by rewrite H. Qed.

(** The observations of the trace of task 2, for children that print
    to the standard output only, then [extra] on the standard error, and
    end with [h]. *)
Lemma task2_observations (p : Z) (m0 m1 : message) (h : halt)
    (extra : Z -> list event) (runs : list child_run) (recs : list (Z * Z)) :
  (forall r, In r runs ->
     cr_halt r = h
     /\ exists m, cr_events r = EvPrint (cr_pid r) Stdout m :: extra (cr_pid r)) ->
  (forall c, forked_by p (extra c) = [] /\ reaped_by p (extra c) = []
             /\ ends (extra c) = []) ->
  let new := [EvPrint p Stdout m0]
             ++ concat (map (spawn_events p) runs)
             ++ concat (map (reap_events p reaped_line) recs)
             ++ [EvPrint p Stdout m1] in
  forked_by p new = map cr_pid runs
  /\ reaped_by p new = recs
  /\ ends new = map (fun r => (cr_pid r, h)) runs
  /\ stderr_lines new = concat (map (fun r => stderr_lines (extra (cr_pid r))) runs).
Proof.
  intros Hruns Hextra new. subst new.
  rewrite !forked_by_app, !reaped_by_app, !ends_app, !stderr_lines_app.
  rewrite forked_by_reap_events, reaped_by_reap_events.
  rewrite (obs_concat ends (reap_events p reaped_line) (fun _ => []))
    by auto using ends_app.
  rewrite (obs_concat stderr_lines (reap_events p reaped_line) (fun _ => []))
    by auto using stderr_lines_app.
  rewrite !concat_nils. simpl. rewrite !app_nil_r.
  split_and!.
  - rewrite (obs_concat (forked_by p) (spawn_events p) (fun r => [cr_pid r]));
      [apply concat_singletons|done|apply forked_by_app|].
    intros r Hr. destruct (Hruns r Hr) as (_ & m & Hm).
    destruct (Hextra (cr_pid r)) as (Hx & _).
    rewrite (spawn_events_cons _ _ _ _ Hm), !forked_by_app, Hx.
    unfold forked_by. simpl. by rewrite Z.eqb_refl.
  - rewrite (obs_concat (reaped_by p) (spawn_events p) (fun _ => []));
      [by rewrite concat_nils|done|apply reaped_by_app|].
    intros r Hr. destruct (Hruns r Hr) as (_ & m & Hm).
    destruct (Hextra (cr_pid r)) as (_ & Hx & _).
    by rewrite (spawn_events_cons _ _ _ _ Hm), !reaped_by_app, Hx.
  - rewrite (obs_concat ends (spawn_events p) (fun r => [(cr_pid r, h)]));
      [apply concat_singletons|done|apply ends_app|].
    intros r Hr. destruct (Hruns r Hr) as (Hh & m & Hm).
    destruct (Hextra (cr_pid r)) as (_ & _ & Hx).
    by rewrite (spawn_events_cons _ _ _ _ Hm), !ends_app, Hx, Hh.
  - apply (obs_concat stderr_lines); [done|apply stderr_lines_app|].
    intros r Hr. destruct (Hruns r Hr) as (_ & m & Hm).
    rewrite (spawn_events_cons _ _ _ _ Hm), !stderr_lines_app. simpl.
    by rewrite app_nil_r.
Qed.

Lemma Forall2_all_right {T U : Type} (R : T -> U -> Prop) (P : U -> Prop)
    (l1 : list T) (l2 : list U) :
  (forall x y, R x y -> P y) -> Forall2 R l1 l2 ->
  forall y, In y l2 -> P y.
Proof.
  intros HRP HR y Hy. destruct (Forall2_right _ _ _ _ HR Hy) as (x & _ & Hxy).
  by eapply HRP.
Qed.

(** C5, as the code has it: with [use_exec=True] and a program that
    does not exist, every child reports the failure on the standard
    error and leaves with exit code 1, that is wait status 256.  The
    status is not zero; it is the status of a replacement that
    succeeds exactly when the program that replaced the child ends
    with status 256 itself.  The parent sees nothing but that status:
    it returns normally after one [os.wait] per handle. *)
Theorem task2_exec_failure_contained (n : Z) (cmd arg0 : string)
    (rest : list string) (w : World) :
  py_split cmd = arg0 :: rest ->
  (forall k, exec_result (env w) k arg0 (arg0 :: rest)
             = ExecFails FileNotFoundError) ->
  exists w',
    run (task2_exec_children n cmd true) w = Done tt w'
    /\ length (forked_by (me w) (since w w')) = Z.to_nat n
    /\ length (reaped_by (me w) (since w w'))
       = length (forked_by (me w) (since w w'))
    /\ ends (since w w')
       = map (fun c => (c, HExit 1)) (forked_by (me w) (since w w'))
    /\ stderr_lines (since w w')
       = map (fun c => (c, exec_failed c arg0)) (forked_by (me w) (since w w'))
    /\ wait_status (HExit 1) = 256
    /\ (forall status,
          wait_status (HExit 1) = wait_status (HExec status)
          <-> status = 256)
    /\ (kids (proc w) = [] ->
        Permutation (reaped_by (me w) (since w w'))
          (map (fun c => (c, 256)) (forked_by (me w) (since w w')))).
Proof.
  intros Hsplit Hexec.
  destruct (task2_frame (task2_failed_run arg0) n cmd true w)
    as (runs & recs & w' & m0 & Hrun & HR & Hf & Hl & Hn & Hk).
  { intros i wc h wc' new. by eapply task2_child_failed. }
  exists w'. split; [exact Hrun|].
  rewrite (frame_since _ _ _ Hf).
  destruct (task2_observations (me w) m0 [Lit "[PARENT] Task 2 complete."]
              (HExit 1)
              (fun c => [EvPrint c Stderr (exec_failed c arg0)]) runs recs)
    as (Hfk & Hrp & Hen & Her).
  { apply (Forall2_all_right _ _ _ _ (fun _ r H => H) HR). }
  { done. }
  rewrite Hfk, Hrp, Hen, Her. rewrite !length_map, !map_map.
  split_and!; try done.
  - exact (concat_singletons
             (fun r => (cr_pid r, exec_failed (cr_pid r) arg0)) runs).
  - intros Hk0.
    rewrite (reaped_are_spawned _ _ _ _ Hk0 Hl Hk).
    apply Permutation_refl'. apply map_ext_in. intros r Hr.
    destruct (Forall2_right _ _ _ _ HR Hr) as (_ & _ & Hh & _).
    unfold exit_record. by rewrite Hh.
Qed.

Lemma task2_exec_failure_contained_witness :
  py_split "nosuch -x" = ["nosuch"; "-x"]
  /\ (forall k, exec_result quiet_env k "nosuch" ["nosuch"; "-x"]
                = ExecFails FileNotFoundError)
  /\ exists w',
    run (task2_exec_children 2 "nosuch -x" true) (boot quiet_env) = Done tt w'
    /\ length (forked_by 100 (since (boot quiet_env) w')) = 2%nat
    /\ stderr_lines (since (boot quiet_env) w')
       = map (fun c => (c, exec_failed c "nosuch"))
           (forked_by 100 (since (boot quiet_env) w'))
    /\ (@nil (Z * Z) = [] ->
        Permutation (reaped_by 100 (since (boot quiet_env) w'))
          (map (fun c => (c, 256)) (forked_by 100 (since (boot quiet_env) w')))).
Proof.
  split; [reflexivity|]. split; [reflexivity|].
  destruct (task2_exec_failure_contained 2 "nosuch -x" "nosuch" ["-x"]
              (boot quiet_env) eq_refl (fun _ => eq_refl))
    as (w' & Hrun & Hn & _ & _ & Herr & _ & _ & Hperm).
  exists w'. split_and!; done.
Defined.

(** C5, as the claim states it, fails: the status does not tell the
    failure of the replacement from its success.  On the machine where
    the program is not found the child reports the failure and leaves
    with exit code 1; on the machine where the program is found and
    ends with exit code 1 the child is replaced and reports nothing;
    the parent reaps the same status 256 in both runs. *)
Lemma task2_exec_failure_status_shared :
  ends (exec_trace quiet_env) = [(101, HExit 1)]
  /\ stderr_lines (exec_trace quiet_env) = [(101, exec_failed 101 "nosuch")]
  /\ ends (exec_trace exit1_env) = [(101, HExec 256)]
  /\ stderr_lines (exec_trace exit1_env) = []
  /\ reaped_by 100 (exec_trace quiet_env)
     = reaped_by 100 (exec_trace exit1_env)
  /\ reaped_by 100 (exec_trace exit1_env) = [(101, 256)].
Proof. vm_compute. by repeat split. Qed.

(** C10: the handler of the [try] catches [FileNotFoundError] only.  For
    a command that is empty or blank, [cmd.split()] is the empty list,
    [args[0]] raises [IndexError] in every child, nothing catches it,
    and no child reaches the report on the standard error and
    [os._exit(1)]. *)
Theorem task2_blank_command_index_error (n : Z) (cmd : string) (w : World) :
  all_chars is_space cmd = true ->
  py_split cmd = []
  /\ exists w',
    run (task2_exec_children n cmd true) w = Done tt w'
    /\ length (forked_by (me w) (since w w')) = Z.to_nat n
    /\ ends (since w w')
       = map (fun c => (c, HRaise IndexError)) (forked_by (me w) (since w w'))
    /\ stderr_lines (since w w') = []
    /\ (forall c, ~ In (c, HExit 1) (ends (since w w'))).
Proof.
  intros Hblank.
  assert (Hsplit : py_split cmd = []) by (by apply split_ws_blank).
  split; [exact Hsplit|].
  destruct (task2_frame task2_crashed_run n cmd true w)
    as (runs & recs & w' & m0 & Hrun & HR & Hf & Hl & Hn & Hk).
  { intros i wc h wc' new. by eapply task2_child_crashed. }
  exists w'. split; [exact Hrun|].
  rewrite (frame_since _ _ _ Hf).
  destruct (task2_observations (me w) m0 [Lit "[PARENT] Task 2 complete."]
              (HRaise IndexError) (fun _ => []) runs recs)
    as (Hfk & Hrp & Hen & Her).
  { apply (Forall2_all_right _ _ _ _ (fun _ r H => H) HR). }
  { done. }
  rewrite Hfk, Hen, Her. rewrite !length_map, !map_map.
  split_and!; try done.
  - exact (concat_nils (U := Z * message) runs).
  - intros c Hc. by apply in_map_iff in Hc as (r & [= _ ?] & _).
Qed.

Lemma task2_blank_command_index_error_witness :
  all_chars is_space "  " = true
  /\ py_split "  " = []
  /\ exists w',
    run (task2_exec_children 2 "  " true) (boot quiet_env) = Done tt w'
    /\ length (forked_by 100 (since (boot quiet_env) w')) = 2%nat
    /\ ends (since (boot quiet_env) w')
       = map (fun c => (c, HRaise IndexError))
           (forked_by 100 (since (boot quiet_env) w'))
    /\ stderr_lines (since (boot quiet_env) w') = [].
Proof.
  split; [reflexivity|].
  destruct (task2_blank_command_index_error 2 "  " (boot quiet_env) eq_refl)
    as (Hsplit & w' & Hrun & Hn & Hends & Herr & _).
  split; [exact Hsplit|]. exists w'. split_and!; done.
Defined.

End Task2.

(** ** Task 5 *)

Section Task5.

Lemma task5_child_no_ret {A : Type} (i : Z) : no_ret (@task5_child A i).
Proof. unfold task5_child. rewrite cpu_work_value. prove_no_ret. Qed.




Lemma collect_body_fork_free (c : Z) (acc : list entry) :
  fork_free (collect_body c acc).
Proof. unfold collect_body. prove_fork_free. Qed.


Lemma run_report_rows (es : list entry) :
  forall w, exists w',
    run (report_rows es) w = Done tt w'
    /\ frame w w' (map (fun e => EvPrint (me w) Stdout (row_line e)) es)
    /\ same_process w w'.
Proof.
  unfold report_rows. induction es as [|[[p n] d] es IH]; intros w.
  - exists w. split_and!; try done. apply frame_refl.
  - destruct (IH (log (EvPrint (me w) Stdout (row_line (p, n, d))) w))
      as (w' & Hrun & Hf & Hs).
    exists w'. split_and!.
    + cbn [for_each]. rewrite run_print. exact Hrun.
    + cbn [map]. eapply (frame_trans _ _ _ [_]); [by apply frame_log|].
      exact Hf.
    + eapply same_process_trans; [|exact Hs]. done.
Qed.

Lemma replay_quiet (tr : list event) (f : gmap string string) :
  (forall ev, In ev tr -> forall g, replay_event ev g = g) -> replay tr f = f.
Proof.
  revert f. induction tr as [|ev tr IH]; intros f H; [done|].
  unfold replay in *. simpl. rewrite (H ev) by (by left).
  apply IH. intros ev' Hin. apply H. by right.
Qed.

Lemma replay_reap_events (p : Z) msg (recs : list (Z * Z))
    (f : gmap string string) :
  replay (concat (map (reap_events p msg) recs)) f = f.
Proof.
  apply replay_quiet. intros ev Hin%in_concat.
  destruct Hin as (l & Hl & Hev). apply in_map_iff in Hl as (r & <- & _).
  unfold reap_events in Hev. simpl in Hev.
  by destruct Hev as [<-|[<-|[]]].
Qed.

Lemma sorted_lt_NoDup (l : list Z) : StronglySorted Z.lt l -> NoDup l.
Proof.
  induction 1 as [|x l _ IH Hx]; constructor; [|done].
  intros Hin%list_elem_of_In. rewrite List.Forall_forall in Hx.
  specialize (Hx _ Hin). lia.
Qed.

Lemma reap_report5 (r : Z * Z) (w : World) :
  run (let '(wpid, status) := r in
       print [Lit "[PARENT] Reaped child "; Int wpid; Lit " status=";
              Int status]) w
  = Done tt (log (EvPrint (me w) Stdout (reaped_line5 (me w) r)) w).
Proof. by destruct r. Qed.


Lemma omap_concat_map {T U V : Type} (f : T -> option U) (g : V -> list T)
    (l : list V) :
  omap f (concat (map g l)) = concat (map (fun x => omap f (g x)) l).
Proof.
  induction l as [|x l IH]; [done|]. cbn [map concat].
  by rewrite omap_app, IH.
Qed.

Lemma concat_map_ext {T U : Type} (g h : T -> list U) (l : list T) :
  (forall x, In x l -> g x = h x) -> concat (map g l) = concat (map h l).
Proof.
  intros H. f_equal. apply map_ext_in. exact H.
Qed.


(** An observation of the trace of task 5, segment by segment. *)
Lemma omap_task5_trace {T : Type} (f : event -> option T) (p : Z)
    (m0 m1 m2 m3 : message) runs recs reads :
  omap f (task5_trace p m0 m1 m2 m3 runs recs reads)
  = omap f [EvPrint p Stdout m0]
    ++ concat (map (fun r => omap f (spawn_events p r)) runs)
    ++ concat (map (fun r => omap f (reap_events p reaped_line5 r)) recs)
    ++ omap f [EvPrint p Stdout m1]
    ++ concat (map (fun rd => omap f (read_events p rd)) reads)
    ++ omap f [EvPrint p Stdout m2]
    ++ omap f (map (fun e => EvPrint p Stdout (row_line e))
                 (sort_by duration_of (omap read_entry reads)))
    ++ omap f [EvPrint p Stdout m3].
Proof.
  unfold task5_trace. by rewrite !omap_app, !omap_concat_map.
Qed.

Lemma row_of_row_line (e : entry) : row_of (row_line e) = Some e.
Proof. by destruct e as [[p n] d]. Qed.

Lemma report_of_row_line (e : entry) : report_of (row_line e) = None.
Proof. by destruct e as [[p n] d]. Qed.

Lemma table_rows_rows (p : Z) (es : list entry) :
  table_rows (map (fun e => EvPrint p Stdout (row_line e)) es) = es.
Proof.
  induction es as [|e es IH]; [done|].
  change (table_rows (map (fun e => EvPrint p Stdout (row_line e)) (e :: es)))
    with (match row_of (row_line e) with
          | Some x => x :: table_rows
                             (map (fun e => EvPrint p Stdout (row_line e)) es)
          | None => table_rows
                      (map (fun e => EvPrint p Stdout (row_line e)) es)
          end).
  by rewrite row_of_row_line, IH.
Qed.

(** The shape of the events of one child of task 5, ready for
    observation. *)
Ltac observe_run Hr :=
  destruct Hr as (denied & wrote & d & Hd & Hh & Hev);
  unfold spawn_events; rewrite Hev;
  destruct denied, wrote; simpl; rewrite ?Z.eqb_refl; try done.

Ltac observe_read rd :=
  unfold read_events; destruct (rd_raw rd) as [raw|]; simpl;
  [destruct (entry_of_raw raw), (rd_unlinked rd); simpl|]; try done.

Lemma omap_none {T U : Type} (l : list T) :
  omap (fun _ : T => @None U) l = [].
Proof. induction l as [|x l IH]; [done|]. simpl. exact IH. Qed.

Lemma omap_map {T U V : Type} (f : U -> option V) (g : T -> U) (l : list T) :
  omap f (map g l) = omap (fun x => f (g x)) l.
Proof.
  induction l as [|x l IH]; [done|]. simpl.
  destruct (f (g x)); [f_equal|]; exact IH.
Qed.

Lemma omap_ext_all {T U : Type} (f g : T -> option U) (l : list T) :
  (forall x, f x = g x) -> omap f l = omap g l.
Proof.
  intros H. induction l as [|x l IH]; [done|]. simpl. rewrite H.
  destruct (g x); [f_equal|]; exact IH.
Qed.

Lemma omap_some {T : Type} (l : list T) : omap Some l = l.
Proof. induction l as [|x l IH]; [done|]. simpl. f_equal. exact IH. Qed.

(** An observation of the trace of task 5, from what it sees of each
    segment. *)
Lemma observe_task5 {T : Type} (f : event -> option T) (p : Z)
    (m0 m1 m2 m3 : message) runs recs reads
    (a0 a1 a2 a3 : list T) (R : child_run -> list T)
    (D : record_read -> list T) (E : entry -> option T) :
  omap f [EvPrint p Stdout m0] = a0 ->
  omap f [EvPrint p Stdout m1] = a1 ->
  omap f [EvPrint p Stdout m2] = a2 ->
  omap f [EvPrint p Stdout m3] = a3 ->
  (forall r, In r runs -> omap f (spawn_events p r) = R r) ->
  (forall r, omap f (reap_events p reaped_line5 r) = []) ->
  (forall rd, omap f (read_events p rd) = D rd) ->
  (forall e, f (EvPrint p Stdout (row_line e)) = E e) ->
  omap f (task5_trace p m0 m1 m2 m3 runs recs reads)
  = a0 ++ concat (map R runs) ++ a1 ++ concat (map D reads) ++ a2
    ++ omap E (sort_by duration_of (omap read_entry reads)) ++ a3.
Proof.
  intros H0 H1 H2 H3 HR Hrec HD HE.
  rewrite omap_task5_trace, H0, H1, H2, H3.
  rewrite (concat_map_ext _ R runs) by exact HR.
  rewrite (concat_map_ext _ (fun _ => []) recs) by (intros; apply Hrec).
  rewrite (concat_map_ext _ D reads) by (intros; apply HD).
  by rewrite concat_nils, omap_map, (omap_ext_all _ E _ HE).
Qed.

Lemma task5_observations (p : Z) (m0 m1 m2 m3 : message)
    (ixs : list Z) runs recs reads :
  plain m0 -> plain m1 -> plain m2 -> plain m3 ->
  Forall2 task5_run ixs runs ->
  let tr := task5_trace p m0 m1 m2 m3 runs recs reads in
  forked_by p tr = map cr_pid runs
  /\ nice_requests tr
     = concat (map (fun r => nice_requests (cr_events r)) runs)
  /\ writes tr = concat (map (fun r => writes (cr_events r)) runs)
  /\ table_rows tr = sort_by duration_of (omap read_entry reads)
  /\ collected tr = omap read_entry reads
  /\ reports tr
     = concat (map (fun rd => reports (read_events p rd)) reads)
  /\ stats tr
     = map (fun rd => (result_path (rd_pid rd), rd_present rd)) reads
  /\ reads_of tr
     = concat (map (fun rd => reads_of (read_events p rd)) reads).
Proof.
  intros [Hr0 Hp0] [Hr1 Hp1] [Hr2 Hp2] [Hr3 Hp3] HR tr. subst tr.
  assert (Hrun : forall r, In r runs -> exists i, task5_run i r).
  { intros r Hr. destruct (Forall2_right _ _ _ _ HR Hr) as (i & _ & Hi).
    by exists i. }
  split_and!.
  - unfold forked_by.
    erewrite (observe_task5 _ p m0 m1 m2 m3 runs recs reads [] [] [] []
                (fun r => [cr_pid r]) (fun _ => []) (fun _ => None));
      try done.
    + by rewrite concat_singletons, concat_nils, omap_none, !app_nil_r.
    + intros r Hr. destruct (Hrun r Hr) as (i & Hi). observe_run Hi.
    + intros rd. observe_read rd.
  - unfold nice_requests.
    erewrite (observe_task5 _ p m0 m1 m2 m3 runs recs reads [] [] [] []
                (fun r => nice_requests (cr_events r)) (fun _ => [])
                (fun _ => None));
      try done.
    + by rewrite concat_nils, omap_none, !app_nil_r.
    + intros r Hr. destruct (Hrun r Hr) as (i & Hi). unfold nice_requests.
      observe_run Hi.
    + intros rd. observe_read rd.
  - unfold writes.
    erewrite (observe_task5 _ p m0 m1 m2 m3 runs recs reads [] [] [] []
                (fun r => writes (cr_events r)) (fun _ => [])
                (fun _ => None));
      try done.
    + by rewrite concat_nils, omap_none, !app_nil_r.
    + intros r Hr. destruct (Hrun r Hr) as (i & Hi). unfold writes.
      observe_run Hi.
    + intros rd. observe_read rd.
  - unfold table_rows.
    erewrite (observe_task5 _ p m0 m1 m2 m3 runs recs reads [] [] [] []
                (fun _ => []) (fun _ => []) Some);
      try (simpl; by rewrite ?Hr0, ?Hr1, ?Hr2, ?Hr3).
    + by rewrite !concat_nils, omap_some, !app_nil_r.
    + intros r Hr. destruct (Hrun r Hr) as (i & Hi). observe_run Hi.
    + intros rd. observe_read rd.
    + intros e. apply row_of_row_line.
  - unfold collected.
    erewrite (observe_task5 _ p m0 m1 m2 m3 runs recs reads [] [] [] []
                (fun _ => []) (fun rd => option_list (read_entry rd))
                (fun _ => None));
      try done.
    + rewrite concat_nils, omap_none, !app_nil_r. simpl.
      clear. induction reads as [|rd reads IH]; [done|]. simpl.
      rewrite IH. by destruct (read_entry rd).
    + intros r Hr. destruct (Hrun r Hr) as (i & Hi). observe_run Hi.
    + intros rd. unfold read_entry. observe_read rd.
  - unfold reports.
    erewrite (observe_task5 _ p m0 m1 m2 m3 runs recs reads [] [] [] []
                (fun _ => []) (fun rd => reports (read_events p rd))
                (fun _ => None));
      try (simpl; by rewrite ?Hp0, ?Hp1, ?Hp2, ?Hp3).
    + by rewrite concat_nils, omap_none, !app_nil_r.
    + intros r Hr. destruct (Hrun r Hr) as (i & Hi). observe_run Hi.
    + intros e. apply report_of_row_line.
  - unfold stats.
    erewrite (observe_task5 _ p m0 m1 m2 m3 runs recs reads [] [] [] []
                (fun _ => [])
                (fun rd => [(result_path (rd_pid rd), rd_present rd)])
                (fun _ => None));
      try done.
    + by rewrite concat_nils, concat_singletons, omap_none, !app_nil_r.
    + intros r Hr. destruct (Hrun r Hr) as (i & Hi). observe_run Hi.
    + intros rd. unfold rd_present. observe_read rd.
  - unfold reads_of.
    erewrite (observe_task5 _ p m0 m1 m2 m3 runs recs reads [] [] [] []
                (fun _ => []) (fun rd => reads_of (read_events p rd))
                (fun _ => None));
      try done.
    + by rewrite concat_nils, omap_none, !app_nil_r.
    + intros r Hr. destruct (Hrun r Hr) as (i & Hi). observe_run Hi.
Qed.




(** *** The records at reading time *)







(** *** Absent and malformed records *)















End Task5.

(** ** The workload, in closed form *)

Section Workload.

(** Every turn of the loop of [cpu_work] adds exactly 1, so that
    [cpu_work iterations] is [iterations - 1] for [iterations >= 1]. *)
Theorem cpu_work_counts_turns (iterations : Z) :
  1 <= iterations ->
  (forall i, In i (range 1 iterations) -> py_mod (i * i) (i + 1) = inr 1)
  /\ cpu_work iterations = inr (iterations - 1).
Proof.
  intros Hn. split.
  - intros i Hi%range_bounds. unfold py_mod.
    destruct (Z.eqb_spec (i + 1) 0) as [E|_]; [lia|].
    by rewrite square_mod_succ by lia.
  - rewrite cpu_work_value. f_equal. lia.
Qed.

Lemma cpu_work_counts_turns_witness :
  1 <= 7
  /\ (forall i, In i (range 1 7) -> py_mod (i * i) (i + 1) = inr 1)
  /\ cpu_work 7 = inr 6.
Proof. split; [lia | apply (cpu_work_counts_turns 7); lia]. Defined.

End Workload.

(** ** Nothing to spawn *)

Section NoChildren.

(** With [n <= 0], [range(n)] is empty: the three spawning tasks fork
    nothing and wait for nothing; all that happens is the fixed lines of
    the parent, two for tasks 1 and 2, four (with an empty table) for
    task 5. *)
Theorem no_children_no_fork (n : Z) (cmd : string) (use_exec : bool)
    (w : World) :
  n <= 0 ->
  (exists m0 m1 w',
      run (task1_create_children n) w = Done tt w'
      /\ since w w' = [EvPrint (me w) Stdout m0; EvPrint (me w) Stdout m1])
  /\ (exists m0 m1 w',
      run (task2_exec_children n cmd use_exec) w = Done tt w'
      /\ since w w' = [EvPrint (me w) Stdout m0; EvPrint (me w) Stdout m1])
  /\ (exists m0 m1 m2 m3 w',
      run (task5_prioritization n) w = Done tt w'
      /\ since w w' = [EvPrint (me w) Stdout m0; EvPrint (me w) Stdout m1;
                       EvPrint (me w) Stdout m2; EvPrint (me w) Stdout m3]).
Proof.
  intros Hn. split_and!.
  - unfold task1_create_children. rewrite (range_empty 0 n Hn).
    do 3 eexists. split; [reflexivity|].
    apply since_intro. simpl. by rewrite <- app_assoc.
  - unfold task2_exec_children. rewrite (range_empty 0 n Hn).
    do 3 eexists. split; [reflexivity|].
    apply since_intro. simpl. by rewrite <- app_assoc.
  - unfold task5_prioritization. rewrite (range_empty 0 n Hn).
    do 5 eexists. split; [reflexivity|].
    apply since_intro. simpl. by rewrite <- !app_assoc.
Qed.

Lemma no_children_no_fork_witness :
  -2 <= 0
  /\ (exists m0 m1 w',
      run (task1_create_children (-2)) (boot quiet_env) = Done tt w'
      /\ since (boot quiet_env) w'
         = [EvPrint 100 Stdout m0; EvPrint 100 Stdout m1])
  /\ (exists m0 m1 w',
      run (task2_exec_children (-2) "ls" true) (boot quiet_env) = Done tt w'
      /\ since (boot quiet_env) w'
         = [EvPrint 100 Stdout m0; EvPrint 100 Stdout m1])
  /\ (exists m0 m1 m2 m3 w',
      run (task5_prioritization (-2)) (boot quiet_env) = Done tt w'
      /\ since (boot quiet_env) w'
         = [EvPrint 100 Stdout m0; EvPrint 100 Stdout m1;
            EvPrint 100 Stdout m2; EvPrint 100 Stdout m3]).
Proof.
  split; [lia|].
  apply (no_children_no_fork (-2) "ls" true (boot quiet_env)). lia.
Defined.

End NoChildren.

(** ** Spawning and reaping, with the handles *)

Section Handles.

(** The loops of tasks 1 and 2, with what the kernel guarantees of the
    handles: they are fresh and distinct. *)
Lemma run_spawn_reap_handles {B : Type} (child : Z -> prog (list Z))
    (R : Z -> child_run -> Prop) (k : unit -> prog B) (n : Z) (w : World) :
  (forall i, no_ret (child i)) ->
  (forall i wc h wc' new,
      env wc = env w -> parent (proc wc) = me w ->
      outcome (run (child i) wc) = (h, wc') -> frame wc wc' new ->
      R i {| cr_pid := me wc; cr_halt := h; cr_events := new |}) ->
  exists runs recs w',
    run (bind (for_each (range 0 n) (fun i children =>
                 let* pid := os_fork in
                 if pid =? 0 then child i
                 else Ret (children ++ [pid])) [])
           (fun children => bind (reap_loop children) k)) w
    = run (k tt) w'
    /\ Forall2 R (range 0 n) runs
    /\ frame w w' (concat (map (spawn_events (me w)) runs)
                   ++ concat (map (reap_events (me w) reaped_line) recs))
    /\ same_process w w'
    /\ length recs = length runs
    /\ Permutation (kids (proc w) ++ map exit_record runs)
         (recs ++ kids (proc w'))
    /\ NoDup (map cr_pid runs)
    /\ Forall (fun c => Z.pos (last_pid (mach w)) < c) (map cr_pid runs).
Proof.
  intros Hnr HR.
  rewrite run_spawn_loop by apply Hnr.
  destruct (spawn_all_runs child R (range 0 n) w HR)
    as (runs & Hcs & HR2 & Hf1 & Hs1 & Hk1 & _ & Hlo & Hso).
  destruct (spawn_all _ w) as [cs w1]. simpl in Hcs, Hf1, Hs1, Hk1, Hlo, Hso.
  subst cs. unfold reap_loop. rewrite run_bind by prove_fork_free.
  destruct (run_wait_loop _ reaped_line reap_loop_report
              ltac:(intros []; prove_fork_free)
              ([] ++ map cr_pid runs) w1)
    as (recs & w2 & -> & Hl & Hf2 & Hs2 & Hk2).
  { rewrite Hk1. simpl. rewrite length_app, !length_map. lia. }
  simpl in Hl. rewrite length_map in Hl.
  exists runs, recs, w2.
  split; [done|]. split; [done|].
  split; [rewrite (same_process_me _ _ Hs1) in Hf2; by eapply frame_trans|].
  split; [by eapply same_process_trans|].
  split; [done|]. split; [by rewrite <- Hk1|].
  split; [by apply sorted_lt_NoDup|done].
Qed.

(** Readings of a trace made of an opening line, the children, the
    reaping and a closing line. *)
Lemma observe_spawn_reap {T : Type} (f : event -> option T) (p : Z)
    (m0 m1 : message) (msg : Z -> Z * Z -> message)
    (runs : list child_run) (recs : list (Z * Z)) :
  omap f ([EvPrint p Stdout m0]
          ++ concat (map (spawn_events p) runs)
          ++ concat (map (reap_events p msg) recs)
          ++ [EvPrint p Stdout m1])
  = omap f [EvPrint p Stdout m0]
    ++ concat (map (fun r => omap f (spawn_events p r)) runs)
    ++ concat (map (fun r => omap f (reap_events p msg r)) recs)
    ++ omap f [EvPrint p Stdout m1].
Proof. by rewrite !omap_app, !omap_concat_map. Qed.

Lemma wait_status_exit_0 : wait_status (HExit 0) = 0.
Proof. reflexivity. Qed.

End Handles.

(** ** Process by process *)

Section Processes.

Lemma events_of_app (p : Z) (a b : list event) :
  events_of p (a ++ b) = events_of p a ++ events_of p b.
Proof. apply List.filter_app. Qed.

Lemma events_of_concat {T : Type} (p : Z) (g : T -> list event)
    (l : list T) :
  events_of p (concat (map g l)) = concat (map (fun x => events_of p (g x)) l).
Proof.
  induction l as [|x l IH]; [done|]. cbn [map concat].
  by rewrite events_of_app, IH.
Qed.

Lemma events_of_own (p : Z) (tr : list event) :
  Forall (fun ev => pid_of ev = p) tr -> events_of p tr = tr.
Proof.
  induction 1 as [|ev tr Hev _ IH]; [done|]. unfold events_of in *. simpl.
  by rewrite Hev, Z.eqb_refl, IH.
Qed.

Lemma events_of_other (q : Z) (tr : list event) :
  Forall (fun ev => pid_of ev <> q) tr -> events_of q tr = [].
Proof.
  induction 1 as [|ev tr Hev _ IH]; [done|]. unfold events_of in *. simpl.
  apply Z.eqb_neq in Hev. by rewrite Hev, IH.
Qed.

Lemma own_reap_events (p : Z) (msg : Z -> Z * Z -> message) (r : Z * Z) :
  Forall (fun ev => pid_of ev = p) (reap_events p msg r).
Proof. by repeat constructor. Qed.

Lemma own_concat {T : Type} (p : Z) (g : T -> list event) (l : list T) :
  (forall x, Forall (fun ev => pid_of ev = p) (g x)) ->
  Forall (fun ev => pid_of ev = p) (concat (map g l)).
Proof.
  intros H. induction l as [|x l IH]; [constructor|]. cbn [map concat].
  apply Forall_app. by split.
Qed.

Lemma Forall_pid_ne (c q : Z) (tr : list event) :
  c <> q -> Forall (fun ev => pid_of ev = c) tr ->
  Forall (fun ev => pid_of ev <> q) tr.
Proof.
  intros Hne. apply List.Forall_impl. intros ev ->. exact Hne.
Qed.

(** The caller sees of a child its fork alone. *)
Lemma events_of_spawn_parent (p : Z) (r : child_run) :
  own_events r -> cr_pid r <> p ->
  events_of p (spawn_events p r) = [EvFork p (cr_pid r)].
Proof.
  intros Hown Hne. unfold spawn_events.
  change (EvFork p (cr_pid r) :: cr_events r ++ [EvEnd (cr_pid r) (cr_halt r)])
    with ([EvFork p (cr_pid r)] ++ cr_events r
          ++ [EvEnd (cr_pid r) (cr_halt r)]).
  rewrite !events_of_app.
  rewrite (events_of_own p [_]) by (by repeat constructor).
  rewrite (events_of_other p (cr_events r))
    by (by eapply Forall_pid_ne).
  rewrite (events_of_other p [_]) by (by repeat constructor).
  done.
Qed.

(** Another process than the caller sees of a child nothing, unless it
    is that child. *)
Lemma events_of_spawn_child (p q : Z) (r : child_run) :
  own_events r -> p <> q ->
  events_of q (spawn_events p r)
  = if cr_pid r =? q then cr_events r ++ [EvEnd (cr_pid r) (cr_halt r)]
    else [].
Proof.
  intros Hown Hne. unfold spawn_events.
  change (EvFork p (cr_pid r) :: cr_events r ++ [EvEnd (cr_pid r) (cr_halt r)])
    with ([EvFork p (cr_pid r)] ++ cr_events r
          ++ [EvEnd (cr_pid r) (cr_halt r)]).
  rewrite !events_of_app.
  rewrite (events_of_other q [_]) by (by repeat constructor).
  destruct (Z.eqb_spec (cr_pid r) q) as [<-|Hc].
  - rewrite (events_of_own _ (cr_events r)) by done.
    by rewrite (events_of_own _ [_]) by (by repeat constructor).
  - rewrite (events_of_other q (cr_events r)) by (by eapply Forall_pid_ne).
    by rewrite (events_of_other q [_]) by (by repeat constructor).
Qed.

Lemma events_of_children_parent (p : Z) (runs : list child_run) :
  (forall r, In r runs -> own_events r /\ cr_pid r <> p) ->
  events_of p (concat (map (spawn_events p) runs))
  = map (fun r => EvFork p (cr_pid r)) runs.
Proof.
  intros Hruns. rewrite events_of_concat.
  rewrite (concat_map_ext _ (fun r => [EvFork p (cr_pid r)]) runs).
  - apply concat_singletons.
  - intros r Hr. destruct (Hruns r Hr). by apply events_of_spawn_parent.
Qed.

Lemma events_of_children_child (p : Z) (runs : list child_run)
    (r0 : child_run) :
  NoDup (map cr_pid runs) ->
  (forall r, In r runs -> own_events r /\ cr_pid r <> p) ->
  In r0 runs ->
  events_of (cr_pid r0) (concat (map (spawn_events p) runs))
  = cr_events r0 ++ [EvEnd (cr_pid r0) (cr_halt r0)].
Proof.
  intros Hnd Hruns Hr0. rewrite events_of_concat.
  assert (Hp : p <> cr_pid r0).
  { destruct (Hruns r0 Hr0) as [_ H]. congruence. }
  induction runs as [|r runs IH]; [done|].
  apply NoDup_cons in Hnd as [Hr Hnd]. cbn [map concat].
  destruct (Hruns r (or_introl eq_refl)) as [Hown _].
  rewrite (events_of_spawn_child p _ r Hown Hp).
  destruct Hr0 as [->|Hr0].
  - rewrite Z.eqb_refl.
    rewrite (concat_map_ext _ (fun _ => []) runs);
      [by rewrite concat_nils, app_nil_r|].
    intros r' Hr'. destruct (Hruns r' (or_intror Hr')) as [Hown' _].
    rewrite (events_of_spawn_child p _ r' Hown' Hp).
    destruct (Z.eqb_spec (cr_pid r') (cr_pid r0)) as [E|_]; [|done].
    exfalso. apply Hr. rewrite <- E. apply list_elem_of_In, in_map_iff.
    by exists r'.
  - destruct (Z.eqb_spec (cr_pid r) (cr_pid r0)) as [E|_].
    + exfalso. apply Hr. rewrite E. apply list_elem_of_In, in_map_iff.
      by exists r0.
    + simpl. apply IH; [done| |done].
      intros r' Hr'. apply Hruns. by right.
Qed.

Lemma In_spawn_events (p : Z) (r : child_run) (ev : event) :
  own_events r -> In ev (spawn_events p r) ->
  pid_of ev = p \/ pid_of ev = cr_pid r.
Proof.
  intros Hown [<-|[Hin|[<-|[]]]%in_app_or]; [by left| |by right].
  right. unfold own_events in Hown. rewrite List.Forall_forall in Hown.
  by apply Hown.
Qed.

(** A trace made of events of the caller, then the children, then
    events of the caller again, process by process. *)
Lemma around_children (p : Z) (pre post : list event)
    (runs : list child_run) :
  Forall (fun ev => pid_of ev = p) pre ->
  Forall (fun ev => pid_of ev = p) post ->
  NoDup (map cr_pid runs) ->
  (forall r, In r runs -> own_events r /\ cr_pid r <> p) ->
  let tr := pre ++ concat (map (spawn_events p) runs) ++ post in
  events_of p tr = pre ++ map (fun r => EvFork p (cr_pid r)) runs ++ post
  /\ (forall r, In r runs ->
        events_of (cr_pid r) tr
        = cr_events r ++ [EvEnd (cr_pid r) (cr_halt r)])
  /\ (forall ev, In ev tr ->
        pid_of ev = p \/ In (pid_of ev) (map cr_pid runs)).
Proof.
  intros Hpre Hpost Hnd Hruns tr. subst tr. split_and!.
  - rewrite !events_of_app, events_of_children_parent by done.
    by rewrite !events_of_own by done.
  - intros r Hr. destruct (Hruns r Hr) as [_ Hne].
    rewrite !events_of_app, events_of_children_child by done.
    rewrite !events_of_other
      by (eapply Forall_pid_ne; [|eassumption]; congruence).
    simpl. by rewrite app_nil_r.
  - rewrite List.Forall_forall in Hpre, Hpost.
    intros ev [Hin|[Hin|Hin]%in_app_or]%in_app_or.
    + left. by apply Hpre.
    + apply in_concat in Hin as (l & Hl & Hin).
      apply in_map_iff in Hl as (r & <- & Hr).
      destruct (Hruns r Hr) as [Hown _].
      destruct (In_spawn_events _ _ _ Hown Hin) as [?|E]; [by left|].
      right. rewrite E. apply in_map_iff. by exists r.
    + left. by apply Hpost.
Qed.

Lemma own_app (p : Z) (a b : list event) :
  Forall (fun ev => pid_of ev = p) a ->
  Forall (fun ev => pid_of ev = p) b ->
  Forall (fun ev => pid_of ev = p) (a ++ b).
Proof. intros. apply Forall_app. by split. Qed.

(** A child whose pid is fresh is not the caller. *)
Lemma fresh_not_caller (w : World) (c : Z) :
  caller_known w -> Z.pos (last_pid (mach w)) < c -> c <> me w.
Proof. unfold caller_known. lia. Qed.

End Processes.

(** ** Task 1, event by event *)

Section Task1Trace.

Lemma task1_child_hello (w : World) (i : Z) (wc : World) (h : halt)
    (wc' : World) (new : list event) :
  env wc = env w -> parent (proc wc) = me w ->
  outcome (run (@task1_child (list Z) i) wc) = (h, wc') ->
  frame wc wc' new ->
  task1_hello_run (me w) i
    {| cr_pid := me wc; cr_halt := h; cr_events := new |}.
Proof.
  intros _ Hp [= <- <-] Hf. split; [done|]. simpl.
  eapply frame_unique; [exact Hf|].
  unfold hello_line. rewrite <- Hp. by apply frame_log.
Qed.

(** The trace of task 1, the children being run where they are
    forked. *)
Lemma task1_trace (n : Z) (w : World) :
  exists runs recs w',
    run (task1_create_children n) w = Done tt w'
    /\ Forall2 (task1_hello_run (me w)) (range 0 n) runs
    /\ since w w'
       = [EvPrint (me w) Stdout (starting_line (me w) n)]
         ++ concat (map (spawn_events (me w)) runs)
         ++ concat (map (reap_events (me w) reaped_line) recs)
         ++ [EvPrint (me w) Stdout (all_reaped_line (me w))]
    /\ length recs = length runs
    /\ NoDup (map cr_pid runs)
    /\ Forall (fun c => Z.pos (last_pid (mach w)) < c) (map cr_pid runs)
    /\ forks (since w w') = map (fun r => (me w, cr_pid r)) runs
    /\ ends (since w w') = map (fun r => (cr_pid r, HExit 0)) runs
    /\ Permutation (kids (proc w) ++ map (fun r => (cr_pid r, 0)) runs)
         (recs ++ kids (proc w')).
Proof.
  unfold task1_create_children.
  rewrite run_getpid, run_print. set (w0 := log _ w).
  destruct (run_spawn_reap_handles (@task1_child (list Z))
              (task1_hello_run (me w))
              (fun _ => let* pid := os_getpid in
                        print [Lit "[PARENT "; Int pid;
                               Lit "] All children reaped. Done."]) n w0)
    as (runs & recs & w2 & -> & HR & Hf & Hs & Hl & Hk & Hnd & Hlo).
  { apply task1_child_no_ret. }
  { apply task1_child_hello. }
  rewrite run_getpid.
  exists runs, recs. eexists. split; [reflexivity|].
  assert (Hframe : frame w (log (EvPrint (me w2) Stdout
                                   [Lit "[PARENT "; Int (me w2);
                                    Lit "] All children reaped. Done."]) w2)
                     ([EvPrint (me w) Stdout (starting_line (me w) n)]
                      ++ concat (map (spawn_events (me w)) runs)
                      ++ concat (map (reap_events (me w) reaped_line) recs)
                      ++ [EvPrint (me w) Stdout (all_reaped_line (me w))])).
  { eapply (frame_trans w w0); [subst w0; by apply frame_log|].
    rewrite app_assoc. eapply (frame_trans w0 w2); [exact Hf|].
    rewrite (same_process_me _ _ Hs). by apply frame_log. }
  assert (Hrun : forall r, In r runs ->
            cr_halt r = HExit 0
            /\ exists m, cr_events r = [EvPrint (cr_pid r) Stdout m]).
  { intros r Hr. destruct (Forall2_right _ _ _ _ HR Hr) as (i & _ & Hh & Hev).
    split; [done|]. by eexists. }
  split; [exact HR|]. split; [exact (frame_since _ _ _ Hframe)|].
  split; [exact Hl|]. split; [exact Hnd|]. split; [exact Hlo|].
  rewrite (frame_since _ _ _ Hframe).
  split; [|split].
  - unfold forks. rewrite observe_spawn_reap. simpl.
    rewrite (concat_map_ext _ (fun r => [(me w, cr_pid r)]) runs).
    2:{ intros r Hr. destruct (Hrun r Hr) as (_ & m & Hev).
        unfold spawn_events. by rewrite Hev. }
    by rewrite concat_singletons, concat_nils, app_nil_r.
  - unfold ends. rewrite observe_spawn_reap. simpl.
    rewrite (concat_map_ext _ (fun r => [(cr_pid r, HExit 0)]) runs).
    2:{ intros r Hr. destruct (Hrun r Hr) as (Hh & m & Hev).
        unfold spawn_events. by rewrite Hev, Hh. }
    by rewrite concat_singletons, concat_nils, app_nil_r.
  - replace (map (fun r => (cr_pid r, 0)) runs) with (map exit_record runs);
      [exact Hk|].
    apply map_ext_in. intros r Hr. destruct (Hrun r Hr) as (Hh & _).
    unfold exit_record. by rewrite Hh.
Qed.

(** A run of [task1_create_children n], process by process.  The
    caller prints the opening line, forks once per index of
    [range(n)], then waits and prints once per child, then prints the
    closing line.  The child of index [i] prints the line of index [i]
    with its own pid and the pid of the caller and leaves with
    [os._exit(0)].  Nothing else happens: no child forks, the handles
    are distinct, and the unreaped children of the caller are
    exchanged one for one. *)
Theorem task1_event_by_event (n : Z) (w : World) :
  caller_known w ->
  exists runs recs w',
    run (task1_create_children n) w = Done tt w'
    /\ Forall2 (task1_hello_run (me w)) (range 0 n) runs
    /\ events_of (me w) (since w w')
       = [EvPrint (me w) Stdout (starting_line (me w) n)]
         ++ map (fun r => EvFork (me w) (cr_pid r)) runs
         ++ concat (map (reap_events (me w) reaped_line) recs)
         ++ [EvPrint (me w) Stdout (all_reaped_line (me w))]
    /\ (forall r, In r runs ->
          events_of (cr_pid r) (since w w')
          = cr_events r ++ [EvEnd (cr_pid r) (HExit 0)])
    /\ (forall ev, In ev (since w w') ->
          pid_of ev = me w \/ In (pid_of ev) (map cr_pid runs))
    /\ length recs = length runs
    /\ NoDup (map cr_pid runs)
    /\ Permutation (kids (proc w) ++ map (fun r => (cr_pid r, 0)) runs)
         (recs ++ kids (proc w')).
Proof.
  intros Hcaller.
  destruct (task1_trace n w)
    as (runs & recs & w' & Hrun & HR & Htr & Hl & Hnd & Hlo & _ & _ & Hk).
  exists runs, recs, w'.
  assert (Hruns : forall r, In r runs ->
            (own_events r /\ cr_pid r <> me w) /\ cr_halt r = HExit 0).
  { intros r Hr. destruct (Forall2_right _ _ _ _ HR Hr) as (i & _ & Hh & Hev).
    split; [split|done].
    - unfold own_events. rewrite Hev. by repeat constructor.
    - apply fresh_not_caller; [done|].
      rewrite List.Forall_forall in Hlo. apply Hlo, in_map_iff. by exists r. }
  destruct (around_children (me w)
              [EvPrint (me w) Stdout (starting_line (me w) n)]
              (concat (map (reap_events (me w) reaped_line) recs)
               ++ [EvPrint (me w) Stdout (all_reaped_line (me w))]) runs)
    as (Hp & Hc & Hall).
  { by repeat constructor. }
  { apply own_app; [|by repeat constructor].
    apply own_concat. intros. apply own_reap_events. }
  { exact Hnd. }
  { intros r Hr. by destruct (Hruns r Hr). }
  rewrite Htr. split_and!; try done.
  intros r Hr. rewrite (Hc r Hr). by destruct (Hruns r Hr) as [_ ->].
Qed.

Lemma task1_event_by_event_witness :
  caller_known (boot quiet_env)
  /\ exists runs recs w',
    run (task1_create_children 2) (boot quiet_env) = Done tt w'
    /\ Forall2 (task1_hello_run 100) (range 0 2) runs
    /\ events_of 100 (since (boot quiet_env) w')
       = [EvPrint 100 Stdout (starting_line 100 2)]
         ++ map (fun r => EvFork 100 (cr_pid r)) runs
         ++ concat (map (reap_events 100 reaped_line) recs)
         ++ [EvPrint 100 Stdout (all_reaped_line 100)]
    /\ (forall r, In r runs ->
          events_of (cr_pid r) (since (boot quiet_env) w')
          = cr_events r ++ [EvEnd (cr_pid r) (HExit 0)]).
Proof.
  assert (Hc : caller_known (boot quiet_env)) by (unfold caller_known, me; simpl; lia).
  split; [exact Hc|].
  destruct (task1_event_by_event 2 (boot quiet_env) Hc)
    as (runs & recs & w' & Hrun & HR & Hp & Hch & _).
  exists runs, recs, w'. exact (conj Hrun (conj HR (conj Hp Hch))).
Defined.

End Task1Trace.

(** ** Task 2, whatever the command does *)

Section Task2Ways.

Lemma task2_child_way (cmd : string) (use_exec : bool) (w : World) (i : Z)
    (wc : World) (h : halt) (wc' : World) (new : list event) :
  env wc = env w -> parent (proc wc) = me w ->
  outcome (run (@task2_child (list Z) cmd use_exec) wc) = (h, wc') ->
  frame wc wc' new ->
  exists t,
    task2_run (me w) cmd (task2_way_at (env w) cmd use_exec t)
      {| cr_pid := me wc; cr_halt := h; cr_events := new |}.
Proof.
  intros He Hp. unfold task2_child.
  rewrite run_getpid, run_getppid, run_print.
  unfold task2_run, task2_way_at, way_events, executing_line.
  rewrite <- Hp, <- He.
  destruct use_exec.
  - destruct (py_split cmd) as [|arg0 rest] eqn:Hs.
    + cbn [run outcome]. intros [= <- <-] Hf. exists O. split; [done|].
      simpl. eapply frame_unique; [exact Hf|]. by apply frame_log.
    + cbn [run]. cbn [env tick mach log set_mach].
      destruct (exec_result (env wc) (tick (mach wc)) arg0 (arg0 :: rest))
        as [e|status] eqn:Hx.
      * destruct e; cbn [run outcome bind os_getpid eprint sys do_call os__exit];
          intros [= <- <-] Hf; exists (tick (mach wc)); rewrite Hx;
          (split; [done|]); simpl;
          (eapply frame_unique; [exact Hf|]);
          unfold frame; simpl; rewrite <- ?app_assoc; by split_and!.
      * cbn [outcome]. intros [= <- <-] Hf. exists (tick (mach wc)).
        rewrite Hx. split; [done|]. simpl.
        eapply frame_unique; [exact Hf|].
        unfold frame; simpl; rewrite <- ?app_assoc; by split_and!.
  - cbn [bind sys run do_call]. cbn [env tick mach log set_mach].
    destruct (subprocess_raises (env wc) (tick (mach wc))) as [e|] eqn:Hx;
      cbn [run outcome bind os_getpid eprint sys do_call os__exit];
      intros [= <- <-] Hf; exists (tick (mach wc)); rewrite Hx;
      (split; [done|]); simpl;
      (eapply frame_unique; [exact Hf|]);
      unfold frame; simpl; rewrite <- ?app_assoc; by split_and!.
Qed.

(** The run of task 2, every child going one of the ways. *)
Lemma task2_frame_fresh (n : Z) (cmd : string) (use_exec : bool) (w : World) :
  exists runs recs w',
    run (task2_exec_children n cmd use_exec) w = Done tt w'
    /\ (forall r, In r runs ->
          exists t, task2_run (me w) cmd
                      (task2_way_at (env w) cmd use_exec t) r)
    /\ length runs = Z.to_nat n
    /\ frame w w'
         ([EvPrint (me w) Stdout (creating_line (me w) n cmd use_exec)]
          ++ concat (map (spawn_events (me w)) runs)
          ++ concat (map (reap_events (me w) reaped_line) recs)
          ++ [EvPrint (me w) Stdout complete_line])
    /\ length recs = length runs
    /\ NoDup (map cr_pid runs)
    /\ Permutation (kids (proc w) ++ map exit_record runs)
         (recs ++ kids (proc w'))
    /\ Forall (fun c => Z.pos (last_pid (mach w)) < c) (map cr_pid runs).
Proof.
  unfold task2_exec_children.
  rewrite run_getpid, run_print. set (w0 := log _ w).
  destruct (run_spawn_reap_handles (fun _ => task2_child cmd use_exec)
              (fun _ r => exists t,
                   task2_run (me w) cmd
                     (task2_way_at (env w) cmd use_exec t) r)
              (fun _ => print [Lit "[PARENT] Task 2 complete."]) n w0)
    as (runs & recs & w2 & -> & HR & Hf & Hs & Hl & Hk & Hnd & Hlo).
  { intros _. apply task2_child_no_ret. }
  { intros i wc h wc' new. apply (task2_child_way cmd use_exec w0 i). }
  exists runs, recs. eexists. split; [reflexivity|].
  split; [apply (Forall2_all_right _ _ _ _ (fun _ r H => H) HR)|].
  split.
  { rewrite <- (Forall2_length_eq _ _ _ HR), range_length. f_equal. lia. }
  split.
  { eapply (frame_trans w w0); [subst w0; by apply frame_log|].
    rewrite app_assoc. eapply (frame_trans w0 w2); [exact Hf|].
    rewrite (same_process_me _ _ Hs). by apply frame_log. }
  split; [exact Hl|]. split; [exact Hnd|]. split; [exact Hk|exact Hlo].
Qed.

Lemma task2_frame_ways (n : Z) (cmd : string) (use_exec : bool) (w : World) :
  exists runs recs w',
    run (task2_exec_children n cmd use_exec) w = Done tt w'
    /\ (forall r, In r runs ->
          exists t, task2_run (me w) cmd
                      (task2_way_at (env w) cmd use_exec t) r)
    /\ length runs = Z.to_nat n
    /\ frame w w'
         ([EvPrint (me w) Stdout (creating_line (me w) n cmd use_exec)]
          ++ concat (map (spawn_events (me w)) runs)
          ++ concat (map (reap_events (me w) reaped_line) recs)
          ++ [EvPrint (me w) Stdout complete_line])
    /\ length recs = length runs
    /\ NoDup (map cr_pid runs)
    /\ Permutation (kids (proc w) ++ map exit_record runs)
         (recs ++ kids (proc w')).
Proof.
  destruct (task2_frame_fresh n cmd use_exec w)
    as (runs & recs & w' & H1 & H2 & H3 & H4 & H5 & H6 & H7 & _).
  exists runs, recs, w'. by split_and!.
Qed.

Lemma way_events_quiet (c : Z) (cmd : string) (way : task2_way) (p : Z) :
  forks (way_events c cmd way) = []
  /\ forked_by p (way_events c cmd way) = []
  /\ reaped_by p (way_events c cmd way) = []
  /\ ends (way_events c cmd way) = [].
Proof.
  destruct way as [status| |e|[e|]]; unfold way_events;
    destruct (py_split cmd); done.
Qed.

(** What the readings see of a trace of task 2. *)
Lemma task2_readings (p : Z) (cmd : string) (m0 m1 : message)
    (runs : list child_run) (recs : list (Z * Z)) :
  (forall r, In r runs -> exists way, task2_run p cmd way r) ->
  let tr := [EvPrint p Stdout m0]
            ++ concat (map (spawn_events p) runs)
            ++ concat (map (reap_events p reaped_line) recs)
            ++ [EvPrint p Stdout m1] in
  forked_by p tr = map cr_pid runs
  /\ forks tr = map (fun r => (p, cr_pid r)) runs
  /\ ends tr = map (fun r => (cr_pid r, cr_halt r)) runs
  /\ reaped_by p tr = recs
  /\ stderr_lines tr = concat (map (fun r => stderr_lines (cr_events r)) runs)
  /\ execs tr = concat (map (fun r => execs (cr_events r)) runs)
  /\ shell_runs tr = concat (map (fun r => shell_runs (cr_events r)) runs).
Proof.
  intros Hways tr. subst tr.
  assert (Hshape : forall r, In r runs ->
            exists m way,
              spawn_events p r
              = [EvFork p (cr_pid r); EvPrint (cr_pid r) Stdout m]
                ++ way_events (cr_pid r) cmd way
                ++ [EvEnd (cr_pid r) (cr_halt r)]
              /\ cr_events r
                 = EvPrint (cr_pid r) Stdout m :: way_events (cr_pid r) cmd way).
  { intros r Hr. destruct (Hways r Hr) as (way & Hh & Hev).
    eexists _, way. unfold spawn_events. by rewrite Hev. }
  split_and!.
  - unfold forked_by. rewrite observe_spawn_reap.
    rewrite (concat_map_ext _ (fun r => [cr_pid r]) runs).
    + simpl. by rewrite concat_singletons, concat_nils, app_nil_r.
    + intros r Hr. destruct (Hshape r Hr) as (m & way & -> & _).
      destruct (way_events_quiet (cr_pid r) cmd way p) as (_ & Hq & _).
      unfold forked_by in Hq. rewrite !omap_app, Hq. simpl.
      by rewrite Z.eqb_refl.
  - unfold forks. rewrite observe_spawn_reap.
    rewrite (concat_map_ext _ (fun r => [(p, cr_pid r)]) runs).
    + simpl. by rewrite concat_singletons, concat_nils, app_nil_r.
    + intros r Hr. destruct (Hshape r Hr) as (m & way & -> & _).
      destruct (way_events_quiet (cr_pid r) cmd way p) as (Hq & _).
      unfold forks in Hq. by rewrite !omap_app, Hq.
  - unfold ends. rewrite observe_spawn_reap.
    rewrite (concat_map_ext _ (fun r => [(cr_pid r, cr_halt r)]) runs).
    + simpl. by rewrite concat_singletons, concat_nils, app_nil_r.
    + intros r Hr. destruct (Hshape r Hr) as (m & way & -> & _).
      destruct (way_events_quiet (cr_pid r) cmd way p) as (_ & _ & _ & Hq).
      unfold ends in Hq. by rewrite !omap_app, Hq.
  - rewrite !reaped_by_app, reaped_by_reap_events.
    rewrite (obs_concat (reaped_by p) (spawn_events p) (fun _ => []));
      [rewrite concat_nils; simpl; by rewrite app_nil_r
      |done|apply reaped_by_app|].
    intros r Hr. destruct (Hshape r Hr) as (m & way & -> & _).
    destruct (way_events_quiet (cr_pid r) cmd way p) as (_ & _ & Hq & _).
    by rewrite !reaped_by_app, Hq.
  - unfold stderr_lines. rewrite observe_spawn_reap.
    rewrite (concat_map_ext _ (fun r => stderr_lines (cr_events r)) runs).
    + simpl. by rewrite concat_nils, app_nil_r.
    + intros r Hr. destruct (Hshape r Hr) as (m & way & -> & ->).
      unfold stderr_lines. rewrite !omap_app. simpl. by rewrite app_nil_r.
  - unfold execs. rewrite observe_spawn_reap.
    rewrite (concat_map_ext _ (fun r => execs (cr_events r)) runs).
    + simpl. by rewrite concat_nils, app_nil_r.
    + intros r Hr. destruct (Hshape r Hr) as (m & way & -> & ->).
      unfold execs. rewrite !omap_app. simpl. by rewrite app_nil_r.
  - unfold shell_runs. rewrite observe_spawn_reap.
    rewrite (concat_map_ext _ (fun r => shell_runs (cr_events r)) runs).
    + simpl. by rewrite concat_nils, app_nil_r.
    + intros r Hr. destruct (Hshape r Hr) as (m & way & -> & ->).
      unfold shell_runs. rewrite !omap_app. simpl. by rewrite app_nil_r.
Qed.

Lemma own_way_events (c : Z) (cmd : string) (way : task2_way) :
  Forall (fun ev => pid_of ev = c) (way_events c cmd way).
Proof.
  destruct way as [status| |e|[e|]]; unfold way_events;
    destruct (py_split cmd); by repeat constructor.
Qed.

(** Whatever the command is and whatever becomes of it, a run of
    [task2_exec_children n cmd use_exec] returns normally, and process
    by process it is this.  The caller prints the opening line, forks
    once per index, then waits and prints once per child, then prints
    the closing line.  Each child prints its line, goes one of the
    ways of [task2_way_at], and ends as that way ends; none forks and
    none returns into the loop of the caller. *)
Theorem task2_event_by_event (n : Z) (cmd : string) (use_exec : bool)
    (w : World) :
  caller_known w ->
  exists runs recs w',
    run (task2_exec_children n cmd use_exec) w = Done tt w'
    /\ (forall r, In r runs ->
          exists t, task2_run (me w) cmd
                      (task2_way_at (env w) cmd use_exec t) r)
    /\ length runs = Z.to_nat n
    /\ events_of (me w) (since w w')
       = [EvPrint (me w) Stdout (creating_line (me w) n cmd use_exec)]
         ++ map (fun r => EvFork (me w) (cr_pid r)) runs
         ++ concat (map (reap_events (me w) reaped_line) recs)
         ++ [EvPrint (me w) Stdout complete_line]
    /\ (forall r, In r runs ->
          events_of (cr_pid r) (since w w')
          = cr_events r ++ [EvEnd (cr_pid r) (cr_halt r)])
    /\ (forall ev, In ev (since w w') ->
          pid_of ev = me w \/ In (pid_of ev) (map cr_pid runs))
    /\ length recs = length runs
    /\ NoDup (map cr_pid runs)
    /\ Permutation (kids (proc w) ++ map exit_record runs)
         (recs ++ kids (proc w')).
Proof.
  intros Hcaller.
  destruct (task2_frame_fresh n cmd use_exec w)
    as (runs & recs & w' & Hrun & Hways & Hn & Hf & Hl & Hnd & Hk & Hlo).
  exists runs, recs, w'.
  destruct (around_children (me w)
              [EvPrint (me w) Stdout (creating_line (me w) n cmd use_exec)]
              (concat (map (reap_events (me w) reaped_line) recs)
               ++ [EvPrint (me w) Stdout complete_line]) runs)
    as (Hp & Hc & Hall).
  { by repeat constructor. }
  { apply own_app; [|by repeat constructor].
    apply own_concat. intros. apply own_reap_events. }
  { exact Hnd. }
  { intros r Hr. destruct (Hways r Hr) as (t & _ & Hev). split.
    - unfold own_events. rewrite Hev. constructor; [done|].
      apply own_way_events.
    - apply fresh_not_caller; [done|].
      rewrite List.Forall_forall in Hlo. apply Hlo, in_map_iff. by exists r. }
  rewrite (frame_since _ _ _ Hf). by split_and!.
Qed.

Lemma task2_event_by_event_witness :
  caller_known (boot quiet_env)
  /\ exists runs recs w',
    run (task2_exec_children 2 "ls -l" true) (boot quiet_env) = Done tt w'
    /\ (forall r, In r runs ->
          exists t, task2_run 100 "ls -l"
                      (task2_way_at quiet_env "ls -l" true t) r)
    /\ length runs = 2%nat
    /\ events_of 100 (since (boot quiet_env) w')
       = [EvPrint 100 Stdout (creating_line 100 2 "ls -l" true)]
         ++ map (fun r => EvFork 100 (cr_pid r)) runs
         ++ concat (map (reap_events 100 reaped_line) recs)
         ++ [EvPrint 100 Stdout complete_line]
    /\ (forall r, In r runs ->
          events_of (cr_pid r) (since (boot quiet_env) w')
          = cr_events r ++ [EvEnd (cr_pid r) (cr_halt r)]).
Proof.
  assert (Hc : caller_known (boot quiet_env))
    by (unfold caller_known, me; simpl; lia).
  split; [exact Hc|].
  destruct (task2_event_by_event 2 "ls -l" true (boot quiet_env) Hc)
    as (runs & recs & w' & Hrun & Hways & Hn & Hp & Hch & _).
  exists runs, recs, w'.
  exact (conj Hrun (conj Hways (conj Hn (conj Hp Hch)))).
Defined.

(** With [use_exec] set and a program that is found, every child is
    replaced by it with the arguments [cmd.split()]; nothing is printed
    on the standard error, and the status that the caller reaps is the
    status of the program. *)
Theorem task2_exec_replaces (n : Z) (cmd arg0 : string)
    (rest : list string) (status : Z) (w : World) :
  py_split cmd = arg0 :: rest ->
  (forall t, exec_result (env w) t arg0 (arg0 :: rest) = ExecRuns status) ->
  exists w',
    run (task2_exec_children n cmd true) w = Done tt w'
    /\ length (forked_by (me w) (since w w')) = Z.to_nat n
    /\ execs (since w w')
       = map (fun c => (c, arg0, arg0 :: rest)) (forked_by (me w) (since w w'))
    /\ ends (since w w')
       = map (fun c => (c, HExec status)) (forked_by (me w) (since w w'))
    /\ stderr_lines (since w w') = []
    /\ (kids (proc w) = [] ->
        Permutation (reaped_by (me w) (since w w'))
          (map (fun c => (c, status)) (forked_by (me w) (since w w')))).
Proof.
  intros Hsplit Hexec.
  destruct (task2_frame_ways n cmd true w)
    as (runs & recs & w' & Hrun & Hways & Hn & Hf & Hl & Hnd & Hk).
  exists w'. split; [exact Hrun|].
  assert (Hway : forall r, In r runs ->
            task2_run (me w) cmd (Replaced status) r).
  { intros r Hr. destruct (Hways r Hr) as (t & Ht).
    unfold task2_way_at in Ht. by rewrite Hsplit, Hexec in Ht. }
  destruct (task2_readings (me w) cmd (creating_line (me w) n cmd true)
              complete_line runs recs)
    as (Hfk & _ & Hends & Hrp & Herr & Hex & _).
  { intros r Hr. eexists. by apply Hway. }
  rewrite (frame_since _ _ _ Hf), Hfk, Hends, Hrp, Herr, Hex.
  rewrite !map_map, length_map.
  split; [exact Hn|]. split_and!.
  - rewrite <- (concat_singletons
                  (fun r => (cr_pid r, arg0, arg0 :: rest)) runs).
    apply concat_map_ext. intros r Hr. destruct (Hway r Hr) as (_ & ->).
    unfold way_events. by rewrite Hsplit.
  - apply map_ext_in. intros r Hr. by destruct (Hway r Hr) as (-> & _).
  - rewrite (concat_map_ext _ (fun _ => []) runs);
      [apply concat_nils|].
    intros r Hr. destruct (Hway r Hr) as (_ & ->).
    unfold way_events. by rewrite Hsplit.
  - intros Hk0. rewrite (reaped_are_spawned _ _ _ _ Hk0 Hl Hk).
    apply Permutation_refl'. apply map_ext_in. intros r Hr.
    destruct (Hway r Hr) as (Hh & _). unfold exit_record. by rewrite Hh.
Qed.

Lemma task2_exec_replaces_witness :
  py_split "ls -l" = ["ls"; "-l"]
  /\ (forall t, exec_result found_env t "ls" ["ls"; "-l"] = ExecRuns 0)
  /\ exists w',
    run (task2_exec_children 2 "ls -l" true) (boot found_env) = Done tt w'
    /\ length (forked_by 100 (since (boot found_env) w')) = 2%nat
    /\ execs (since (boot found_env) w')
       = map (fun c => (c, "ls", ["ls"; "-l"]))
           (forked_by 100 (since (boot found_env) w'))
    /\ stderr_lines (since (boot found_env) w') = [].
Proof.
  split; [reflexivity|]. split; [reflexivity|].
  destruct (task2_exec_replaces 2 "ls -l" "ls" ["-l"] 0 (boot found_env)
              eq_refl (fun _ => eq_refl))
    as (w' & Hrun & Hn & Hex & _ & Herr & _).
  exists w'. exact (conj Hrun (conj Hn (conj Hex Herr))).
Defined.

(** The handler of line 61 is for [FileNotFoundError] alone: when the
    replacement fails with another exception (the file is there but may
    not be executed, say), the child dies of it, uncaught, with wait
    status 256 and without the line of line 62. *)
Theorem task2_exec_error_uncaught (n : Z) (cmd arg0 : string)
    (rest : list string) (e : exn) (w : World) :
  py_split cmd = arg0 :: rest ->
  e <> FileNotFoundError ->
  (forall t, exec_result (env w) t arg0 (arg0 :: rest) = ExecFails e) ->
  exists w',
    run (task2_exec_children n cmd true) w = Done tt w'
    /\ length (forked_by (me w) (since w w')) = Z.to_nat n
    /\ ends (since w w')
       = map (fun c => (c, HRaise e)) (forked_by (me w) (since w w'))
    /\ stderr_lines (since w w') = []
    /\ execs (since w w') = []
    /\ (kids (proc w) = [] ->
        Permutation (reaped_by (me w) (since w w'))
          (map (fun c => (c, 256)) (forked_by (me w) (since w w')))).
Proof.
  intros Hsplit Hne Hexec.
  destruct (task2_frame_ways n cmd true w)
    as (runs & recs & w' & Hrun & Hways & Hn & Hf & Hl & Hnd & Hk).
  exists w'. split; [exact Hrun|].
  assert (Hway : forall r, In r runs ->
            task2_run (me w) cmd (Uncaught e) r).
  { intros r Hr. destruct (Hways r Hr) as (t & Ht).
    unfold task2_way_at in Ht. rewrite Hsplit, Hexec in Ht.
    by destruct e. }
  destruct (task2_readings (me w) cmd (creating_line (me w) n cmd true)
              complete_line runs recs)
    as (Hfk & _ & Hends & Hrp & Herr & Hex & _).
  { intros r Hr. eexists. by apply Hway. }
  rewrite (frame_since _ _ _ Hf), Hfk, Hends, Hrp, Herr, Hex.
  rewrite !map_map, length_map.
  split; [exact Hn|]. split_and!.
  - apply map_ext_in. intros r Hr. by destruct (Hway r Hr) as (-> & _).
  - rewrite (concat_map_ext _ (fun _ => []) runs);
      [apply concat_nils|].
    intros r Hr. by destruct (Hway r Hr) as (_ & ->).
  - rewrite (concat_map_ext _ (fun _ => []) runs);
      [apply concat_nils|].
    intros r Hr. by destruct (Hway r Hr) as (_ & ->).
  - intros Hk0. rewrite (reaped_are_spawned _ _ _ _ Hk0 Hl Hk).
    apply Permutation_refl'. apply map_ext_in. intros r Hr.
    destruct (Hway r Hr) as (Hh & _). unfold exit_record. by rewrite Hh.
Qed.

Lemma task2_exec_error_uncaught_witness :
  py_split "./notes.txt" = ["./notes.txt"]
  /\ PermissionError <> FileNotFoundError
  /\ (forall t, exec_result noexec_env t "./notes.txt" ["./notes.txt"]
                = ExecFails PermissionError)
  /\ exists w',
    run (task2_exec_children 2 "./notes.txt" true) (boot noexec_env)
    = Done tt w'
    /\ ends (since (boot noexec_env) w')
       = map (fun c => (c, HRaise PermissionError))
           (forked_by 100 (since (boot noexec_env) w'))
    /\ stderr_lines (since (boot noexec_env) w') = [].
Proof.
  split; [reflexivity|]. split; [discriminate|]. split; [reflexivity|].
  destruct (task2_exec_error_uncaught 2 "./notes.txt" "./notes.txt" []
              PermissionError (boot noexec_env) eq_refl
              ltac:(discriminate) (fun _ => eq_refl))
    as (w' & Hrun & _ & Hends & Herr & _).
  exists w'. exact (conj Hrun (conj Hends Herr)).
Defined.

(** Without [use_exec] the command goes to the shell whole, a blank one
    included, and every child leaves with [os._exit(0)] whatever the
    command did: the caller reaps status 0 even when [subprocess.run]
    raised, which only shows as a line on the standard error of that
    child. *)
Theorem task2_shell_always_zero (n : Z) (cmd : string) (w : World) :
  exists w',
    run (task2_exec_children n cmd false) w = Done tt w'
    /\ length (forked_by (me w) (since w w')) = Z.to_nat n
    /\ shell_runs (since w w')
       = map (fun c => (c, cmd)) (forked_by (me w) (since w w'))
    /\ ends (since w w')
       = map (fun c => (c, HExit 0)) (forked_by (me w) (since w w'))
    /\ execs (since w w') = []
    /\ (forall c m, In (c, m) (stderr_lines (since w w')) ->
          In c (forked_by (me w) (since w w'))
          /\ exists e, m = subprocess_error c e)
    /\ ((forall t, subprocess_raises (env w) t = None) ->
        stderr_lines (since w w') = [])
    /\ (kids (proc w) = [] ->
        Permutation (reaped_by (me w) (since w w'))
          (map (fun c => (c, 0)) (forked_by (me w) (since w w')))).
Proof.
  destruct (task2_frame_ways n cmd false w)
    as (runs & recs & w' & Hrun & Hways & Hn & Hf & Hl & Hnd & Hk).
  exists w'. split; [exact Hrun|].
  assert (Hway : forall r, In r runs ->
            exists t, task2_run (me w) cmd
                        (ShellDone (subprocess_raises (env w) t)) r).
  { intros r Hr. destruct (Hways r Hr) as (t & Ht). by exists t. }
  destruct (task2_readings (me w) cmd (creating_line (me w) n cmd false)
              complete_line runs recs)
    as (Hfk & _ & Hends & Hrp & Herr & Hex & Hsh).
  { intros r Hr. destruct (Hway r Hr) as (t & Ht). by eexists. }
  rewrite (frame_since _ _ _ Hf), Hfk, Hends, Hrp, Herr, Hex, Hsh.
  rewrite !map_map, length_map.
  split; [exact Hn|]. split_and!.
  - rewrite <- (concat_singletons (fun r => (cr_pid r, cmd)) runs).
    apply concat_map_ext. intros r Hr. destruct (Hway r Hr) as (t & _ & ->).
    simpl. by destruct (subprocess_raises (env w) t).
  - apply map_ext_in. intros r Hr. by destruct (Hway r Hr) as (t & -> & _).
  - rewrite (concat_map_ext _ (fun _ => []) runs);
      [apply concat_nils|].
    intros r Hr. destruct (Hway r Hr) as (t & _ & ->).
    simpl. by destruct (subprocess_raises (env w) t).
  - intros c m (l & Hl' & Hin)%in_concat.
    apply in_map_iff in Hl' as (r & <- & Hr).
    destruct (Hway r Hr) as (t & _ & Hev). rewrite Hev in Hin.
    simpl in Hin. destruct (subprocess_raises (env w) t) as [e|];
      simpl in Hin; [|done].
    destruct Hin as [[= <- <-]|[]]. split; [|by exists e].
    apply in_map_iff. by exists r.
  - intros Hquiet.
    rewrite (concat_map_ext _ (fun _ => []) runs);
      [apply concat_nils|].
    intros r Hr. destruct (Hway r Hr) as (t & _ & ->).
    simpl. by rewrite Hquiet.
  - intros Hk0. rewrite (reaped_are_spawned _ _ _ _ Hk0 Hl Hk).
    apply Permutation_refl'. apply map_ext_in. intros r Hr.
    destruct (Hway r Hr) as (t & Hh & _). unfold exit_record. by rewrite Hh.
Qed.

End Task2Ways.

(** ** Task 3: the two demonstrations *)

Section Task3Modes.

Lemma find_kid_fresh (c s : Z) (ks : list (Z * Z)) :
  Forall (fun k => k.1 <> c) ks ->
  find_kid c (ks ++ [(c, s)]) = Some (length ks).
Proof.
  induction 1 as [|[p st] ks Hp _ IH]; simpl.
  - by rewrite Z.eqb_refl.
  - simpl in Hp. apply Z.eqb_neq in Hp. by rewrite Hp, IH.
Qed.

Lemma nth_error_last {T : Type} (l : list T) (x : T) :
  nth_error (l ++ [x]) (length l) = Some x.
Proof. induction l as [|y l IH]; simpl; done. Qed.

Lemma remove_nth_last {T : Type} (l : list T) (x : T) :
  remove_nth (length l) (l ++ [x]) = l.
Proof.
  unfold remove_nth. induction l as [|y l IH]; simpl; [done|].
  by rewrite IH.
Qed.

(** The trace of mode ["zombie"], the child being run where it is
    forked. *)
Lemma task3_zombie_trace (w : World) :
  kids_known w ->
  exists c w' m0 mc m1 m2,
    run (task3_zombie_or_orphan "zombie") w = Done tt w'
    /\ since w w'
       = [EvPrint (me w) Stdout m0;
          EvFork (me w) c; EvPrint c Stdout mc; EvEnd c (HExit 0);
          EvPrint (me w) Stdout m1; EvSleep (me w) 15;
          EvPrint (me w) Stdout m2; EvReap (me w) c 0;
          EvPrint (me w) Stdout (reaped_line3 (me w) (c, 0))]
    /\ kids (proc w') = kids (proc w)
    /\ now (mach w') = now (mach w) + 15 * 1000000
    /\ Z.pos (last_pid (mach w)) < c.
Proof.
  intros Hknown.
  set (c := Z.pos (last_pid (mach w) + pid_gap (env w) (tick (mach w)))).
  assert (Hfresh : Forall (fun k => k.1 <> c) (kids (proc w))).
  { eapply List.Forall_impl; [|exact Hknown]. simpl. subst c. lia. }
  exists c.
  unfold task3_zombie_or_orphan, task3_child, task3_parent.
  rewrite run_getpid, run_print, run_fork.
  unfold spawn, me. simpl. fold c.
  change (0 mod 256 * 256) with 0.
  rewrite (find_kid_fresh c 0 _ Hfresh).
  unfold reap, me. simpl. rewrite nth_error_last, remove_nth_last. simpl.
  do 5 eexists. split; [reflexivity|]. split_and!.
  - apply since_intro. simpl. rewrite <- !app_assoc. reflexivity.
  - done.
  - simpl. lia.
  - subst c. lia.
Qed.

Lemma zombie_processes (p c : Z) (m0 mc m1 m2 m3 : message) :
  c <> p ->
  let tr := [EvPrint p Stdout m0;
             EvFork p c; EvPrint c Stdout mc; EvEnd c (HExit 0);
             EvPrint p Stdout m1; EvSleep p 15;
             EvPrint p Stdout m2; EvReap p c 0; EvPrint p Stdout m3] in
  events_of p tr
  = [EvPrint p Stdout m0; EvFork p c; EvPrint p Stdout m1; EvSleep p 15;
     EvPrint p Stdout m2; EvReap p c 0; EvPrint p Stdout m3]
  /\ events_of c tr = [EvPrint c Stdout mc; EvEnd c (HExit 0)]
  /\ (forall ev, In ev tr -> pid_of ev = p \/ pid_of ev = c).
Proof.
  intros Hne tr.
  assert (Hcp : (c =? p) = false) by (by apply Z.eqb_neq).
  assert (Hpc : (p =? c) = false) by (apply Z.eqb_neq; congruence).
  subst tr. split_and!.
  - unfold events_of. simpl. by rewrite !Z.eqb_refl, !Hcp.
  - unfold events_of. simpl. by rewrite !Z.eqb_refl, !Hpc.
  - intros ev Hin. simpl in Hin.
    repeat (destruct Hin as [<-|Hin]; [simpl; auto|]). done.
Qed.

(** In mode ["zombie"] the child prints one line and leaves at
    once with code 0.  The caller prints, forks, prints, sleeps 15
    seconds, prints, then reaps that very child with [os.waitpid],
    gets status 0, prints it and returns normally: the handler for
    [ChildProcessError] is not taken, and no zombie is left. *)
Theorem task3_zombie_reaped (w : World) :
  kids_known w ->
  caller_known w ->
  exists c w' m0 mc m1 m2,
    run (task3_zombie_or_orphan "zombie") w = Done tt w'
    /\ c <> me w
    /\ events_of (me w) (since w w')
       = [EvPrint (me w) Stdout m0; EvFork (me w) c;
          EvPrint (me w) Stdout m1; EvSleep (me w) 15;
          EvPrint (me w) Stdout m2; EvReap (me w) c 0;
          EvPrint (me w) Stdout (reaped_line3 (me w) (c, 0))]
    /\ events_of c (since w w') = [EvPrint c Stdout mc; EvEnd c (HExit 0)]
    /\ (forall ev, In ev (since w w') -> pid_of ev = me w \/ pid_of ev = c)
    /\ kids (proc w') = kids (proc w)
    /\ now (mach w') = now (mach w) + 15 * 1000000.
Proof.
  intros Hknown Hcaller.
  destruct (task3_zombie_trace w Hknown)
    as (c & w' & m0 & mc & m1 & m2 & Hrun & Htr & Hk & Hnow & Hlo).
  exists c, w', m0, mc, m1, m2.
  assert (Hne : c <> me w) by (by apply fresh_not_caller).
  destruct (zombie_processes (me w) c m0 mc m1 m2
              (reaped_line3 (me w) (c, 0)) Hne) as (Hp & Hc & Hall).
  rewrite Htr. by split_and!.
Qed.

Lemma task3_zombie_reaped_witness :
  (kids_known (boot quiet_env) /\ caller_known (boot quiet_env))
  /\ exists c w' m0 mc m1 m2,
    run (task3_zombie_or_orphan "zombie") (boot quiet_env) = Done tt w'
    /\ c <> 100
    /\ events_of 100 (since (boot quiet_env) w')
       = [EvPrint 100 Stdout m0; EvFork 100 c;
          EvPrint 100 Stdout m1; EvSleep 100 15;
          EvPrint 100 Stdout m2; EvReap 100 c 0;
          EvPrint 100 Stdout (reaped_line3 100 (c, 0))]
    /\ events_of c (since (boot quiet_env) w')
       = [EvPrint c Stdout mc; EvEnd c (HExit 0)]
    /\ (forall ev, In ev (since (boot quiet_env) w') ->
          pid_of ev = 100 \/ pid_of ev = c)
    /\ kids (proc w') = []
    /\ now (mach w') = 0 + 15 * 1000000.
Proof.
  assert (Hc : caller_known (boot quiet_env))
    by (unfold caller_known, me; simpl; lia).
  split; [split; [constructor|exact Hc]|].
  apply (task3_zombie_reaped (boot quiet_env)); [constructor|exact Hc].
Defined.

Lemma reaped_by_spawn_events (p : Z) (r : child_run) :
  reaped_by p (spawn_events p r) = reaped_by p (cr_events r).
Proof.
  unfold spawn_events.
  change (EvFork p (cr_pid r) :: cr_events r ++ [EvEnd (cr_pid r) (cr_halt r)])
    with ([EvFork p (cr_pid r)] ++ cr_events r
          ++ [EvEnd (cr_pid r) (cr_halt r)]).
  rewrite !reaped_by_app. simpl. by rewrite app_nil_r.
Qed.

(** The loop of the child in mode ["orphan"] (lines 101-103). *)
Lemma task3_orphan_loop (ixs : list Z) :
  forall wc, exists wc',
    run (for_each ixs (fun i (_ : unit) =>
           let* pid := os_getpid in
           let* ppid := os_getppid in
           print [Lit "[CHILD "; Int pid; Lit "] working... "; Int (i + 1);
                  Lit "/10 parent now: "; Int ppid] >>
           time_sleep 1) tt) wc
    = Done tt wc'
    /\ frame wc wc'
         (concat (map (fun i =>
                    [EvPrint (me wc) Stdout
                       [Lit "[CHILD "; Int (me wc); Lit "] working... ";
                        Int (i + 1); Lit "/10 parent now: ";
                        Int (parent (proc wc))];
                     EvSleep (me wc) 1]) ixs))
    /\ same_process wc wc'.
Proof.
  induction ixs as [|i ixs IH]; intros wc.
  - exists wc. split; [done|]. split; [apply frame_refl|done].
  - cbn [for_each]. simpl bind at 1. cbn [run do_call].
    set (w2 := log (EvSleep _ 1) _).
    destruct (IH w2) as (wc' & Hrun & Hf & Hs).
    exists wc'. split; [exact Hrun|]. split.
    + cbn [map concat].
      eapply (frame_trans wc w2); [|exact Hf].
      unfold frame. subst w2. simpl. rewrite <- app_assoc. by split_and!.
    + eapply same_process_trans; [|exact Hs]. done.
Qed.

Lemma task3_orphan_child (wc : World) :
  exists wc',
    run (@task3_child unit "orphan") wc = Halted (HExit 0) wc'
    /\ frame wc wc'
         ([EvPrint (me wc) Stdout (orphan_opening (me wc))]
          ++ concat (map (fun i =>
                       [EvPrint (me wc) Stdout
                          (orphan_working (me wc) i (parent (proc wc)));
                        EvSleep (me wc) 1]) (range 0 10))
          ++ [EvPrint (me wc) Stdout
                (orphan_done (me wc) (parent (proc wc)))]).
Proof.
  unfold task3_child.
  change (String.eqb "orphan" "zombie") with false.
  change (String.eqb "orphan" "orphan") with true. cbv iota.
  rewrite run_getpid, run_print. set (w1 := log _ wc).
  rewrite run_bind by (apply fork_free_for_each; intros; prove_fork_free).
  destruct (task3_orphan_loop (range 0 10) w1) as (w2 & -> & Hf & Hs).
  rewrite run_getpid, run_getppid, run_print. cbn [run os__exit].
  eexists. split; [reflexivity|].
  eapply (frame_trans wc w1 _ [_]); [subst w1; by apply frame_log|].
  eapply (frame_trans w1 w2); [exact Hf|].
  destruct Hs as [Hself Hpar]. unfold orphan_done, me.
  change (self (proc w1)) with (self (proc wc)) in Hself.
  change (parent (proc w1)) with (parent (proc wc)) in Hpar.
  rewrite <- Hself, <- Hpar. by apply frame_log.
Qed.

(** The trace of mode ["orphan"], the child being run where it is
    forked. *)
Lemma task3_orphan_trace (w : World) :
  exists r w',
    run (task3_zombie_or_orphan "orphan") w = Halted (HExit 0) w'
    /\ since w w'
       = [EvPrint (me w) Stdout (task3_banner (me w) "orphan")]
         ++ concat (map (spawn_events (me w)) [r])
         ++ [EvPrint (me w) Stdout (orphan_notice (me w) (cr_pid r))]
    /\ own_events r
    /\ reaped_by (me w) (cr_events r) = []
    /\ Z.pos (last_pid (mach w)) < cr_pid r.
Proof.
  unfold task3_zombie_or_orphan.
  rewrite run_getpid, run_print. set (w0 := log _ w).
  rewrite run_fork.
  destruct (spawn_frame
              (fun wc => outcome (run (if 0 =? 0 then task3_child "orphan"
                                       else task3_parent "orphan" 0) wc)) w0)
    as (r & Hpid & Hf & Hs & Hk & _ & Hlo & _ & wc & Hme & _ & _ & Hout & Hfc).
  { intros wc. apply outcome_frame. }
  destruct (spawn _ w0) as [c w1]. simpl in Hpid, Hf, Hs, Hk. subst c.
  assert (Hc : (cr_pid r =? 0) = false) by (apply Z.eqb_neq; lia).
  rewrite Hc.
  change (0 =? 0) with true in Hout, Hfc. cbv iota in Hout, Hfc.
  destruct (task3_orphan_child wc) as (wc' & Hrun & Hfr).
  rewrite Hrun in Hout, Hfc. simpl in Hout, Hfc.
  pose proof (frame_unique _ _ _ _ Hfc Hfr) as Hev. rewrite Hme in Hev.
  unfold task3_parent.
  change (String.eqb "orphan" "zombie") with false.
  change (String.eqb "orphan" "orphan") with true. cbv iota.
  rewrite run_getpid, run_print. cbn [run os__exit].
  pose proof (same_process_me _ _ Hs) as Hme1.
  change (me w0) with (me w) in Hme1.
  assert (Hframe : frame w
            (log (EvPrint (me w1) Stdout
                    [Lit "[PARENT "; Int (me w1);
                     Lit "] Exiting immediately; child "; Int (cr_pid r);
                     Lit " runs on."]) w1)
            ([EvPrint (me w) Stdout (task3_banner (me w) "orphan")]
             ++ spawn_events (me w) r
             ++ [EvPrint (me w) Stdout (orphan_notice (me w) (cr_pid r))])).
  { eapply (frame_trans w w0); [subst w0; by apply frame_log|].
    eapply (frame_trans w0 w1); [exact Hf|].
    unfold orphan_notice. rewrite <- Hme1. by apply frame_log. }
  exists r. eexists. split; [reflexivity|].
  rewrite (frame_since _ _ _ Hframe). split_and!.
  - cbn [map concat]. by rewrite app_nil_r.
  - unfold own_events. rewrite Hev.
    apply own_app; [by repeat constructor|].
    apply own_app; [|by repeat constructor].
    apply own_concat. intros. by repeat constructor.
  - rewrite Hev, !reaped_by_app.
    rewrite (obs_concat (reaped_by (me w)) _ (fun _ => []));
      [by rewrite concat_nils|done|apply reaped_by_app|done].
  - exact Hlo.
Qed.

(** In mode ["orphan"] the caller never waits: it prints the banner,
    forks, prints its notice and leaves with [os._exit(0)], so that
    [task3_zombie_or_orphan] does not return and nobody reaps the
    child.  The child, run on its own, prints its opening line, then
    ten times a line followed by a sleep of one second, then its
    closing line, and leaves with code 0; its lines carry whatever
    [os.getppid()] answers when they are printed. *)
Theorem task3_orphan_not_reaped (w : World) :
  caller_known w ->
  (exists c w',
     run (task3_zombie_or_orphan "orphan") w = Halted (HExit 0) w'
     /\ c <> me w
     /\ events_of (me w) (since w w')
        = [EvPrint (me w) Stdout (task3_banner (me w) "orphan");
           EvFork (me w) c;
           EvPrint (me w) Stdout (orphan_notice (me w) c)]
     /\ reaped_by (me w) (since w w') = [])
  /\ (forall wc, exists wc' (pp : Z -> Z),
        run (@task3_child unit "orphan") wc = Halted (HExit 0) wc'
        /\ since wc wc'
           = [EvPrint (me wc) Stdout (orphan_opening (me wc))]
             ++ concat (map (fun i =>
                          [EvPrint (me wc) Stdout
                             (orphan_working (me wc) i (pp i));
                           EvSleep (me wc) 1]) (range 0 10))
             ++ [EvPrint (me wc) Stdout (orphan_done (me wc) (pp 10))]).
Proof.
  intros Hcaller. split.
  - destruct (task3_orphan_trace w)
      as (r & w' & Hrun & Htr & Hown & Hrp & Hlo).
    exists (cr_pid r), w'.
    assert (Hne : cr_pid r <> me w) by (by apply fresh_not_caller).
    split; [exact Hrun|]. split; [exact Hne|].
    destruct (around_children (me w)
                [EvPrint (me w) Stdout (task3_banner (me w) "orphan")]
                [EvPrint (me w) Stdout (orphan_notice (me w) (cr_pid r))]
                [r]) as (Hp & _).
    { by repeat constructor. }
    { by repeat constructor. }
    { repeat constructor. by intros ?%elem_of_nil. }
    { intros r' [<-|[]]. by split. }
    rewrite Htr. split; [exact Hp|].
    cbn [map concat]. rewrite app_nil_r.
    by rewrite !reaped_by_app, reaped_by_spawn_events, Hrp.
  - intros wc. destruct (task3_orphan_child wc) as (wc' & Hrun & Hf).
    exists wc', (fun _ => parent (proc wc)).
    split; [exact Hrun|]. exact (frame_since _ _ _ Hf).
Qed.

Lemma task3_orphan_not_reaped_witness :
  caller_known (boot quiet_env)
  /\ exists c w',
    run (task3_zombie_or_orphan "orphan") (boot quiet_env)
    = Halted (HExit 0) w'
    /\ c <> 100
    /\ events_of 100 (since (boot quiet_env) w')
       = [EvPrint 100 Stdout (task3_banner 100 "orphan");
          EvFork 100 c;
          EvPrint 100 Stdout (orphan_notice 100 c)]
    /\ reaped_by 100 (since (boot quiet_env) w') = [].
Proof.
  assert (Hc : caller_known (boot quiet_env))
    by (unfold caller_known, me; simpl; lia).
  split; [exact Hc|].
  exact (proj1 (task3_orphan_not_reaped (boot quiet_env) Hc)).
Defined.

End Task3Modes.

(** ** Task 4 *)

Section Task4.

Lemma omap_cons {T U : Type} (f : T -> option U) (x : T) (l : list T) :
  omap f (x :: l)
  = match f x with
    | Some y => y :: omap f l
    | None => omap f l
    end.
Proof. reflexivity. Qed.

(** A loop whose body prints at most one line per turn. *)
Lemma run_print_each {X : Type} (body : X -> unit -> prog unit)
    (line : X -> option message) (xs : list X) :
  (forall x, body x tt = match line x with
                         | Some m => print m
                         | None => Ret tt
                         end) ->
  forall w, exists w',
    run (for_each xs body tt) w = Done tt w'
    /\ frame w w' (map (EvPrint (me w) Stdout) (omap line xs))
    /\ same_process w w'.
Proof.
  intros Hbody. induction xs as [|x xs IH]; intros w.
  - exists w. split; [done|]. split; [apply frame_refl|done].
  - cbn [for_each]. rewrite Hbody, omap_cons.
    destruct (line x) as [m|].
    + rewrite run_print.
      destruct (IH (log (EvPrint (me w) Stdout m) w)) as (w' & Hrun & Hf & Hs).
      exists w'. split; [exact Hrun|]. split.
      * cbn [map]. eapply (frame_trans _ _ _ [_]); [by apply frame_log|].
        exact Hf.
      * eapply same_process_trans; [|exact Hs]. done.
    + simpl bind. apply IH.
Qed.

Lemma fork_free_print_each {X : Type} (body : X -> unit -> prog unit)
    (line : X -> option message) (xs : list X) :
  (forall x, body x tt = match line x with
                         | Some m => print m
                         | None => Ret tt
                         end) ->
  fork_free (for_each xs body tt).
Proof.
  intros Hbody. apply fork_free_for_each. intros x [].
  rewrite Hbody. destruct (line x); prove_fork_free.
Qed.

Lemma omap_filter_map {T U : Type} (P : T -> bool) (f : T -> U) (l : list T) :
  omap (fun x => if P x then Some (f x) else None) l
  = map f (List.filter P l).
Proof.
  induction l as [|x l IH]; [done|]. rewrite omap_cons. simpl.
  destruct (P x); simpl; by rewrite IH.
Qed.

Lemma run_status_section (pfs : ProcFs) (base : string) (w : World) :
  fork_free (status_section pfs base)
  /\ exists w',
       run (status_section pfs base) w = Done tt w'
       /\ frame w w' (map (EvPrint (me w) Stdout) (status_report pfs base))
       /\ same_process w w'.
Proof.
  unfold status_section, status_report.
  destruct (read_lines pfs (base +:+ "/status")) as [lines failure].
  set (body := fun (line : string) (_ : unit) =>
                 if startswith status_fields line
                 then print [Lit (py_strip line)] else Ret tt).
  set (line := fun l : string =>
                 if startswith status_fields l
                 then Some [Lit (py_strip l)] else None).
  assert (Hbody : forall x, body x tt = match line x with
                                        | Some m => print m
                                        | None => Ret tt
                                        end).
  { intros x. subst body line. cbv beta.
    by destruct (startswith status_fields x). }
  split.
  - apply fork_free_bind; [by eapply fork_free_print_each|].
    intros _. destruct failure; prove_fork_free.
  - rewrite run_bind by (by eapply fork_free_print_each).
    destruct (run_print_each body line lines Hbody w) as (w1 & -> & Hf & Hs).
    unfold line in Hf. rewrite omap_filter_map in Hf.
    rewrite map_app. destruct failure as [e|].
    + eexists. split; [reflexivity|]. split.
      * eapply frame_trans; [exact Hf|].
        rewrite <- (same_process_me _ _ Hs). by apply frame_log.
      * eapply same_process_trans; [exact Hs|done].
    + exists w1. split; [reflexivity|]. simpl. rewrite app_nil_r.
      by split.
Qed.

(** *** The order of the descriptors *)

Lemma py_int_error (s : string) (e : exn) : py_int s = inl e -> e = ValueError.
Proof.
  unfold py_int. destruct (split_sign (py_strip s)) as [neg body].
  destruct (parse_digits body); [done|]. by intros [= <-].
Qed.

Lemma int_keys_ok (names : list string) :
  Forall is_int names ->
  int_keys names = inr (map (fun name => (fd_number name, name)) names).
Proof.
  induction 1 as [|name names [z Hz] _ IH]; [done|].
  simpl. unfold fd_number. rewrite Hz. simpl. by rewrite IH.
Qed.

Lemma int_keys_error (names : list string) :
  Exists (fun name => py_int name = inl ValueError) names ->
  int_keys names = inl ValueError.
Proof.
  induction 1 as [name names Hz|name names _ IH]; simpl.
  - by rewrite Hz.
  - destruct (py_int name) as [e|z] eqn:E; simpl.
    + by rewrite (py_int_error _ _ E).
    + by rewrite IH.
Qed.

Lemma Qeq_bool_inject (a b : Z) :
  Qeq_bool (inject_Z a) (inject_Z b) = (a =? b).
Proof. unfold Qeq_bool, inject_Z. simpl. by rewrite !Z.mul_1_r. Qed.

Lemma filter_map_snd {T U : Type} (P : U -> bool) (l : list (T * U)) :
  List.filter P (map snd l) = map snd (List.filter (fun x => P (snd x)) l).
Proof.
  induction l as [|x l IH]; [done|]. simpl.
  destruct (P (snd x)); simpl; by rewrite IH.
Qed.

Lemma sorted_map {T U : Type} (R : T -> T -> Prop) (S : U -> U -> Prop)
    (f : T -> U) (l : list T) :
  (forall a b, In a l -> In b l -> R a b -> S (f a) (f b)) ->
  StronglySorted R l -> StronglySorted S (map f l).
Proof.
  intros HRS Hs. induction Hs as [|a l _ IH Ha]; simpl; constructor.
  - apply IH. intros x y Hx Hy. apply HRS; by right.
  - rewrite List.Forall_forall in *. intros y (x & <- & Hx)%in_map_iff.
    apply HRS; [by left|by right|by apply Ha].
Qed.

(** [sorted] by the number of the descriptor: a permutation of the
    names, ascending by number (10 after 9), names of equal number
    keeping their order. *)
Lemma sorted_fds_spec (names : list string) :
  Forall is_int names ->
  exists fds,
    sorted_fds names = inr fds
    /\ Permutation fds names
    /\ StronglySorted (fun a b => fd_number a <= fd_number b) fds
    /\ forall z, List.filter (fun name => fd_number name =? z) fds
                 = List.filter (fun name => fd_number name =? z) names.
Proof.
  intros Hint. unfold sorted_fds. rewrite (int_keys_ok _ Hint). simpl.
  set (keyed := map (fun name => (fd_number name, name)) names).
  assert (Hsnd : map snd keyed = names).
  { subst keyed. rewrite map_map. simpl. apply map_id. }
  assert (Hkey : forall kn, In kn keyed -> kn.1 = fd_number kn.2).
  { intros kn (name & <- & _)%in_map_iff. done. }
  assert (Hkey' : forall kn, In kn (sort_by fd_key keyed) ->
                             kn.1 = fd_number kn.2).
  { intros kn Hin. apply Hkey.
    by apply (Permutation_in _ (sort_by_perm fd_key keyed)). }
  eexists. split; [reflexivity|]. split_and!.
  - rewrite <- Hsnd. apply Permutation_map, sort_by_perm.
  - eapply sorted_map; [|apply (sort_by_sorted fd_key)].
    intros a b Ha Hb Hab. unfold key_le, fd_key in Hab.
    rewrite <- Zle_Qle in Hab. by rewrite <- (Hkey' a Ha), <- (Hkey' b Hb).
  - intros z. rewrite <- Hsnd. rewrite !filter_map_snd. f_equal.
    pose proof (sort_by_stable fd_key (inject_Z z) keyed) as Hst.
    unfold with_key in Hst.
    rewrite (filter_ext_in _ (fun a => Qeq_bool (fd_key a) (inject_Z z))
               (sort_by fd_key keyed)).
    2:{ intros kn Hin. unfold fd_key. by rewrite Qeq_bool_inject, (Hkey' kn Hin). }
    rewrite Hst. apply filter_ext_in.
    intros kn Hin. unfold fd_key. by rewrite Qeq_bool_inject, (Hkey kn Hin).
Qed.

(** *** The three sections *)

(** What every run prints when [/proc/<pid>] exists, up to the header
    of the descriptors. *)
Lemma task4_prologue (pfs : ProcFs) (pid : Z) (w : World)
    (k : prog unit) :
  path_exists pfs (proc_dir pid) = true ->
  task4_inspect_proc pfs pid
  = (print (status_header pid) >>
     status_section pfs (proc_dir pid) >>
     print (exe_header pid) >>
     exe_section pfs (proc_dir pid) >>
     print (fd_header pid) >>
     fd_section pfs (proc_dir pid))
  /\ exists w1,
       run (print (status_header pid) >>
            status_section pfs (proc_dir pid) >>
            print (exe_header pid) >>
            exe_section pfs (proc_dir pid) >>
            print (fd_header pid) >>
            k) w
       = run k w1
       /\ frame w w1
            (map (EvPrint (me w) Stdout)
               ([status_header pid] ++ status_report pfs (proc_dir pid)
                ++ [exe_header pid; exe_line pfs (proc_dir pid);
                    fd_header pid]))
       /\ same_process w w1.
Proof.
  intros Hex. split.
  { unfold task4_inspect_proc. by rewrite Hex. }
  rewrite run_print. set (w0 := log _ w).
  destruct (run_status_section pfs (proc_dir pid) w0)
    as (Hff & w1 & Hrun & Hf & Hs).
  rewrite run_bind by exact Hff. rewrite Hrun.
  rewrite run_print. unfold exe_section. rewrite run_print, run_print.
  eexists. split; [reflexivity|].
  assert (Hme : me w1 = me w) by (by rewrite (same_process_me _ _ Hs)).
  split.
  - rewrite !map_app.
    eapply (frame_trans w w0); [subst w0; by apply frame_log|].
    eapply (frame_trans w0 w1); [exact Hf|].
    unfold frame, me in *. simpl. rewrite Hme, <- !app_assoc.
    by split_and!.
  - eapply (same_process_trans _ w1); [|done].
    eapply (same_process_trans _ w0); [done|exact Hs].
Qed.

(** When [/proc/<pid>] and its [fd] directory exist and every entry of
    the directory has an integer for a name, the run returns normally.
    It prints the status header, the status lines (the lines read that
    start with one of the seven fields, stripped, in file order, then
    the report of the exception if the reading broke off), the exe
    header and one line for the link, the fd header, and one line per
    descriptor, in ascending order of the number (10 after 9), names of
    equal number keeping the order of the directory.  An exception in
    the reading of the status, of the exe link or of the link of a
    descriptor ends up in the text of a line and stops nothing. *)
Theorem task4_report (pfs : ProcFs) (pid : Z) (names : list string)
    (w : World) :
  path_exists pfs (proc_dir pid) = true ->
  path_exists pfs (proc_dir pid +:+ "/fd") = true ->
  iterdir pfs (proc_dir pid +:+ "/fd") = inr names ->
  Forall is_int names ->
  exists fds w',
    run (task4_inspect_proc pfs pid) w = Done tt w'
    /\ since w w'
       = map (EvPrint (me w) Stdout)
           ([status_header pid] ++ status_report pfs (proc_dir pid)
            ++ [exe_header pid; exe_line pfs (proc_dir pid); fd_header pid]
            ++ map (fd_line pfs (proc_dir pid +:+ "/fd")) fds)
    /\ Permutation fds names
    /\ StronglySorted (fun a b => fd_number a <= fd_number b) fds
    /\ forall z, List.filter (fun name => fd_number name =? z) fds
                 = List.filter (fun name => fd_number name =? z) names.
Proof.
  intros Hex Hfd Hiter Hint.
  destruct (sorted_fds_spec names Hint) as (fds & Hsorted & Hperm & Hord & Hst).
  destruct (task4_prologue pfs pid w (fd_section pfs (proc_dir pid)) Hex)
    as (-> & w1 & -> & Hf & Hs).
  unfold fd_section. rewrite Hfd, Hiter. cbn [lift bind].
  rewrite Hsorted. cbn [lift bind].
  destruct (run_print_each
              (fun name (_ : unit) =>
                 print (fd_line pfs (proc_dir pid +:+ "/fd") name))
              (fun name => Some (fd_line pfs (proc_dir pid +:+ "/fd") name))
              fds ltac:(done) w1) as (w2 & Hrun & Hf2 & _).
  exists fds, w2. split; [exact Hrun|]. split; [|by split_and!].
  apply frame_since.
  replace (omap (fun name => Some (fd_line pfs (proc_dir pid +:+ "/fd") name)) fds)
    with (map (fd_line pfs (proc_dir pid +:+ "/fd")) fds) in Hf2.
  2:{ clear. induction fds as [|x l IH]; [done|].
      rewrite omap_cons. cbn [map]. by rewrite IH. }
  rewrite (same_process_me _ _ Hs) in Hf2.
  rewrite !app_assoc, map_app, <- !app_assoc.
  eapply frame_trans; [exact Hf|exact Hf2].
Qed.

Lemma task4_report_witness :
  path_exists locked_proc (proc_dir 1) = true
  /\ path_exists locked_proc (proc_dir 1 +:+ "/fd") = true
  /\ iterdir locked_proc (proc_dir 1 +:+ "/fd") = inr ["10"; "9"; "0"]
  /\ Forall is_int ["10"; "9"; "0"]
  /\ exists fds w',
    run (task4_inspect_proc locked_proc 1) (boot quiet_env) = Done tt w'
    /\ Permutation fds ["10"; "9"; "0"]
    /\ StronglySorted (fun a b => fd_number a <= fd_number b) fds.
Proof.
  assert (Hint : Forall is_int ["10"; "9"; "0"]).
  { repeat constructor; eexists; reflexivity. }
  split; [reflexivity|]. split; [reflexivity|]. split; [reflexivity|].
  split; [exact Hint|].
  destruct (task4_report locked_proc 1 ["10"; "9"; "0"] (boot quiet_env)
              eq_refl eq_refl eq_refl Hint)
    as (fds & w' & Hrun & _ & Hperm & Hord & _).
  exists fds, w'. exact (conj Hrun (conj Hperm Hord)).
Defined.

(** The listing of the descriptors is outside every [try]: when the
    [fd] directory exists and cannot be listed, or holds an entry whose
    name is not an integer, the run ends with that exception
    ([ValueError] for a name), after the status and exe sections and
    the fd header, and without a single descriptor line: the keys of
    [sorted] are computed before anything is printed. *)
Theorem task4_listing_aborts (pfs : ProcFs) (pid : Z) (e : exn)
    (w : World) :
  path_exists pfs (proc_dir pid) = true ->
  path_exists pfs (proc_dir pid +:+ "/fd") = true ->
  (iterdir pfs (proc_dir pid +:+ "/fd") = inl e
   \/ exists names,
        iterdir pfs (proc_dir pid +:+ "/fd") = inr names
        /\ Exists (fun name => py_int name = inl ValueError) names
        /\ e = ValueError) ->
  exists w',
    run (task4_inspect_proc pfs pid) w = Halted (HRaise e) w'
    /\ since w w'
       = map (EvPrint (me w) Stdout)
           ([status_header pid] ++ status_report pfs (proc_dir pid)
            ++ [exe_header pid; exe_line pfs (proc_dir pid); fd_header pid]).
Proof.
  intros Hex Hfd Hbad.
  destruct (task4_prologue pfs pid w (fd_section pfs (proc_dir pid)) Hex)
    as (-> & w1 & -> & Hf & Hs).
  unfold fd_section. rewrite Hfd.
  exists w1. split; [|by apply frame_since].
  destruct Hbad as [->|(names & -> & Hbad & ->)]; [done|].
  cbn [lift bind]. unfold sorted_fds. by rewrite (int_keys_error _ Hbad).
Qed.

Lemma task4_listing_aborts_witness :
  path_exists stray_proc (proc_dir 1) = true
  /\ path_exists stray_proc (proc_dir 1 +:+ "/fd") = true
  /\ (exists names,
        iterdir stray_proc (proc_dir 1 +:+ "/fd") = inr names
        /\ Exists (fun name => py_int name = inl ValueError) names)
  /\ exists w',
    run (task4_inspect_proc stray_proc 1) (boot quiet_env)
    = Halted (HRaise ValueError) w'.
Proof.
  assert (Hbad : Exists (fun name => py_int name = inl ValueError)
                   ["10"; "x"; "0"]).
  { apply Exists_cons_tl, Exists_cons_hd. reflexivity. }
  split; [reflexivity|]. split; [reflexivity|].
  split; [by exists ["10"; "x"; "0"]|].
  destruct (task4_listing_aborts stray_proc 1 ValueError (boot quiet_env)
              eq_refl eq_refl
              (or_intror (ex_intro _ ["10"; "x"; "0"]
                            (conj eq_refl (conj Hbad eq_refl)))))
    as (w' & Hrun & _).
  exists w'. exact Hrun.
Defined.

(** When [/proc/<pid>] exists without an [fd] directory, the run
    returns normally after the status section, the exe line and the
    line that tells so, whatever the reading of the status and of the
    exe link gave. *)
Theorem task4_without_fd (pfs : ProcFs) (pid : Z) (w : World) :
  path_exists pfs (proc_dir pid) = true ->
  path_exists pfs (proc_dir pid +:+ "/fd") = false ->
  exists w',
    run (task4_inspect_proc pfs pid) w = Done tt w'
    /\ since w w'
       = map (EvPrint (me w) Stdout)
           ([status_header pid] ++ status_report pfs (proc_dir pid)
            ++ [exe_header pid; exe_line pfs (proc_dir pid); fd_header pid;
                no_fd_line]).
Proof.
  intros Hex Hfd.
  destruct (task4_prologue pfs pid w (fd_section pfs (proc_dir pid)) Hex)
    as (-> & w1 & -> & Hf & Hs).
  unfold fd_section. rewrite Hfd.
  eexists. split; [reflexivity|]. apply frame_since.
  replace ([status_header pid] ++ status_report pfs (proc_dir pid)
           ++ [exe_header pid; exe_line pfs (proc_dir pid); fd_header pid;
               no_fd_line])
    with (([status_header pid] ++ status_report pfs (proc_dir pid)
           ++ [exe_header pid; exe_line pfs (proc_dir pid); fd_header pid])
          ++ [no_fd_line])
    by (by rewrite <- !app_assoc).
  rewrite map_app. eapply frame_trans; [exact Hf|].
  rewrite <- (same_process_me _ _ Hs). by apply frame_log.
Qed.

Lemma task4_without_fd_witness :
  path_exists bare_proc (proc_dir 1) = true
  /\ path_exists bare_proc (proc_dir 1 +:+ "/fd") = false
  /\ status_report bare_proc (proc_dir 1)
     = [[Lit "Name:   init"]; [Lit "State:  S (sleeping)"]]
  /\ exists w',
    run (task4_inspect_proc bare_proc 1) (boot quiet_env) = Done tt w'
    /\ since (boot quiet_env) w'
       = map (EvPrint 100 Stdout)
           ([status_header 1] ++ status_report bare_proc (proc_dir 1)
            ++ [exe_header 1; exe_line bare_proc (proc_dir 1); fd_header 1;
                no_fd_line]).
Proof.
  split; [reflexivity|]. split; [reflexivity|]. split; [reflexivity|].
  apply (task4_without_fd bare_proc 1 (boot quiet_env)); reflexivity.
Defined.

End Task4.

(** ** Task 5, record by record *)

Section Task5Records.

Lemma task5_child_run_at (w : World) (i : Z) (wc : World) (h : halt)
    (wc' : World) (new : list event) :
  env wc = env w -> parent (proc wc) = me w ->
  outcome (run (@task5_child (list Z) i) wc) = (h, wc') ->
  frame wc wc' new ->
  exists t,
    task5_run_at (env w) i t
      {| cr_pid := me wc; cr_halt := h; cr_events := new |}.
Proof.
  intros He _. unfold task5_child. rewrite cpu_work_value.
  unfold me. simpl.
  set (t0 := now (mach wc) + Z.of_N (elapse (env wc) (S (tick (mach wc))))).
  set (dt := Z.of_N (elapse (env wc) (S (S (tick (mach wc)))))).
  assert (Hdt : t0 + dt - t0 = dt) by lia.
  destruct (nice_denied (env wc) (tick (mach wc))) eqn:Hd; simpl;
    destruct (open_denied (env wc) (S (S (S (tick (mach wc)))))) eqn:Ho;
    simpl; intros [= <- <-] Hf; exists (tick (mach wc));
    unfold task5_run_at, task5_duration_at; rewrite <- He, Hd, Ho;
    (split; [reflexivity|]);
    cbn [cr_events cr_pid]; fold dt; rewrite <- Hdt;
    (eapply frame_unique; [exact Hf|]);
    unfold frame; simpl; unfold me; rewrite <- ?app_assoc; by split_and!.
Qed.

Lemma task5_run_at_run (e : Env) (i : Z) (t : nat) (r : child_run) :
  task5_run_at e i t r -> task5_run i r.
Proof.
  intros (Hh & Hev).
  exists (nice_denied e t), (negb (open_denied e (S (S (S t))))),
    (task5_duration_at e t).
  split; [unfold task5_duration_at; lia|].
  rewrite Hh, Hev. by destruct (open_denied e (S (S (S t)))).
Qed.

(** One turn of the loop that reads the records back, with what
    decides the removal of the record. *)
Lemma run_collect_body_exact (c : Z) (acc : list entry) (w : World) :
  exists rd w1,
    run (collect_body c acc) w = Done (acc ++ option_list (read_entry rd)) w1
    /\ rd_pid rd = c
    /\ rd_raw rd = fs (mach w) !! result_path c
    /\ rd_unlinked rd
       = rd_present rd && negb (unlink_denied (env w) (tick (mach w)))
    /\ frame w w1 (read_events (me w) rd)
    /\ same_process w w1.
Proof.
  unfold collect_body. cbn [bind sys run do_call].
  destruct (fs (mach w) !! result_path c) as [raw|] eqn:Hfs.
  - rewrite bool_decide_eq_true_2 by eauto.
    unfold me. simpl. rewrite Hfs. simpl.
    destruct (unlink_denied (env w) (tick (mach w))) eqn:Hu.
    + exists {| rd_pid := c; rd_raw := Some raw; rd_unlinked := false |}.
      unfold read_entry, read_events, entry_of_raw, rd_present. simpl.
      destruct (parse_record (py_strip raw)) as [e|e]; simpl; rewrite Hfs, Hu;
        simpl; eexists; (split; [by rewrite ?app_nil_r|]);
        split_and!; try done.
      all: unfold frame; simpl; unfold me; rewrite <- ?app_assoc; by split_and!.
    + exists {| rd_pid := c; rd_raw := Some raw; rd_unlinked := true |}.
      unfold read_entry, read_events, entry_of_raw, rd_present. simpl.
      destruct (parse_record (py_strip raw)) as [e|e]; simpl; rewrite Hfs, Hu;
        simpl; eexists; (split; [by rewrite ?app_nil_r|]);
        split_and!; try done.
      all: unfold frame; simpl; unfold me; rewrite <- ?app_assoc; by split_and!.
  - rewrite bool_decide_eq_false_2 by (by intros [? ?]).
    exists {| rd_pid := c; rd_raw := None; rd_unlinked := false |}.
    eexists. unfold read_entry, read_events, rd_present. simpl.
    split; [by rewrite app_nil_r|]. by split_and!.
Qed.

(** The files after one turn. *)
Lemma replay_read_events (p : Z) (rd : record_read) (f : gmap string string) :
  replay (read_events p rd) f
  = if rd_unlinked rd && rd_present rd
    then delete (result_path (rd_pid rd)) f else f.
Proof.
  unfold read_events, rd_present. destruct (rd_raw rd) as [raw|].
  - destruct (entry_of_raw raw), (rd_unlinked rd); done.
  - by rewrite andb_false_r.
Qed.

Lemma run_collect_loop_exact (cs : list Z) :
  forall acc w, exists reads w',
    run (for_each cs collect_body acc) w
    = Done (acc ++ omap read_entry reads) w'
    /\ map rd_pid reads = cs
    /\ frame w w' (concat (map (read_events (me w)) reads))
    /\ same_process w w'
    /\ (NoDup cs ->
        forall rd, In rd reads ->
                   rd_raw rd = fs (mach w) !! result_path (rd_pid rd))
    /\ ((forall t, unlink_denied (env w) t = false) ->
        forall rd, In rd reads -> rd_unlinked rd = rd_present rd).
Proof.
  induction cs as [|c cs IH]; intros acc w.
  - exists [], w. simpl. rewrite app_nil_r.
    split_and!; try done. apply frame_refl.
  - destruct (run_collect_body_exact c acc w)
      as (rd & w1 & Hrun & Hpid & Hraw & Hun & Hf & Hs).
    destruct (IH (acc ++ option_list (read_entry rd)) w1)
      as (reads & w' & Hrun' & Hpids & Hf' & Hs' & Hexact & Hquiet).
    exists (rd :: reads), w'. split_and!.
    + cbn [for_each]. rewrite run_bind by apply collect_body_fork_free.
      rewrite Hrun, Hrun'. f_equal. rewrite <- app_assoc. f_equal.
      rewrite omap_cons. by destruct (read_entry rd).
    + simpl. by rewrite Hpid, Hpids.
    + cbn [map concat]. eapply frame_trans; [exact Hf|].
      by rewrite <- (same_process_me _ _ Hs).
    + by eapply same_process_trans.
    + intros Hnd rd' [<-|Hin].
      * by rewrite Hpid.
      * apply NoDup_cons in Hnd as [Hc Hnd].
        rewrite (Hexact Hnd _ Hin).
        destruct Hf as (_ & _ & -> & _). rewrite replay_read_events.
        destruct (rd_unlinked rd && rd_present rd); [|done].
        apply lookup_delete_ne. rewrite Hpid. intros Heq%result_path_inj.
        apply Hc. rewrite <- Hpids. apply list_elem_of_In, in_map_iff.
        exists rd'. by split.
    + intros Hok rd' [<-|Hin].
      * by rewrite Hun, Hok, andb_true_r.
      * apply Hquiet; [|done]. intros t.
        destruct Hf as (_ & -> & _). apply Hok.
Qed.

Lemma plain_lines (p n : Z) :
  plain (spawning_line p n) /\ plain results_line /\ plain table_header
  /\ plain interpretation_line.
Proof. by repeat split. Qed.

(** The whole run of task 5, to the letter. *)
Lemma task5_frame_at (n : Z) (w : World) :
  exists runs recs reads w',
    run (task5_prioritization n) w = Done tt w'
    /\ Forall2 (fun i r => exists t, task5_run_at (env w) i t r)
         (range 0 n) runs
    /\ length recs = length runs
    /\ map rd_pid reads = map cr_pid runs
    /\ frame w w' (task5_trace (me w) (spawning_line (me w) n) results_line
                     table_header interpretation_line runs recs reads)
    /\ NoDup (map cr_pid runs)
    /\ Forall (fun c => Z.pos (last_pid (mach w)) < c) (map cr_pid runs)
    /\ (forall rd, In rd reads ->
          rd_raw rd
          = replay (concat (map (spawn_events (me w)) runs)) (fs (mach w))
              !! result_path (rd_pid rd))
    /\ ((forall t, unlink_denied (env w) t = false) ->
        forall rd, In rd reads -> rd_unlinked rd = rd_present rd)
    /\ exists rest,
         Permutation (kids (proc w) ++ map exit_record runs) (recs ++ rest).
Proof.
  unfold task5_prioritization.
  rewrite run_getpid, run_print. set (w0 := log _ w).
  rewrite run_spawn_loop by apply task5_child_no_ret.
  destruct (spawn_all_runs (@task5_child (list Z))
              (fun i r => exists t, task5_run_at (env w) i t r) (range 0 n)
              w0 (task5_child_run_at w0))
    as (runs & Hcs & HR & Hf1 & Hs1 & Hk1 & _ & Hlo & Hso).
  destruct (spawn_all _ w0) as [cs w1]. simpl in Hcs, Hf1, Hs1, Hk1, Hlo, Hso.
  subst cs. rewrite run_bind by prove_fork_free.
  destruct (run_wait_loop _ reaped_line5 reap_report5
              ltac:(intros []; prove_fork_free)
              ([] ++ map cr_pid runs) w1)
    as (recs & w2 & -> & Hl & Hf2 & Hs2 & Hk2).
  { rewrite Hk1. simpl. rewrite length_app, !length_map. lia. }
  simpl in Hl. rewrite length_map in Hl.
  rewrite run_print. set (w3 := log _ w2).
  unfold collect_loop.
  rewrite run_bind
    by (apply fork_free_for_each; intros; apply collect_body_fork_free).
  destruct (run_collect_loop_exact ([] ++ map cr_pid runs) [] w3)
    as (reads & w4 & -> & Hpids & Hf4 & Hs4 & Hexact & Hquiet).
  cbv beta zeta. rewrite run_print. set (w5 := log _ w4).
  rewrite run_bind
    by (unfold report_rows; apply fork_free_for_each; intros [[] ] ?;
        prove_fork_free).
  destruct (run_report_rows (sort_by duration_of ([] ++ omap read_entry reads)) w5)
    as (w6 & -> & Hf6 & Hs6).
  assert (Hme1 : me w1 = me w) by (by rewrite (same_process_me _ _ Hs1)).
  assert (Hme2 : me w2 = me w) by (by rewrite (same_process_me _ _ Hs2)).
  assert (Hme4 : me w4 = me w)
    by (by rewrite (same_process_me _ _ Hs4)).
  assert (Hme6 : me w6 = me w)
    by (by rewrite (same_process_me _ _ Hs6)).
  assert (Hfs3 : fs (mach w3)
                 = replay (concat (map (spawn_events (me w)) runs)) (fs (mach w))).
  { destruct Hf1 as (_ & _ & E1 & _). destruct Hf2 as (_ & _ & E2 & _).
    change (fs (mach w3)) with (fs (mach w2)).
    by rewrite E2, replay_reap_events, E1. }
  assert (Henv3 : env w3 = env w).
  { destruct Hf1 as (_ & E1 & _). destruct Hf2 as (_ & E2 & _).
    change (env w3) with (env w2). by rewrite E2, E1. }
  exists runs, recs, reads. eexists.
  split; [reflexivity|].
  simpl in Hpids.
  split; [exact HR|]. split; [exact Hl|]. split; [exact Hpids|].
  split; [|split; [by apply sorted_lt_NoDup|split; [exact Hlo|split; [|split]]]].
  - unfold task5_trace.
    eapply (frame_trans w w0); [subst w0; by apply frame_log|].
    eapply (frame_trans w0 w1); [exact Hf1|].
    eapply (frame_trans w1 w2); [by rewrite Hme1 in Hf2|].
    eapply (frame_trans w2 w3 _ [_]);
      [subst w3; rewrite <- Hme2; by apply frame_log|].
    eapply (frame_trans w3 w4); [by rewrite <- Hme2|].
    eapply (frame_trans w4 w5 _ [_]);
      [subst w5; rewrite <- Hme4; by apply frame_log|].
    eapply (frame_trans w5 w6); [by rewrite <- Hme4|].
    rewrite <- Hme6. by apply frame_log.
  - intros rd Hin. rewrite <- Hfs3. apply Hexact; [|done].
    by apply sorted_lt_NoDup.
  - intros Hok. apply Hquiet. intros t. rewrite Henv3. apply Hok.
  - exists (kids (proc w2)). by rewrite <- Hk1.
Qed.

(** *** The files during the run *)


Lemma touched_app (a b : list event) : touched (a ++ b) = touched a ++ touched b.
Proof. apply omap_app. Qed.





























(** The records of a run do not collide: every record is written by a
    child of the run under the key of its own pid, and no two records
    of the run share a path. *)
Theorem task5_records_do_not_collide (n : Z) (w : World) :
  exists w',
    run (task5_prioritization n) w = Done tt w'
    /\ NoDup (forked_by (me w) (since w w'))
    /\ NoDup (map (fun x : Z * string * string => x.1.2) (writes (since w w')))
    /\ forall pid path content,
         In (pid, path, content) (writes (since w w')) ->
         In pid (forked_by (me w) (since w w')) /\ path = result_path pid.
Proof.
  destruct (task5_frame_at n w)
    as (runs & recs & reads & w' & Hrun & HR & Hl & Hpids & Hf & Hnd & _).
  exists w'. split; [exact Hrun|]. rewrite (frame_since _ _ _ Hf).
  assert (HR5 : Forall2 task5_run (range 0 n) runs).
  { eapply List.Forall2_impl; [|exact HR]. intros i r (t & Ht).
    by eapply task5_run_at_run. }
  destruct (plain_lines (me w) n) as (P0 & P1 & P2 & P3).
  destruct (task5_observations (me w) _ _ _ _ _ runs recs reads
              P0 P1 P2 P3 HR5) as (Hfk & _ & Hwr & _).
  rewrite Hfk, Hwr.
  assert (Hone : forall r, In r runs ->
            writes (cr_events r) = []
            \/ exists content,
                 writes (cr_events r)
                 = [(cr_pid r, result_path (cr_pid r), content)]).
  { intros r Hr. destruct (Forall2_right _ _ _ _ HR Hr) as (i & _ & t & _ & Hev).
    rewrite Hev.
    destruct (nice_denied (env w) t), (open_denied (env w) (S (S (S t))));
      simpl; eauto. }
  split; [exact Hnd|]. split.
  - clear -Hnd Hone. induction runs as [|r runs IH]; [constructor|].
    cbn [map concat]. rewrite map_app.
    apply NoDup_cons in Hnd as [Hr Hnd].
    specialize (IH Hnd (fun r' Hr' => Hone r' (or_intror Hr'))).
    destruct (Hone r (or_introl eq_refl)) as [->|(content & ->)]; [done|].
    simpl. constructor; [|done].
    intros Hin%list_elem_of_In. apply in_map_iff in Hin as (x & Hx & Hin).
    apply in_concat in Hin as (l & Hl & Hin).
    apply in_map_iff in Hl as (r' & <- & Hr').
    destruct (Hone r' (or_intror Hr')) as [E|(content' & E)];
      rewrite E in Hin; [done|].
    destruct Hin as [<-|[]]. simpl in Hx. apply result_path_inj in Hx.
    apply Hr. rewrite <- Hx. apply list_elem_of_In, in_map_iff. by exists r'.
  - intros pid path content (l & Hl' & Hin)%in_concat.
    apply in_map_iff in Hl' as (r & <- & Hr).
    destruct (Hone r Hr) as [E|(content' & E)]; rewrite E in Hin; [done|].
    destruct Hin as [[= <- <- <-]|[]]. split; [|done].
    apply in_map_iff. by exists r.
Qed.

(** *** Malformed records *)

Lemma split_on_length (sep : ascii) (s : string) :
  forall cur, length (split_on sep cur s) = S (count_char sep s).
Proof.
  induction s as [|c s IH]; intros cur; simpl; [done|].
  destruct (Ascii.eqb c sep); simpl; by rewrite IH.
Qed.

Lemma parse_record_field_count (txt : string) :
  count_char "," txt <> 2%nat -> parse_record txt = inl ValueError.
Proof.
  intros Hn. unfold parse_record, py_split_sep.
  pose proof (split_on_length "," txt "") as Hl.
  destruct (split_on "," "" txt) as [|a [|b [|c [|d l]]]]; try done.
  simpl in Hl. lia.
Qed.

(** A record that does not hold exactly three fields separated by
    commas (an empty or a truncated file, say) is reported as
    malformed, adds nothing to the entries, and is removed all the
    same, unless the kernel refuses the removal, which is ignored. *)
Theorem wrong_field_count_is_malformed (pid : Z) (acc : list entry)
    (raw : string) (w : World) :
  fs (mach w) !! result_path pid = Some raw ->
  count_char "," (py_strip raw) <> 2%nat ->
  exists w',
    run (collect_body pid acc) w = Done acc w'
    /\ since w w'
       = [EvStat (me w) (result_path pid) true;
          EvRead (me w) (result_path pid) raw;
          EvPrint (me w) Stdout (malformed pid)]
         ++ (if unlink_denied (env w) (tick (mach w)) then []
             else [EvUnlink (me w) (result_path pid)])
    /\ fs (mach w')
       = if unlink_denied (env w) (tick (mach w)) then fs (mach w)
         else delete (result_path pid) (fs (mach w)).
Proof.
  intros Hfs Hn.
  destruct (run_collect_body_exact pid acc w)
    as (rd & w' & Hrun & Hpid & Hraw & Hun & Hf & _).
  rewrite Hfs in Hraw.
  assert (He : entry_of_raw raw = None).
  { unfold entry_of_raw. by rewrite (parse_record_field_count _ Hn). }
  assert (Hp : rd_present rd = true) by (unfold rd_present; by rewrite Hraw).
  rewrite Hp in Hun. simpl in Hun.
  exists w'. split; [|split].
  - rewrite Hrun. unfold read_entry. rewrite Hraw, He. simpl.
    by rewrite app_nil_r.
  - rewrite (frame_since _ _ _ Hf). unfold read_events.
    rewrite Hraw, He, Hun, Hpid. simpl.
    by destruct (unlink_denied (env w) (tick (mach w))).
  - destruct Hf as (_ & _ & -> & _). rewrite replay_read_events.
    rewrite Hp, Hun, Hpid.
    by destruct (unlink_denied (env w) (tick (mach w))).
Qed.

Lemma wrong_field_count_is_malformed_witness :
  fs (mach (set_fs (<[result_path 7 := "7,0"]> ∅) (boot quiet_env)))
    !! result_path 7 = Some "7,0"
  /\ count_char "," (py_strip "7,0") <> 2%nat
  /\ exists w',
    run (collect_body 7 []) (set_fs (<[result_path 7 := "7,0"]> ∅)
                               (boot quiet_env))
    = Done [] w'.
Proof.
  assert (H1 : fs (mach (set_fs (<[result_path 7 := "7,0"]> ∅)
                           (boot quiet_env)))
               !! result_path 7 = Some "7,0")
    by apply lookup_insert_eq.
  assert (H2 : count_char "," (py_strip "7,0") <> 2%nat) by (by vm_compute).
  split; [exact H1|]. split; [exact H2|].
  destruct (wrong_field_count_is_malformed 7 [] "7,0" _ H1 H2)
    as (w' & Hrun & _).
  exists w'. exact Hrun.
Defined.

(** The record format is read back without loss: what the parent
    parses from the line that a child formats is the pid, the offset
    and the duration of the child, to the microsecond, for every
    integer value, negative ones included; so two records are equal
    only if their three fields are. *)
Theorem record_round_trip (pid nice_offset duration : Z) :
  parse_record (py_strip (format_record pid nice_offset duration))
  = inr (pid, nice_offset, us_float duration)
  /\ forall pid' nice_offset' duration',
       format_record pid nice_offset duration
       = format_record pid' nice_offset' duration' ->
       pid = pid' /\ nice_offset = nice_offset' /\ duration = duration'.
Proof.
  assert (Hparse : forall p o d,
            parse_record (py_strip (format_record p o d))
            = inr (p, o, us_float d)).
  { intros p o d. pose proof (parse_format_record p o d) as H.
    unfold entry_of_raw in H.
    destruct (parse_record (py_strip (format_record p o d))) as [x|x];
      [discriminate|by injection H as ->]. }
  split; [apply Hparse|].
  intros pid' off' d' Heq.
  pose proof (Hparse pid nice_offset duration) as H1.
  rewrite Heq, Hparse in H1. injection H1 as H1a H1b H1c.
  by split_and!.
Qed.

End Task5Records.

(** ** The command line, with the inspector *)

Section MainInspect.

(** On a system that is not POSIX, [main] prints one line and ends
    with exit status 1 whatever the arguments: nothing is forked,
    read or written. *)
Theorem main_requires_posix (inspect : Z -> prog unit) (args : Namespace)
    (w : World) :
  os_name (env w) <> "posix" ->
  exists w',
    run (main inspect args) w = Halted (HExit 1) w'
    /\ since w w'
       = [EvPrint (me w) Stdout
            [Lit "This script requires a POSIX system (Linux)."]].
Proof.
  intros Hos%String.eqb_neq. unfold main. simpl. rewrite Hos. simpl.
  eexists. split; [reflexivity|]. by apply since_intro.
Qed.

Lemma main_requires_posix_witness :
  os_name nt_env <> "posix"
  /\ exists w',
    run (main (fun _ => Ret tt) (sample_args 1 None)) (boot nt_env)
    = Halted (HExit 1) w'
    /\ since (boot nt_env) w'
       = [EvPrint 100 Stdout
            [Lit "This script requires a POSIX system (Linux)."]].
Proof.
  split; [discriminate|].
  apply (main_requires_posix (fun _ => Ret tt) (sample_args 1 None)
           (boot nt_env)).
  discriminate.
Defined.

(** Every pid other than 0, a negative one included, reaches the
    inspector unchanged; when [/proc/<pid>] does not exist the whole
    run is one line, and [main] returns normally. *)
Theorem main_inspects_nonzero_pid (pfs : ProcFs) (args : Namespace)
    (pid : Z) (w : World) :
  args_task args = 4 -> args_pid args = Some pid -> pid <> 0 ->
  os_name (env w) = "posix" ->
  run (main (task4_inspect_proc pfs) args) w
  = run (task4_inspect_proc pfs pid) w
  /\ (path_exists pfs (proc_dir pid) = false ->
      exists w',
        run (main (task4_inspect_proc pfs) args) w = Done tt w'
        /\ since w w' = [EvPrint (me w) Stdout (missing_line pid)]).
Proof.
  intros Ht Hp Hz Hos.
  assert (Hmain : run (main (task4_inspect_proc pfs) args) w
                  = run (task4_inspect_proc pfs pid) w).
  { unfold main. simpl. rewrite Ht, Hp, Hos. simpl.
    apply Z.eqb_neq in Hz. by rewrite Hz. }
  split; [exact Hmain|].
  intros Hmiss. rewrite Hmain. unfold task4_inspect_proc. rewrite Hmiss.
  eexists. split; [reflexivity|]. by apply since_intro.
Qed.

Lemma main_inspects_nonzero_pid_witness :
  args_task (sample_args 4 (Some (-5))) = 4
  /\ args_pid (sample_args 4 (Some (-5))) = Some (-5)
  /\ -5 <> 0
  /\ os_name (env (boot quiet_env)) = "posix"
  /\ path_exists empty_proc (proc_dir (-5)) = false
  /\ exists w',
    run (main (task4_inspect_proc empty_proc) (sample_args 4 (Some (-5))))
      (boot quiet_env) = Done tt w'
    /\ since (boot quiet_env) w' = [EvPrint 100 Stdout (missing_line (-5))].
Proof.
  split; [reflexivity|]. split; [reflexivity|]. split; [lia|].
  split; [reflexivity|]. split; [reflexivity|].
  destruct (main_inspects_nonzero_pid empty_proc
              (sample_args 4 (Some (-5))) (-5) (boot quiet_env)
              eq_refl eq_refl ltac:(lia) eq_refl) as [_ H].
  exact (H eq_refl).
Defined.

End MainInspect.
